(** * Binary geo-clustering feature: a model of [process_live_data_and_cluster]

    The notebook [Feature Engineering/Clustering/Binary_Clustering.ipynb]
    defines one function, [process_live_data_and_cluster], which copies a
    pandas DataFrame, normalises a few columns, derives [month] and [week],
    drops the raw timestamp columns and adds the boolean column [clusters]
    computed from the labels of an HDBSCAN run over [(latitude, longitude)].

    The development below embeds that function over
    - a store of DataFrame objects addressed by reference (the function
      mutates its working copy in place),
    - typed columns kept in a finite map from column names,
    - IEEE binary64 numbers for the float columns,
    - Python exceptions as an error result. *)

From Stdlib Require Import ZArith String Ascii Bool.
From Stdlib Require Import PrimFloat Uint63 FloatOps FloatAxioms SpecFloat.
From stdpp Require Import base option list strings gmap.

Set Warnings "-inexact-float".
Local Open Scope Z_scope.

(** ** Exceptions and results *)

Inductive exn : Type :=
| KeyError (label : string)
| ValueError (msg : string)
| TypeError (msg : string)
| AttributeError (msg : string)
| OutOfBoundsDatetime
| InvalidReference.

Inductive result (A : Type) : Type :=
| Ok (a : A)
| Raise (e : exn).
Arguments Ok {A} a.
Arguments Raise {A} e.

Definition is_ok {A} (r : result A) : bool :=
  match r with Ok _ => true | Raise _ => false end.

Definition result_map {A B} (f : A → B) (r : result A) : result B :=
  match r with Ok a => Ok (f a) | Raise e => Raise e end.

(** Traversal of a list that stops at the first exception. *)
Fixpoint result_mapM {A B} (f : A → result B) (l : list A) : result (list B) :=
  match l with
  | [] => Ok []
  | x :: l' =>
      match f x with
      | Raise e => Raise e
      | Ok y => result_map (cons y) (result_mapM f l')
      end
  end.

(** ** A state-and-exception monad

    A computation reads and writes a state [S] and either returns a value
    or raises; the state reached when the exception was raised is kept, as
    a Python object mutated before a [raise] stays mutated. *)

Definition SE (S A : Type) : Type := S → result A * S.

Definition se_ret {S A} (a : A) : SE S A := λ s, (Ok a, s).

Definition se_bind {S A B} (k : A → SE S B) (m : SE S A) : SE S B :=
  λ s, match m s with
       | (Ok a, s') => k a s'
       | (Raise e, s') => (Raise e, s')
       end.

Definition lift {S A} (r : result A) : SE S A := λ s, (r, s).

#[global] Instance se_mret {S} : MRet (SE S) := @se_ret S.
#[global] Instance se_mbind {S} : MBind (SE S) := @se_bind S.

(** ** Calendar dates

    A [datetime64] cell is kept as its calendar date; the function only
    reads the month and the ISO week of a timestamp. *)

Record date : Type := Date { year : Z; month : Z; day : Z }.

Definition is_leapyear (y : Z) : bool :=
  (y mod 4 =? 0) && (negb (y mod 100 =? 0) || (y mod 400 =? 0)).

Definition days_per_month (y m : Z) : Z :=
  match m with
  | 1 | 3 | 5 | 7 | 8 | 10 | 12 => 31
  | 4 | 6 | 9 | 11 => 30
  | 2 => if is_leapyear y then 29 else 28
  | _ => 0
  end.

(** Days of the year before the first of month [m]. *)
Definition month_offset (y m : Z) : Z :=
  let leap := if is_leapyear y then 1 else 0 in
  match m with
  | 1 => 0 | 2 => 31 | 3 => 59 + leap | 4 => 90 + leap
  | 5 => 120 + leap | 6 => 151 + leap | 7 => 181 + leap | 8 => 212 + leap
  | 9 => 243 + leap | 10 => 273 + leap | 11 => 304 + leap | _ => 334 + leap
  end.

Definition get_day_of_year (d : date) : Z := month_offset (year d) (month d) + day d.

Definition sakamoto (m : Z) : Z :=
  match m with
  | 1 => 0 | 2 => 3 | 3 => 2 | 4 => 5 | 5 => 0 | 6 => 3
  | 7 => 5 | 8 => 1 | 9 => 4 | 10 => 6 | 11 => 2 | _ => 4
  end.

(** Day of the week, Monday = 0 ... Sunday = 6. *)
Definition dayofweek (d : date) : Z :=
  let y := if month d <? 3 then year d - 1 else year d in
  let w := (y + y / 4 - y / 100 + y / 400 + sakamoto (month d) + day d) mod 7 in
  (w + 6) mod 7.

(** ISO 8601 week number, as [Series.dt.weekofyear] reports it. *)
Definition get_week_of_year (d : date) : Z :=
  let doy := get_day_of_year d in
  let dow := dayofweek d in
  let est := (doy - 1) - dow + 3 in
  if est <? 0 then
    if (-2 <? est) || ((est =? -2) && is_leapyear (year d - 1)) then 53 else 52
  else
    let w := est / 7 + 1 in
    if (w =? 53) && (31 - day d + dow <? 3) then 1 else w.

Definition valid_date (d : date) : bool :=
  (1 <=? month d) && (month d <=? 12) && (1 <=? day d)
  && (day d <=? days_per_month (year d) (month d)).

(** Lexicographic order on dates. *)
Definition date_leb (a b : date) : bool :=
  (year a <? year b)
  || ((year a =? year b)
      && ((month a <? month b) || ((month a =? month b) && (day a <=? day b)))).

(** Midnights representable as a nanosecond [Timestamp]. *)
Definition Timestamp_min : date := Date 1677 9 22.
Definition Timestamp_max : date := Date 2262 4 11.

Definition digit_of (c : ascii) : option Z :=
  let n := Z.of_N (N_of_ascii c) in
  if (48 <=? n) && (n <=? 57) then Some (n - 48) else None.

(** The ISO 8601 calendar form [YYYY-MM-DD]; this is the form of the
    [acq_date] field of the FIRMS feed the notebook reads.  What else
    [pd.to_datetime] reads (the empty string as a missing date, other
    spellings of a date) is outside the model: the model refuses it, and
    the properties of dates below are stated on strings in this form. *)
Definition parse_iso_date (s : string) : option date :=
  match s with
  | String y1 (String y2 (String y3 (String y4 (String "-"
      (String m1 (String m2 (String "-" (String d1 (String d2 EmptyString))))))))) =>
      a ← digit_of y1; b ← digit_of y2; c ← digit_of y3; e ← digit_of y4;
      f ← digit_of m1; g ← digit_of m2; i ← digit_of d1; j ← digit_of d2;
      Some (Date (1000 * a + 100 * b + 10 * c + e) (10 * f + g) (10 * i + j))
  | _ => None
  end.

Definition to_timestamp (s : string) : result date :=
  match parse_iso_date s with
  | None => Raise (ValueError "Unknown string format")
  | Some d =>
      if negb (valid_date d) then Raise (ValueError "day is out of range for month")
      else if date_leb Timestamp_min d && date_leb d Timestamp_max then Ok d
      else Raise OutOfBoundsDatetime
  end.

(** ** Binary64 rounding to a number of decimals

    [ndarray.round(decimals)] with positive [decimals] is
    [rint(a * 10**decimals) / 10**decimals], each operation rounded to
    binary64. *)

Definition two52 : float := 4503599627370496%float.

(** Sign bit, also of a zero. *)
Definition signbit (x : float) : bool :=
  ((x <? 0) || ((x =? 0) && (1 / x <? 0)))%float.

(** Round to the nearest integer, ties to even.  Below [2^52] adding and
    subtracting [2^52] rounds at the unit; from [2^52] on every binary64
    number is an integer already.  NaN and the infinities are returned as
    they are, and the sign of the argument is kept on a zero result. *)
Definition rint (x : float) : float :=
  if (PrimFloat.abs x <? two52)%float then
    let r := (PrimFloat.abs x + two52 - two52)%float in
    if signbit x then (- r)%float else r
  else x.

Fixpoint power_of_ten (n : nat) : float :=
  match n with
  | O => 1%float
  | S n' => (10 * power_of_ten n')%float
  end.

Definition around (decimals : nat) (x : float) : float :=
  let f := power_of_ten decimals in (rint (x * f) / f)%float.

(** ** Columns and frames

    A column has one dtype for all its cells.  A frame keeps its row labels
    (the index) and its columns by name; every column of a frame built by
    pandas has one cell per row label ([frame_wf]). *)

Inductive column : Type :=
| FloatCol (xs : list float)
| IntCol (xs : list Z)
| BoolCol (xs : list bool)
| ObjectCol (xs : list string)
| DatetimeCol (xs : list date).

Inductive value : Type :=
| VFloat (x : float)
| VInt (z : Z)
| VBool (b : bool)
| VStr (s : string)
| VTimestamp (d : date).

Definition col_values (c : column) : list value :=
  match c with
  | FloatCol xs => VFloat <$> xs
  | IntCol xs => VInt <$> xs
  | BoolCol xs => VBool <$> xs
  | ObjectCol xs => VStr <$> xs
  | DatetimeCol xs => VTimestamp <$> xs
  end.

Definition col_length (c : column) : nat := length (col_values c).

Record DataFrame : Type := {
  df_index : list Z;
  df_columns : gmap string column
}.

Definition nrows (f : DataFrame) : nat := length (df_index f).

Definition frame_wf (f : DataFrame) : Prop :=
  map_Forall (λ _ c, col_length c = nrows f) (df_columns f).

Definition frame_wfb (f : DataFrame) : bool :=
  forallb (λ kc, Nat.eqb (col_length kc.2) (nrows f)) (map_to_list (df_columns f)).

(** The cell of column [c] at row position [i]. *)
Definition cell (f : DataFrame) (c : string) (i : nat) : option value :=
  col ← df_columns f !! c; col_values col !! i.

(** ** Series operations used by the function *)

(** [pd.to_datetime] over a column of strings, or of timestamps already.
    A numeric column, which pandas reads as nanoseconds since the epoch, is
    outside the model, and refused by it. *)
Definition pd_to_datetime (c : column) : result column :=
  match c with
  | ObjectCol xs => result_map DatetimeCol (result_mapM to_timestamp xs)
  | DatetimeCol _ => Ok c
  | _ => Raise (TypeError "not convertible to datetime")
  end.

Fixpoint dict_get (d : list (string * string)) (k : string) : option string :=
  match d with
  | [] => None
  | (k', v) :: d' => if String.eqb k' k then Some v else dict_get d' k
  end.

(** [Series.replace(dict)]: a cell equal to a key becomes the key's value,
    every other cell stays; cells that are not strings equal no key. *)
Definition replace_cell (d : list (string * string)) (s : string) : string :=
  default s (dict_get d s).

Definition Series_replace (d : list (string * string)) (c : column) : column :=
  match c with
  | ObjectCol xs => ObjectCol (replace_cell d <$> xs)
  | _ => c
  end.

(** [Series.round(decimals)]: floats are rounded, integers are returned as
    they are, other dtypes have no rounding. *)
Definition Series_round (decimals : nat) (c : column) : result column :=
  match c with
  | FloatCol xs => Ok (FloatCol (around decimals <$> xs))
  | IntCol _ => Ok c
  | _ => Raise (TypeError "loop of ufunc does not support argument 0")
  end.

Definition dt_month (c : column) : result column :=
  match c with
  | DatetimeCol xs => Ok (IntCol (month <$> xs))
  | _ => Raise (AttributeError "Can only use .dt accessor with datetimelike values")
  end.

Definition dt_weekofyear (c : column) : result column :=
  match c with
  | DatetimeCol xs => Ok (IntCol (get_week_of_year <$> xs))
  | _ => Raise (AttributeError "Can only use .dt accessor with datetimelike values")
  end.

Definition Series_apply (f : value → bool) (c : column) : column :=
  BoolCol (f <$> col_values c).

(** The label HDBSCAN gives to a point it leaves out of every cluster. *)
Definition noise : Z := -1.

(** [lambda x: False if x == -1 else True] *)
Definition in_cluster (x : value) : bool :=
  match x with
  | VInt z => if z =? noise then false else true
  | VFloat r => if (r =? -1)%float then false else true
  | VBool _ | VStr _ | VTimestamp _ => true
  end.

(** ** Operations on one frame *)

Definition frame_getitem (c : string) : SE DataFrame column :=
  λ f, match df_columns f !! c with
       | Some col => (Ok col, f)
       | None => (Raise (KeyError c), f)
       end.

Definition frame_getitems (cs : list string) : SE DataFrame (list column) :=
  λ f, (result_mapM (λ c, match df_columns f !! c with
                          | Some col => Ok col
                          | None => Raise (KeyError c)
                          end) cs, f).

(** [df[c] = series], the series being derived from a column of [df]
    itself: it carries the index of [df], so alignment leaves it in place. *)
Definition frame_setitem (c : string) (col : column) : SE DataFrame unit :=
  λ f, (Ok tt, {| df_index := df_index f; df_columns := <[c := col]> (df_columns f) |}).

(** [df[c] = array]: an array has no index and must have one value per row. *)
Definition frame_setitem_array (c : string) (vals : list Z) : SE DataFrame unit :=
  λ f, if Nat.eqb (length vals) (nrows f)
       then (Ok tt, {| df_index := df_index f;
                       df_columns := <[c := IntCol vals]> (df_columns f) |})
       else (Raise (ValueError "Length of values does not match length of index"), f).

(** The message of [Index.drop] for the labels it did not find, written
    as numpy prints an array of strings: [['acq_time'] not found in axis]. *)
Definition not_found_in_axis (missing : list string) : string :=
  String.append "["
    (String.append
       (String.concat " " ((λ c, String.append "'" (String.append c "'")) <$> missing))
       "] not found in axis").

(** [df.drop(columns=labels, inplace=True)]: every label must be there;
    otherwise nothing is dropped and the [KeyError] names the labels that
    are missing. *)
Definition frame_drop (labels : list string) : SE DataFrame unit :=
  λ f, match List.filter (λ c, bool_decide (df_columns f !! c = None)) labels with
       | [] => (Ok tt, {| df_index := df_index f;
                          df_columns := foldr delete (df_columns f) labels |})
       | c :: cs => (Raise (KeyError (not_found_in_axis (c :: cs))), f)
       end.

(** ** The store of frames

    A DataFrame variable holds a reference.  [original_df.copy()] allocates
    a new object; item assignment and [drop(..., inplace=True)] write to the
    object a reference points to. *)

Abbreviation loc := nat (only parsing).
Abbreviation heap := (list DataFrame) (only parsing).

Definition DataFrame_copy (l : loc) : SE heap loc :=
  λ h, match h !! l with
       | Some f => (Ok (length h), h ++ [f])
       | None => (Raise InvalidReference, h)
       end.

(** Run an operation on the frame that [l] points to. *)
Definition on_frame {A} (l : loc) (m : SE DataFrame A) : SE heap A :=
  λ h, match h !! l with
       | Some f => let '(r, f') := m f in (r, <[l := f']> h)
       | None => (Raise InvalidReference, h)
       end.

Definition getitem (df : loc) (c : string) : SE heap column :=
  on_frame df (frame_getitem c).
Definition getitems (df : loc) (cs : list string) : SE heap (list column) :=
  on_frame df (frame_getitems cs).
Definition setitem (df : loc) (c : string) (col : column) : SE heap unit :=
  on_frame df (frame_setitem c col).
Definition setitem_array (df : loc) (c : string) (vals : list Z) : SE heap unit :=
  on_frame df (frame_setitem_array c vals).
Definition drop_columns (df : loc) (labels : list string) : SE heap unit :=
  on_frame df (frame_drop labels).

(** [sim l g M m]: on a store where [l] points to a frame, the store
    computation [M] is the frame computation [m] run on that frame, the
    result passed through [g]; no other object is read or written. *)
Definition sim {A B} (l : loc) (g : A → B) (M : SE heap B) (m : SE DataFrame A) : Prop :=
  ∀ h f, h !! l = Some f →
    M h = (result_map g (m f).1, <[l := (m f).2]> h).

(** ** The density clustering

    [hdbscan.HDBSCAN(min_cluster_size, min_samples).fit(X).labels_] is a
    library call: one integer label per row of [X], [noise] for the rows
    left out of every cluster.  The function is embedded over any
    implementation; the clusterer object is built inside the function and
    fitted once, so its labels depend on the arguments of the call only.
    ([gen_min_span_tree] keeps a tree for plotting and changes no label.) *)

Class DensityClusterer : Type :=
  HDBSCAN_fit_labels : nat → nat → list column → result (list Z).

Section Transform.
Context {hdbscan : DensityClusterer}.

Definition satellite_names : list (string * string) :=
  [("T", "Terra"); ("A", "Aqua")].

Definition process_live_data_and_cluster (original_df : loc) : SE heap loc :=
  df ← DataFrame_copy original_df;
  acq ← getitem df "acq_date";
  acq ← lift (pd_to_datetime acq);
  setitem df "acq_date" acq;;
  sat ← getitem df "satellite";
  setitem df "satellite" (Series_replace satellite_names sat);;
  lat ← getitem df "latitude";
  lat ← lift (Series_round 2 lat);
  setitem df "latitude" lat;;
  lon ← getitem df "longitude";
  lon ← lift (Series_round 2 lon);
  setitem df "longitude" lon;;
  acq ← getitem df "acq_date";
  m ← lift (dt_month acq);
  setitem df "month" m;;
  acq ← getitem df "acq_date";
  w ← lift (dt_weekofyear acq);
  setitem df "week" w;;
  drop_columns df ["acq_date"; "acq_time"];;
  X ← getitems df ["latitude"; "longitude"];
  labels ← lift (HDBSCAN_fit_labels 50 20 X);
  setitem_array df "clusters" labels;;
  cl ← getitem df "clusters";
  setitem df "clusters" (Series_apply in_cluster cl);;
  mret df.

(** The statements after the copy, as one operation on the working copy. *)
Definition transform : SE DataFrame unit :=
  acq ← frame_getitem "acq_date";
  acq ← lift (pd_to_datetime acq);
  frame_setitem "acq_date" acq;;
  sat ← frame_getitem "satellite";
  frame_setitem "satellite" (Series_replace satellite_names sat);;
  lat ← frame_getitem "latitude";
  lat ← lift (Series_round 2 lat);
  frame_setitem "latitude" lat;;
  lon ← frame_getitem "longitude";
  lon ← lift (Series_round 2 lon);
  frame_setitem "longitude" lon;;
  acq ← frame_getitem "acq_date";
  m ← lift (dt_month acq);
  frame_setitem "month" m;;
  acq ← frame_getitem "acq_date";
  w ← lift (dt_weekofyear acq);
  frame_setitem "week" w;;
  frame_drop ["acq_date"; "acq_time"];;
  X ← frame_getitems ["latitude"; "longitude"];
  labels ← lift (HDBSCAN_fit_labels 50 20 X);
  frame_setitem_array "clusters" labels;;
  cl ← frame_getitem "clusters";
  frame_setitem "clusters" (Series_apply in_cluster cl);;
  mret tt.

(** The working copy when the clustering is called: the input's columns
    with the assignments and the drop applied in the order of the
    statements.  [dates] are the parsed timestamps, [sat] the satellite
    column, [lat'] and [lon'] the rounded coordinates. *)
Definition preprocessed (f : DataFrame) (dates : list date) (sat lat' lon' : column) :
    DataFrame :=
  {| df_index := df_index f;
     df_columns :=
       delete "acq_date" (delete "acq_time"
       (<["week" := IntCol (get_week_of_year <$> dates)]>
       (<["month" := IntCol (month <$> dates)]>
       (<["longitude" := lon']>
       (<["latitude" := lat']>
       (<["satellite" := Series_replace satellite_names sat]>
       (<["acq_date" := DatetimeCol dates]> (df_columns f)))))))) |}.

(** The frame the function returns when every statement succeeds, [labels]
    being the labels of the clustering. *)
Definition output (f : DataFrame) (dates : list date) (sat lat' lon' : column)
    (labels : list Z) : DataFrame :=
  {| df_index := df_index f;
     df_columns :=
       <["clusters" := Series_apply in_cluster (IntCol labels)]>
       (<["clusters" := IntCol labels]>
       (df_columns (preprocessed f dates sat lat' lon'))) |}.

End Transform.

(** ** A reference clusterer

    Clustering by co-location: a row belongs to a cluster when at least
    [min_cluster_size] rows of the batch have exactly its coordinates; the
    cluster is named by the position of its first row.  It is the limit of
    a density clustering at radius zero and serves as an executable
    instance of [DensityClusterer]. *)

Module Colocated.

Definition value_eqb (a b : value) : bool :=
  match a, b with
  | VFloat x, VFloat y => PrimFloat.eqb x y
  | VInt x, VInt y => x =? y
  | VBool x, VBool y => Bool.eqb x y
  | VStr x, VStr y => String.eqb x y
  | VTimestamp x, VTimestamp y => date_leb x y && date_leb y x
  | _, _ => false
  end.

Fixpoint row_eqb (r s : list value) : bool :=
  match r, s with
  | [], [] => true
  | a :: r', b :: s' => value_eqb a b && row_eqb r' s'
  | _, _ => false
  end.

(** The rows of a matrix given by its columns; [None] when the columns
    differ in length or there is no column. *)
Fixpoint rows_of (X : list (list value)) : option (list (list value)) :=
  match X with
  | [] => None
  | [c] => Some ((λ v, [v]) <$> c)
  | c :: X' =>
      rs ← rows_of X';
      if Nat.eqb (length c) (length rs) then Some (zip_with cons c rs) else None
  end.

Fixpoint first_index (r : list value) (rs : list (list value)) (i : Z) : Z :=
  match rs with
  | [] => i
  | s :: rs' => if row_eqb r s then i else first_index r rs' (i + 1)
  end.

Definition label_of (min_cluster_size : nat) (rs : list (list value))
    (r : list value) : Z :=
  if Nat.leb min_cluster_size (length (filter (λ s, row_eqb r s = true) rs))
  then first_index r rs 0 else noise.

Definition fit_labels (min_cluster_size min_samples : nat) (X : list column) :
    result (list Z) :=
  match rows_of (col_values <$> X) with
  | None => Raise (ValueError "inconsistent numbers of samples")
  | Some rs => Ok (label_of min_cluster_size rs <$> rs)
  end.

#[export] Instance clusterer : DensityClusterer := fit_labels.

End Colocated.

(** ** A clusterer that checks its input

    [HDBSCAN.fit] passes its argument through scikit-learn's
    [check_array] before it clusters, and [check_array] asks for at least
    one sample: a matrix without rows is refused with a [ValueError].
    [Validating] puts that check before the reference clustering. *)

Module Validating.

Definition n_samples (X : list column) : nat :=
  match X with
  | [] => 0%nat
  | c :: _ => col_length c
  end.

Definition check_array (X : list column) : result (list column) :=
  if Nat.eqb (n_samples X) 0
  then Raise (ValueError
         "Found array with 0 sample(s) (shape=(0, 2)) while a minimum of 1 is required.")
  else Ok X.

Definition fit_labels (min_cluster_size min_samples : nat) (X : list column) :
    result (list Z) :=
  match check_array X with
  | Raise e => Raise e
  | Ok X' => Colocated.fit_labels min_cluster_size min_samples X'
  end.

#[export] Instance clusterer : DensityClusterer := fit_labels.

End Validating.

(** ** When the function returns

    The conditions under which every statement before the clustering
    succeeds, the matrix the clustering is fitted on, and its labels. *)

Definition preprocessable (f : DataFrame) : bool :=
  match df_columns f !! "acq_date", df_columns f !! "acq_time",
        df_columns f !! "satellite",
        df_columns f !! "latitude", df_columns f !! "longitude" with
  | Some acq, Some _, Some _, Some lat, Some lon =>
      is_ok (pd_to_datetime acq)
      && is_ok (Series_round 2 lat) && is_ok (Series_round 2 lon)
  | _, _, _, _, _ => false
  end.

(** [df[['latitude','longitude']]] at the time of the fit: the two
    coordinate columns, rounded. *)
Definition coordinates (f : DataFrame) : result (list column) :=
  match df_columns f !! "latitude", df_columns f !! "longitude" with
  | Some lat, Some lon =>
      match Series_round 2 lat, Series_round 2 lon with
      | Ok lat', Ok lon' => Ok [lat'; lon']
      | Raise e, _ => Raise e
      | _, Raise e => Raise e
      end
  | None, _ => Raise (KeyError "latitude")
  | _, None => Raise (KeyError "longitude")
  end.

Definition cluster_labels {hdbscan : DensityClusterer} (f : DataFrame) : result (list Z) :=
  match coordinates f with
  | Ok X => HDBSCAN_fit_labels 50 20 X
  | Raise e => Raise e
  end.

(** The feature as the specification words it: a row is a member when its
    cluster identifier is not the noise sentinel. *)
Definition cluster_membership (cluster_id : Z) : bool :=
  bool_decide (cluster_id ≠ noise).

(** The satellite lookup as the specification words it. *)
Definition normalize_satellite (v : value) : value :=
  match v with
  | VStr "T" => VStr "Terra"
  | VStr "A" => VStr "Aqua"
  | _ => v
  end.

(** Model features the function neither reads nor assigns. *)
Definition passthrough : list string :=
  ["daynight"; "brightness"; "track"; "scan"; "bright_t31"; "frp"; "confidence"].

(** Modelled from the spec: the density-clustering library (hdbscan) is
    not part of the repository; the function only calls it.  The
    specification gives the clustering a minimum cluster size and leaves
    the rows that are in no cluster as noise: a cluster identifier is
    carried by at least [min_cluster_size] rows of the batch. *)
Definition min_cluster_size_respected (min_cluster_size : nat) (labels : list Z) : bool :=
  forallb (λ c, (c =? noise)
                || Nat.leb min_cluster_size (length (filter (λ c', c' = c) labels)))
          labels.

(** What a call leaves to its caller: the frame behind the reference it
    returned, or the exception. *)
Definition returned (o : result loc * heap) : result (option DataFrame) :=
  match o.1 with
  | Ok l => Ok (o.2 !! l)
  | Raise e => Raise e
  end.

(** The [clusters] column a call leaves to its caller. *)
Definition clusters_of (o : result loc * heap) : result (option column) :=
  result_map (λ out, out ≫= λ f, df_columns f !! "clusters") (returned o).

(** ** The two-decimal grid

    [hundredths k] is the binary64 number [k / 100]: what the rounding
    returns when [rint] has produced the integer [k]. *)

Definition float_of_Z (k : Z) : float :=
  if k <? 0 then (- of_uint63 (Uint63.of_Z (- k)))%float
  else of_uint63 (Uint63.of_Z k).

Definition hundredths (k : Z) : float := (float_of_Z k / 100)%float.

(** Rounding [x] again gives [x], bit for bit. *)
Definition fixed_by_around (x : float) : bool := Leibniz.eqb (around 2 x) x.

Fixpoint all_from (n : nat) (start : Z) (p : Z → bool) : bool :=
  match n with
  | O => true
  | S n' => p start && all_from n' (start + 1) p
  end.

(** [p] holds of every integer from [lo] to [hi]. *)
Definition all_between (lo hi : Z) (p : Z → bool) : bool :=
  all_from (Z.to_nat (hi - lo + 1)) lo p.

(** ** Binary64 arithmetic on its specification

    The kernel's binary64 operations are specified on [spec_float] (sign,
    mantissa and exponent).  The definitions below restate the rounding
    model on that representation and name the quantities the analysis of
    [around 2] speaks about. *)

Definition SF100 : spec_float := Eval vm_compute in Prim2SF 100%float.
Definition SF2p52 : spec_float := Eval vm_compute in Prim2SF two52.
Definition SFzero : spec_float := Eval vm_compute in Prim2SF 0%float.
Definition SFone : spec_float := Eval vm_compute in Prim2SF 1%float.

(** [signbit], [rint] and [around 2] on the specification. *)
Definition SFsignbit (X : spec_float) : bool :=
  SFltb X SFzero || (SFeqb X SFzero && SFltb (SF64div SFone X) SFzero).

Definition SFrint (X : spec_float) : spec_float :=
  if SFltb (SFabs X) SF2p52 then
    let R := SF64sub (SF64add (SFabs X) SF2p52) SF2p52 in
    if SFsignbit X then SFopp R else R
  else X.

Definition SFaround (X : spec_float) : spec_float :=
  SF64div (SFrint (SF64mul X SF100)) SF100.

(** Nearest integer to [a / b], ties to even. *)
Definition rne_div (a b : Z) : Z :=
  let q := a / b in
  match 2 * (a mod b) ?= b with
  | Lt => q
  | Eq => if Z.even q then q else q + 1
  | Gt => q + 1
  end.

(** Where the remainder [r] of a division by [b] lies: zero, or below, at
    or above the half of [b]. *)
Definition loc_of_rem (r b : Z) : location :=
  if r =? 0 then loc_Exact else loc_Inexact (2 * r ?= b).

Definition two53 : Z := 9007199254740992.
Definition two52Z : Z := 4503599627370496.

(** The float of sign [s] for a rounded mantissa [m1 ≤ 2^53] at exponent
    [e1]: zero, a carry into the next binade, or overflow. *)
Definition round_result (s : bool) (m1 e1 : Z) : spec_float :=
  if m1 =? 0 then S754_zero s
  else if m1 =? two53 then
    if e1 + 1 <=? 971 then S754_finite s 4503599627370496 (e1 + 1) else S754_infinity s
  else if e1 <=? 971 then S754_finite s (Z.to_pos m1) e1 else S754_infinity s.

(** The mantissa of 100, which is [25 * 2^48] at exponent [-46]. *)
Definition M100 : Z := 7036874417766400.

(** The float of an integer [0 ≤ K ≤ 2^53 - 1], with sign [s]. *)
Definition SFint (s : bool) (K : Z) : spec_float :=
  if K =? 0 then S754_zero s
  else S754_finite s (Z.to_pos (K * 2 ^ (53 - Zdigits2 K))) (Zdigits2 K - 53).

(** Mantissas below [cut] are multiplied by [2^5 / 25] when divided by 100,
    the others by [2^4 / 25]. *)
Definition cut : Z := 7036874417766400.

(** A normal float [Mk * 2^Ek] whose value is an integer. *)
Definition int_float (Mk Ek : Z) : Prop :=
  two52Z ≤ Mk < two53 ∧ -52 ≤ Ek ≤ 971 ∧ (Ek < 0 → Mk mod 2 ^ (- Ek) = 0).

(** [X] is returned by dividing by 100, multiplying by 100 and rounding to
    an integer. *)
Definition fixed (X : spec_float) : Prop :=
  SFrint (SF64mul (SF64div X SF100) SF100) = X.

(** The mantissa [M] comes back from scaling by [16 / 25] and back. *)
Definition roundtrip (M : Z) : Prop :=
  M < cut ∨ rne_div (25 * rne_div (16 * M) 25) 16 = M.

(** What makes an integer-valued [Mk * 2^Ek] come back: the quotient keeps
    one more bit, the spacing of the product absorbs the error, or the
    mantissa comes back by itself. *)
Definition good (Mk Ek : Z) : Prop :=
  Mk < cut ∨ Ek ≤ -2 ∨ (Ek = -1 ∧ Z.even (Mk / 2) = true) ∨
  rne_div (25 * rne_div (16 * Mk) 25) 16 = Mk.

(** ** Sample batches *)

Module Samples.

(** One detection, as a row of the FIRMS feed. *)
Definition single_row : DataFrame :=
  {| df_index := [0];
     df_columns := list_to_map
       [("latitude", FloatCol [34.567%float]);
        ("longitude", FloatCol [(-118.123)%float]);
        ("acq_date", ObjectCol ["2020-01-05"]);
        ("acq_time", ObjectCol ["1200"]);
        ("satellite", ObjectCol ["T"])] |}.

(** Three detections with the model features. *)
Definition small_batch : DataFrame :=
  {| df_index := [0; 1; 2];
     df_columns := list_to_map
       [("latitude", FloatCol [34.567; 34.571; 40.1]%float);
        ("longitude", FloatCol [-118.123; -118.119; -100.25]%float);
        ("acq_date", ObjectCol ["2020-01-05"; "2020-01-05"; "2019-12-30"]);
        ("acq_time", IntCol [1200; 1205; 2359]);
        ("satellite", ObjectCol ["T"; "A"; "N"]);
        ("daynight", ObjectCol ["D"; "D"; "N"]);
        ("brightness", FloatCol [310.5; 305.25; 330]%float);
        ("track", FloatCol [1.1; 1.2; 1]%float);
        ("scan", FloatCol [1; 1.5; 2]%float);
        ("bright_t31", FloatCol [290.5; 288; 295.75]%float);
        ("frp", FloatCol [12.5; 8; 40.25]%float);
        ("confidence", IntCol [80; 55; 100])] |}.

(** Fifty detections at one place and two far from it and from each other. *)
Definition dense_batch : DataFrame :=
  {| df_index := Z.of_nat <$> seq 0 52;
     df_columns := list_to_map
       [("latitude", FloatCol (replicate 50 34.567 ++ [10.5; -20.25])%float);
        ("longitude", FloatCol (replicate 50 (-118.123) ++ [60; 135.75])%float);
        ("acq_date", ObjectCol (replicate 52 "2020-01-05"));
        ("acq_time", IntCol (replicate 52 1200));
        ("satellite", ObjectCol (replicate 51 "A" ++ ["T"]))] |}.

(** A batch that has the coordinates of [small_batch] and
    nothing else in common with it: other row labels, dates, satellites
    and features. *)
Definition other_small_batch : DataFrame :=
  {| df_index := [7; 8; 9];
     df_columns := list_to_map
       [("latitude", FloatCol [34.567; 34.571; 40.1]%float);
        ("longitude", FloatCol [-118.123; -118.119; -100.25]%float);
        ("acq_date", ObjectCol ["2021-06-30"; "2021-07-01"; "2021-07-02"]);
        ("acq_time", IntCol [5; 10; 15]);
        ("satellite", ObjectCol ["A"; "A"; "A"]);
        ("frp", FloatCol [1; 2; 3]%float)] |}.

(** Five places with fifty detections each, and ten detections alone. *)
Definition five_groups : DataFrame :=
  {| df_index := Z.of_nat <$> seq 0 260;
     df_columns := list_to_map
       [("latitude",
         FloatCol ((mjoin ((λ c, replicate 50 c) <$> [10.25; 20.5; 30.75; 40; 50.125])
                    ++ [-1; -2; -3; -4; -5; -6; -7; -8; -9; -10])%float));
        ("longitude",
         FloatCol ((mjoin ((λ c, replicate 50 c) <$> [-100; -101.5; -102.25; -103; -104.75])
                    ++ [1; 2; 3; 4; 5; 6; 7; 8; 9; 10])%float));
        ("acq_date", ObjectCol (replicate 260 "2020-01-05"));
        ("acq_time", IntCol (replicate 260 1200));
        ("satellite", ObjectCol (replicate 260 "T"))] |}.


End Samples.

(** ** The features the model pipeline selects

    The column transformer of the notebook one-hot encodes [ohe_features],
    scales [scale_features] and drops every other column
    ([remainder='drop']); each list is looked up by name in the frame the
    pipeline is given. *)

Definition ohe_features : list string :=
  ["satellite"; "daynight"; "month"; "week"; "clusters"].

Definition scale_features : list string :=
  ["brightness"; "track"; "scan"; "bright_t31"; "frp"].

(** The columns of the input that the function passes on and the pipeline
    selects. *)
Definition model_features : list string :=
  ["daynight"; "brightness"; "track"; "scan"; "bright_t31"; "frp"].

(** The columns the function reads, assigns or drops. *)
Definition touched : list string :=
  ["acq_date"; "acq_time"; "satellite"; "latitude"; "longitude";
   "month"; "week"; "clusters"].

(** The columns a call cannot do without. *)
Definition required : list string :=
  ["acq_date"; "acq_time"; "satellite"; "latitude"; "longitude"].

(** ** Dates that convert, and dates that do not *)

(** A string written [YYYY-MM-DD] that names a calendar day between the
    bounds of a [Timestamp]: what [to_timestamp] accepts. *)
Definition iso_calendar_day (s : string) : bool :=
  match parse_iso_date s with
  | Some d => valid_date d && date_leb Timestamp_min d && date_leb d Timestamp_max
  | None => false
  end.

(** A day number beyond the end of its month, as in [2019-02-29]. *)
Definition day_out_of_month (d : date) : bool :=
  (1 <=? month d) && (month d <=? 12)
  && (days_per_month (year d) (month d) <? day d).

(** A calendar day that a nanosecond [Timestamp] cannot hold. *)
Definition out_of_bounds (d : date) : bool :=
  valid_date d && negb (date_leb Timestamp_min d && date_leb d Timestamp_max).

(** ** Calendar days in a row *)

(** The day after [d]. *)
Definition tomorrow (d : date) : date :=
  if day d <? days_per_month (year d) (month d) then Date (year d) (month d) (day d + 1)
  else if month d <? 12 then Date (year d) (month d + 1) 1
  else Date (year d + 1) 1 1.

(** A Monday on which the ISO year begins: 29 December to 4 January. *)
Definition iso_year_start (d : date) : bool :=
  ((month d =? 12) && (29 <=? day d)) || ((month d =? 1) && (day d <=? 4)).

(** What the ISO 8601 week numbering asks of a day [d] and the day after:
    the day of the week advances by one; the week number stays within a
    week and on a Monday it goes up by one, or back to 1 when the Monday
    begins an ISO year. *)
Definition iso_week_step (d : date) : bool :=
  let d' := tomorrow d in
  let dow' := dayofweek d' in
  let week := get_week_of_year d in
  let week' := get_week_of_year d' in
  (dow' =? (dayofweek d + 1) mod 7)
  && (if dow' =? 0
      then if iso_year_start d' then week' =? 1 else week' =? week + 1
      else week' =? week).

(** [iso_week_step] on every calendar day of a month and of a year. *)
Definition iso_weeks_of_month (y m : Z) : bool :=
  all_between 1 31 (λ dd,
    implb (valid_date (Date y m dd)) (iso_week_step (Date y m dd))).

Definition iso_weeks_of_year (y : Z) : bool :=
  all_between 1 12 (iso_weeks_of_month y).

(** The number of rows of a boolean column that are [True]. *)
Definition count_true (bs : list bool) : nat := length (filter (λ b, b = true) bs).

Module MoreSamples.

(** A feed without the [acq_time] column. *)
Definition no_acq_time : DataFrame :=
  {| df_index := [0; 1];
     df_columns := list_to_map
       [("latitude", FloatCol [34.567; 40.1]%float);
        ("longitude", FloatCol [-118.123; -100.25]%float);
        ("acq_date", ObjectCol ["2020-01-05"; "2019-12-30"]);
        ("satellite", ObjectCol ["T"; "A"])] |}.

(** A feed without the [acq_date] column. *)
Definition no_acq_date : DataFrame :=
  {| df_index := [0; 1];
     df_columns := list_to_map
       [("latitude", FloatCol [34.567; 40.1]%float);
        ("longitude", FloatCol [-118.123; -100.25]%float);
        ("acq_time", IntCol [1200; 2359]);
        ("satellite", ObjectCol ["T"; "A"])] |}.

(** A feed whose second date is no calendar day and whose third is before
    the first representable timestamp. *)
Definition bad_dates : DataFrame :=
  {| df_index := [0; 1; 2];
     df_columns := list_to_map
       [("latitude", FloatCol [34.567; 34.571; 40.1]%float);
        ("longitude", FloatCol [-118.123; -118.119; -100.25]%float);
        ("acq_date", ObjectCol ["2020-01-05"; "2019-02-29"; "1500-01-01"]);
        ("acq_time", IntCol [1200; 1205; 2359]);
        ("satellite", ObjectCol ["T"; "A"; "N"])] |}.

(** The small batch with its dates parsed already, as a pickled frame has
    them. *)
Definition small_batch_parsed : DataFrame :=
  {| df_index := df_index Samples.small_batch;
     df_columns :=
       <["acq_date" := DatetimeCol [Date 2020 1 5; Date 2020 1 5; Date 2019 12 30]]>
         (df_columns Samples.small_batch) |}.

(** What the function returns on the small batch when no row is clustered. *)
Definition small_batch_out : DataFrame :=
  output Samples.small_batch [Date 2020 1 5; Date 2020 1 5; Date 2019 12 30]
    (ObjectCol ["T"; "A"; "N"])
    (FloatCol [34.57; 34.57; 40.1]%float)
    (FloatCol [-118.12; -118.12; -100.25]%float)
    [-1; -1; -1].

(** The coordinates of the small batch, moved by less than the rounding. *)
Definition small_batch_moved : DataFrame :=
  {| df_index := [3; 4; 5];
     df_columns := list_to_map
       [("latitude", FloatCol [34.5701; 34.5749; 40.0951]%float);
        ("longitude", FloatCol [-118.1151; -118.1249; -100.2549]%float);
        ("acq_date", ObjectCol ["2021-06-30"; "2021-07-01"; "2021-07-02"]);
        ("acq_time", IntCol [5; 10; 15]);
        ("satellite", ObjectCol ["A"; "A"; "A"])] |}.

(** A clusterer that refuses every matrix, as [hdbscan] refuses a matrix
    with a NaN. *)
Definition refusing : DensityClusterer :=
  λ _ _ _, Raise (ValueError "Input contains NaN, infinity or a value too large").

End MoreSamples.

(** ** The normalised confusion matrix

    [normalized_confusion_matrix] divides every row of the confusion
    matrix by its sum, labels the quotient with [range(2)] on both axes and
    draws it as an annotated heat map.  [confusion_matrix] is a call into
    scikit-learn: a square matrix of counts, one row per true class.  The
    drawing is kept as the description of the figure shown. *)

Class ConfusionMatrix : Type :=
  confusion_matrix : list Z → list Z → result (list (list Z)).

(** [int64] arithmetic wraps around. *)
Definition int64_wrap (z : Z) : Z :=
  (z + 9223372036854775808) mod 18446744073709551616 - 9223372036854775808.

(** An [int64] as the nearest binary64 number. *)
Definition float_of_int64 (k : Z) : float :=
  if k =? -9223372036854775808 then (-9223372036854775808)%float else float_of_Z k.

(** [cm.astype('float')] *)
Definition astype_float (cm : list (list Z)) : list (list float) :=
  fmap (M := list) (fmap (M := list) float_of_int64) cm.

(** [cm.sum(axis=1)]: the [int64] sum of every row. *)
Definition row_sum (row : list Z) : Z := int64_wrap (foldr Z.add 0 row).

Definition sum_axis1 (cm : list (list Z)) : list Z := row_sum <$> cm.

(** [a / s[:, np.newaxis]]: every cell of row [i] divided by [s[i]]. *)
Definition divide_rows (a : list (list float)) (s : list Z) : list (list float) :=
  zip_with (λ row si, (λ x, (x / float_of_int64 si)%float) <$> row) a s.

(** The shape of a two-dimensional array given by its rows. *)
Definition shape {A} (a : list (list A)) : nat * nat :=
  (length a, match a with [] => 0%nat | row :: _ => length row end).

Definition range (n : nat) : list Z := Z.of_nat <$> seq 0 n.

Record Heatmap : Type := {
  hm_data : list (list float);
  hm_index : list Z;
  hm_columns : list Z;
  hm_font_scale : float;
  hm_annot : bool;
  hm_annot_size : Z;
  hm_xlabel : string;
  hm_ylabel : string;
  hm_title : string
}.

Section ConfusionPlot.
Context {sklearn : ConfusionMatrix}.

Definition normalized_confusion_matrix (y_test y_pred : list Z) (title : string) :
    result Heatmap :=
  match confusion_matrix y_test y_pred with
  | Raise e => Raise e
  | Ok cm =>
      let array := divide_rows (astype_float cm) (sum_axis1 cm) in
      (* pd.DataFrame(array, range(2), range(2)) *)
      if bool_decide (shape array = (length (range 2), length (range 2))) then
        Ok {| hm_data := array; hm_index := range 2; hm_columns := range 2;
              hm_font_scale := 1.4; hm_annot := true; hm_annot_size := 16;
              hm_xlabel := "Predicted Fires"; hm_ylabel := "True Fires";
              hm_title := title |}
      else Raise (ValueError "Shape of passed values does not match the indices")
  end.

End ConfusionPlot.

(** A confusion matrix by counting, for labels that are integers: the
    classes are the labels that occur, in increasing order; cell [(i, j)]
    counts the samples of true class [i] predicted as class [j]. *)
Module Counting.

Fixpoint insert_sorted (x : Z) (l : list Z) : list Z :=
  match l with
  | [] => [x]
  | y :: l' => if x <? y then x :: l else if x =? y then l else y :: insert_sorted x l'
  end.

Definition classes (y_true y_pred : list Z) : list Z :=
  foldr insert_sorted [] (y_true ++ y_pred).

Definition count_pairs (t p : Z) (pairs : list (Z * Z)) : Z :=
  Z.of_nat (length (filter (λ tp, tp.1 = t ∧ tp.2 = p) pairs)).

Definition counts (y_true y_pred : list Z) : result (list (list Z)) :=
  if Nat.eqb (length y_true) (length y_pred) then
    let cs := classes y_true y_pred in
    Ok ((λ t, (λ p, count_pairs t p (zip y_true y_pred)) <$> cs) <$> cs)
  else Raise (ValueError "Found input variables with inconsistent numbers of samples").

#[export] Instance sklearn : ConfusionMatrix := counts.

End Counting.

(** * Properties *)

(** ** The monad and the store *)

Lemma se_bind_run {S A B} (m : SE S A) (k : A → SE S B) (s : S) :
  (m ≫= k) s = match m s with
               | (Ok a, s') => k a s'
               | (Raise e, s') => (Raise e, s')
               end.
Proof. reflexivity. Qed.

Lemma sim_on_frame {A} l (m : SE DataFrame A) : sim l id (on_frame l m) m.
Proof.
  intros h f Hl. unfold on_frame. rewrite Hl.
  destruct (m f) as [[a|e] f']; reflexivity.
Qed.

Lemma sim_lift {A} l (r : result A) : sim l id (lift r) (lift r).
Proof.
  intros h f Hl. unfold lift; simpl.
  rewrite (list_insert_id _ _ _ Hl). destruct r; reflexivity.
Qed.

Lemma sim_ret {A B} l (a : A) (b : B) : sim l (λ _, b) (mret b) (mret a).
Proof.
  intros h f Hl. cbn. unfold se_ret. simpl.
  rewrite (list_insert_id _ _ _ Hl). reflexivity.
Qed.

Lemma sim_bind {A B C} l (g : B → C) M K (m : SE DataFrame A) (k : A → SE DataFrame B) :
  sim l id M m → (∀ a, sim l g (K a) (k a)) → sim l g (M ≫= K) (m ≫= k).
Proof.
  intros HM HK h f Hl. rewrite !se_bind_run, (HM h f Hl).
  destruct (m f) as [[a|e] f']; simpl; [|reflexivity].
  assert (Hl' : <[l := f']> h !! l = Some f').
  { apply list_lookup_insert_eq. eapply lookup_lt_Some, Hl. }
  rewrite (HK a _ _ Hl'), list_insert_insert_eq. reflexivity.
Qed.

(** ** Running a sequence of statements on one frame *)

Lemma bind_getitem {B} c (k : column → SE DataFrame B) f :
  (frame_getitem c ≫= k) f =
  match df_columns f !! c with
  | Some col => k col f
  | None => (Raise (KeyError c), f)
  end.
Proof. rewrite se_bind_run. unfold frame_getitem. by destruct (df_columns f !! c). Qed.

Lemma bind_lift {A B} (r : result A) (k : A → SE DataFrame B) f :
  (lift r ≫= k) f = match r with Ok a => k a f | Raise e => (Raise e, f) end.
Proof. rewrite se_bind_run. by destruct r. Qed.

Lemma bind_setitem {B} c col (k : unit → SE DataFrame B) f :
  (frame_setitem c col ≫= k) f =
  k tt {| df_index := df_index f; df_columns := <[c := col]> (df_columns f) |}.
Proof. reflexivity. Qed.

Lemma bind_drop {B} labels (k : unit → SE DataFrame B) f :
  (frame_drop labels ≫= k) f =
  match List.filter (λ c, bool_decide (df_columns f !! c = None)) labels with
  | [] => k tt {| df_index := df_index f;
                  df_columns := foldr delete (df_columns f) labels |}
  | c :: cs => (Raise (KeyError (not_found_in_axis (c :: cs))), f)
  end.
Proof. rewrite se_bind_run. unfold frame_drop. by destruct (List.filter _ _). Qed.

Lemma bind_getitems {B} cs (k : list column → SE DataFrame B) f :
  (frame_getitems cs ≫= k) f =
  match result_mapM (λ c, match df_columns f !! c with
                          | Some col => Ok col
                          | None => Raise (KeyError c)
                          end) cs with
  | Ok X => k X f
  | Raise e => (Raise e, f)
  end.
Proof. rewrite se_bind_run. unfold frame_getitems. by destruct (result_mapM _ _). Qed.

Lemma bind_setitem_array {B} c vals (k : unit → SE DataFrame B) f :
  (frame_setitem_array c vals ≫= k) f =
  if Nat.eqb (length vals) (nrows f)
  then k tt {| df_index := df_index f;
               df_columns := <[c := IntCol vals]> (df_columns f) |}
  else (Raise (ValueError "Length of values does not match length of index"), f).
Proof. rewrite se_bind_run. unfold frame_setitem_array. by destruct (Nat.eqb _ _). Qed.

Lemma pd_to_datetime_Ok c c' :
  pd_to_datetime c = Ok c' → ∃ dates, c' = DatetimeCol dates.
Proof.
  destruct c; simpl; try discriminate.
  - destruct (result_mapM to_timestamp xs); simpl; [|discriminate].
    intros [= <-]. eauto.
  - intros [= <-]. eauto.
Qed.

(** Lookups of literal column names through the assignments and drops. *)
Ltac lookups :=
  cbn [df_columns df_index foldr];
  repeat first [ rewrite lookup_insert_eq
               | rewrite lookup_delete_eq
               | rewrite lookup_insert_ne by done
               | rewrite lookup_delete_ne by done ].

Section TransformFacts.
Context {hdbscan : DensityClusterer}.

(** The function allocates one object, the working copy, runs [transform]
    on it and returns its reference (or the exception [transform] raised);
    the objects that were in the store stay as they were. *)
Lemma process_run (h : heap) (l : loc) (f : DataFrame) :
  h !! l = Some f →
  process_live_data_and_cluster l h =
    (result_map (λ _, length h) (transform f).1, h ++ [(transform f).2]).
Proof.
  intros Hl. unfold process_live_data_and_cluster.
  rewrite se_bind_run. unfold DataFrame_copy at 1. rewrite Hl.
  assert (Hsim : sim (length h) (λ _ : unit, length h)
    (acq ← getitem (length h) "acq_date";
     acq ← lift (pd_to_datetime acq);
     setitem (length h) "acq_date" acq;;
     sat ← getitem (length h) "satellite";
     setitem (length h) "satellite" (Series_replace satellite_names sat);;
     lat ← getitem (length h) "latitude";
     lat ← lift (Series_round 2 lat);
     setitem (length h) "latitude" lat;;
     lon ← getitem (length h) "longitude";
     lon ← lift (Series_round 2 lon);
     setitem (length h) "longitude" lon;;
     acq ← getitem (length h) "acq_date";
     m ← lift (dt_month acq);
     setitem (length h) "month" m;;
     acq ← getitem (length h) "acq_date";
     w ← lift (dt_weekofyear acq);
     setitem (length h) "week" w;;
     drop_columns (length h) ["acq_date"; "acq_time"];;
     X ← getitems (length h) ["latitude"; "longitude"];
     labels ← lift (HDBSCAN_fit_labels 50 20 X);
     setitem_array (length h) "clusters" labels;;
     cl ← getitem (length h) "clusters";
     setitem (length h) "clusters" (Series_apply in_cluster cl);;
     mret (length h)) transform).
  { unfold transform.
    repeat (first [ apply sim_ret
                  | apply sim_bind; [first [apply sim_on_frame | apply sim_lift] | intros ?] ]). }
  rewrite (Hsim (h ++ [f]) f (list_lookup_middle h [] f _ eq_refl)).
  f_equal. replace (length h) with (length h + 0)%nat at 1 by lia.
  rewrite insert_app_r. reflexivity.
Qed.

(** A successful run went through every statement: the columns read were
    there, the conversions succeeded, the clustering returned one label per
    row, and the frame produced is [output]. *)
Lemma transform_inv f f' :
  transform f = (Ok tt, f') →
  ∃ acq dates sat lat lat' lon lon' labels,
    df_columns f !! "acq_date" = Some acq ∧
    pd_to_datetime acq = Ok (DatetimeCol dates) ∧
    df_columns f !! "satellite" = Some sat ∧
    df_columns f !! "latitude" = Some lat ∧
    Series_round 2 lat = Ok lat' ∧
    df_columns f !! "longitude" = Some lon ∧
    Series_round 2 lon = Ok lon' ∧
    is_Some (df_columns f !! "acq_time") ∧
    HDBSCAN_fit_labels 50 20 [lat'; lon'] = Ok labels ∧
    length labels = nrows f ∧
    f' = output f dates sat lat' lon' labels.
Proof.
  unfold transform.
  rewrite bind_getitem.
  destruct (df_columns f !! "acq_date") as [acq|] eqn:Hacq; [|discriminate].
  rewrite bind_lift.
  destruct (pd_to_datetime acq) as [acq'|] eqn:Hdt; [|discriminate].
  destruct (pd_to_datetime_Ok _ _ Hdt) as [dates ->].
  rewrite bind_setitem, bind_getitem. lookups.
  destruct (df_columns f !! "satellite") as [sat|] eqn:Hsat; [|discriminate].
  rewrite bind_setitem, bind_getitem. lookups.
  destruct (df_columns f !! "latitude") as [lat|] eqn:Hlat; [|discriminate].
  rewrite bind_lift.
  destruct (Series_round 2 lat) as [lat'|] eqn:Hlat'; [|discriminate].
  rewrite bind_setitem, bind_getitem. lookups.
  destruct (df_columns f !! "longitude") as [lon|] eqn:Hlon; [|discriminate].
  rewrite bind_lift.
  destruct (Series_round 2 lon) as [lon'|] eqn:Hlon'; [|discriminate].
  rewrite bind_setitem, bind_getitem. lookups.
  rewrite bind_lift. cbn [dt_month].
  rewrite bind_setitem, bind_getitem. lookups.
  rewrite bind_lift. cbn [dt_weekofyear].
  rewrite bind_setitem, bind_drop. cbn [List.filter]. lookups.
  rewrite bool_decide_eq_false_2 by done.
  destruct (df_columns f !! "acq_time") as [tm|] eqn:Htm.
  2:{ rewrite bool_decide_eq_true_2 by done. discriminate. }
  rewrite bool_decide_eq_false_2 by done.
  rewrite bind_getitems. cbn [result_mapM]. lookups. cbn [result_map].
  rewrite bind_lift.
  destruct (HDBSCAN_fit_labels 50 20 [lat'; lon']) as [labels|] eqn:Hfit; [|discriminate].
  rewrite bind_setitem_array. unfold nrows at 1. cbn [df_index].
  destruct (Nat.eqb (length labels) (length (df_index f))) eqn:Hlen; [|discriminate].
  rewrite bind_getitem. lookups. rewrite bind_setitem. lookups.
  intros [= <-]. apply Nat.eqb_eq in Hlen.
  exists acq, dates, sat, lat, lat', lon, lon', labels.
  repeat split; done.
Qed.

(** Conversely, when the columns are there and the conversions succeed,
    the run reaches the clustering with the frame [preprocessed]; it then
    raises what the clustering raises, or [ValueError] when the labels are
    not one per row, and succeeds with [output] otherwise. *)
Lemma transform_pre f acq dates sat lat lat' lon lon' :
  df_columns f !! "acq_date" = Some acq →
  pd_to_datetime acq = Ok (DatetimeCol dates) →
  df_columns f !! "satellite" = Some sat →
  df_columns f !! "latitude" = Some lat →
  Series_round 2 lat = Ok lat' →
  df_columns f !! "longitude" = Some lon →
  Series_round 2 lon = Ok lon' →
  is_Some (df_columns f !! "acq_time") →
  transform f =
    match HDBSCAN_fit_labels 50 20 [lat'; lon'] with
    | Raise e => (Raise e, preprocessed f dates sat lat' lon')
    | Ok labels =>
        if Nat.eqb (length labels) (nrows f)
        then (Ok tt, output f dates sat lat' lon' labels)
        else (Raise (ValueError "Length of values does not match length of index"),
              preprocessed f dates sat lat' lon')
    end.
Proof.
  intros Hacq Hdt Hsat Hlat Hlat' Hlon Hlon' [tm Htm].
  unfold transform.
  rewrite bind_getitem, Hacq, bind_lift, Hdt.
  rewrite bind_setitem, bind_getitem. lookups. rewrite Hsat.
  rewrite bind_setitem, bind_getitem. lookups. rewrite Hlat, bind_lift, Hlat'.
  rewrite bind_setitem, bind_getitem. lookups. rewrite Hlon, bind_lift, Hlon'.
  rewrite bind_setitem, bind_getitem. lookups.
  rewrite bind_lift. cbn [dt_month].
  rewrite bind_setitem, bind_getitem. lookups.
  rewrite bind_lift. cbn [dt_weekofyear].
  rewrite bind_setitem, bind_drop. cbn [List.filter]. lookups.
  rewrite bool_decide_eq_false_2 by done.
  rewrite Htm, bool_decide_eq_false_2 by done.
  rewrite bind_getitems. cbn [result_mapM]. lookups. cbn [result_map].
  rewrite bind_lift.
  destruct (HDBSCAN_fit_labels 50 20 [lat'; lon']) as [labels|e]; [|reflexivity].
  rewrite bind_setitem_array.
  unfold nrows at 1. cbn [df_index]. fold (nrows f).
  destruct (Nat.eqb (length labels) (nrows f)); [|reflexivity].
  rewrite bind_getitem. lookups. rewrite bind_setitem. lookups.
  reflexivity.
Qed.

Lemma transform_ok f acq dates sat lat lat' lon lon' labels :
  df_columns f !! "acq_date" = Some acq →
  pd_to_datetime acq = Ok (DatetimeCol dates) →
  df_columns f !! "satellite" = Some sat →
  df_columns f !! "latitude" = Some lat →
  Series_round 2 lat = Ok lat' →
  df_columns f !! "longitude" = Some lon →
  Series_round 2 lon = Ok lon' →
  is_Some (df_columns f !! "acq_time") →
  HDBSCAN_fit_labels 50 20 [lat'; lon'] = Ok labels →
  length labels = nrows f →
  transform f = (Ok tt, output f dates sat lat' lon' labels).
Proof.
  intros Hacq Hdt Hsat Hlat Hlat' Hlon Hlon' Htm Hfit Hlen.
  rewrite (transform_pre f acq dates sat lat lat' lon lon') by done.
  by rewrite Hfit, Hlen, Nat.eqb_refl.
Qed.

End TransformFacts.

Section Claims.
Context {hdbscan : DensityClusterer}.

Lemma is_ok_Ok {A} (r : result A) : is_ok r = true → ∃ a, r = Ok a.
Proof. destruct r; [eauto|discriminate]. Qed.

(** The function returns whenever the input is [preprocessable] and the
    clustering gives one label per row; the frame returned is [output]. *)
Lemma process_returns (h : heap) (l : loc) (f : DataFrame) (labels : list Z) :
  h !! l = Some f →
  preprocessable f = true →
  cluster_labels f = Ok labels →
  length labels = nrows f →
  ∃ acq dates sat lat lat' lon lon',
    df_columns f !! "acq_date" = Some acq ∧
    pd_to_datetime acq = Ok (DatetimeCol dates) ∧
    df_columns f !! "satellite" = Some sat ∧
    df_columns f !! "latitude" = Some lat ∧
    Series_round 2 lat = Ok lat' ∧
    df_columns f !! "longitude" = Some lon ∧
    Series_round 2 lon = Ok lon' ∧
    process_live_data_and_cluster l h =
      (Ok (length h), h ++ [output f dates sat lat' lon' labels]).
Proof.
  intros Hl Hpre Hfit Hlen. unfold preprocessable in Hpre.
  unfold cluster_labels, coordinates in Hfit.
  destruct (df_columns f !! "acq_date") as [acq|] eqn:Hacq; [|discriminate].
  destruct (df_columns f !! "acq_time") as [tm|] eqn:Htm; [|discriminate].
  destruct (df_columns f !! "satellite") as [sat|] eqn:Hsat; [|discriminate].
  destruct (df_columns f !! "latitude") as [lat|] eqn:Hlat; [|discriminate].
  destruct (df_columns f !! "longitude") as [lon|] eqn:Hlon; [|discriminate].
  apply andb_prop in Hpre as [Hpre Hlon']. apply andb_prop in Hpre as [Hdt Hlat'].
  apply is_ok_Ok in Hdt as [acq' Hdt].
  destruct (pd_to_datetime_Ok _ _ Hdt) as [dates ->].
  apply is_ok_Ok in Hlat' as [lat' Hlat']. apply is_ok_Ok in Hlon' as [lon' Hlon'].
  rewrite Hlat', Hlon' in Hfit.
  exists acq, dates, sat, lat, lat', lon, lon'.
  repeat (split; [done|]).
  rewrite (process_run h l f Hl).
  rewrite (transform_ok f acq dates sat lat lat' lon lon' labels); eauto.
Qed.

Lemma in_cluster_membership (z : Z) : in_cluster (VInt z) = cluster_membership z.
Proof.
  unfold in_cluster, cluster_membership.
  destruct (Z.eqb_spec z noise) as [->|Hne].
  - by rewrite bool_decide_eq_false_2 by (intros ?; done).
  - by rewrite bool_decide_eq_true_2.
Qed.

Lemma apply_in_cluster (labels : list Z) :
  Series_apply in_cluster (IntCol labels) = BoolCol (cluster_membership <$> labels).
Proof.
  unfold Series_apply. simpl. rewrite <- list_fmap_compose. f_equal.
  apply list_fmap_ext. intros _ z _. apply in_cluster_membership.
Qed.

Lemma output_clusters f dates sat lat' lon' labels :
  df_columns (output f dates sat lat' lon' labels) !! "clusters"
  = Some (BoolCol (cluster_membership <$> labels)).
Proof. unfold output. lookups. by rewrite apply_in_cluster. Qed.

(** The run and the column [clusters] of its frame, given the labels. *)
Lemma process_clusters (h : heap) (l : loc) (f : DataFrame) (labels : list Z) :
  h !! l = Some f →
  preprocessable f = true →
  cluster_labels f = Ok labels →
  length labels = nrows f →
  ∃ out,
    process_live_data_and_cluster l h = (Ok (length h), h ++ [out]) ∧
    nrows out = nrows f ∧
    df_columns out !! "clusters" = Some (BoolCol (cluster_membership <$> labels)).
Proof.
  intros Hl Hpre Hfit Hlen.
  destruct (process_returns h l f labels Hl Hpre Hfit Hlen)
    as (acq & dates & sat & lat & lat' & lon & lon' & _ & _ & _ & _ & _ & _ & _ & Hrun).
  eexists. split; [exact Hrun|]. split; [reflexivity|]. apply output_clusters.
Qed.

(** C1.  Whenever the clustering has assigned the labels [labels] to the
    rows of a batch, the function returns a frame with as many rows whose
    column [clusters] (the specification's [cluster_membership]) is, row by
    row, the boolean [cluster_id ≠ -1] of the row's label: a boolean for
    every row, [false] exactly on noise. *)
Theorem clusters_is_not_noise (h : heap) (l : loc) (f : DataFrame) (labels : list Z) :
  h !! l = Some f →
  preprocessable f = true →
  cluster_labels f = Ok labels →
  length labels = nrows f →
  ∃ out,
    process_live_data_and_cluster l h = (Ok (length h), h ++ [out]) ∧
    nrows out = nrows f ∧
    df_columns out !! "clusters" = Some (BoolCol (cluster_membership <$> labels)) ∧
    ∀ i, (i < nrows f)%nat →
      ∃ cluster_id, labels !! i = Some cluster_id ∧
        cell out "clusters" i = Some (VBool (bool_decide (cluster_id ≠ -1))).
Proof.
  intros Hl Hpre Hfit Hlen.
  destruct (process_clusters h l f labels Hl Hpre Hfit Hlen) as (out & Hrun & Hn & Hcol).
  exists out. repeat (split; [done|]).
  intros i Hi. rewrite <- Hlen in Hi.
  destruct (lookup_lt_is_Some_2 labels i Hi) as [c Hc].
  exists c. split; [done|].
  unfold cell. rewrite Hcol. simpl.
  rewrite !list_lookup_fmap, Hc. reflexivity.
Qed.

Lemma preprocessable_inv f :
  preprocessable f = true →
  ∃ acq dates sat lat lat' lon lon',
    df_columns f !! "acq_date" = Some acq ∧
    pd_to_datetime acq = Ok (DatetimeCol dates) ∧
    df_columns f !! "satellite" = Some sat ∧
    df_columns f !! "latitude" = Some lat ∧
    Series_round 2 lat = Ok lat' ∧
    df_columns f !! "longitude" = Some lon ∧
    Series_round 2 lon = Ok lon' ∧
    is_Some (df_columns f !! "acq_time") ∧
    coordinates f = Ok [lat'; lon'].
Proof.
  intros Hpre. unfold preprocessable in Hpre. unfold coordinates.
  destruct (df_columns f !! "acq_date") as [acq|] eqn:Hacq; [|discriminate].
  destruct (df_columns f !! "acq_time") as [tm|] eqn:Htm; [|discriminate].
  destruct (df_columns f !! "satellite") as [sat|] eqn:Hsat; [|discriminate].
  destruct (df_columns f !! "latitude") as [lat|] eqn:Hlat; [|discriminate].
  destruct (df_columns f !! "longitude") as [lon|] eqn:Hlon; [|discriminate].
  apply andb_prop in Hpre as [Hpre Hlon']. apply andb_prop in Hpre as [Hdt Hlat'].
  apply is_ok_Ok in Hdt as [acq' Hdt].
  destruct (pd_to_datetime_Ok _ _ Hdt) as [dates ->].
  apply is_ok_Ok in Hlat' as [lat' Hlat']. apply is_ok_Ok in Hlon' as [lon' Hlon'].
  exists acq, dates, sat, lat, lat', lon, lon'. rewrite Hlat', Hlon'.
  repeat split; eauto.
Qed.

Lemma returned_process (h : heap) (l : loc) (f : DataFrame) :
  h !! l = Some f →
  returned (process_live_data_and_cluster l h) =
    match (transform f).1 with
    | Ok _ => Ok (Some (transform f).2)
    | Raise e => Raise e
    end.
Proof.
  intros Hl. rewrite (process_run h l f Hl). unfold returned. simpl.
  destruct (transform f).1; simpl; [|reflexivity].
  by rewrite list_lookup_middle.
Qed.

(** The outcome of a call on a [preprocessable] batch, by what the
    clustering does. *)
Lemma clusters_of_process (h : heap) (l : loc) (f : DataFrame) :
  h !! l = Some f →
  preprocessable f = true →
  clusters_of (process_live_data_and_cluster l h) =
    match cluster_labels f with
    | Raise e => Raise e
    | Ok labels =>
        if Nat.eqb (length labels) (nrows f)
        then Ok (Some (BoolCol (cluster_membership <$> labels)))
        else Raise (ValueError "Length of values does not match length of index")
    end.
Proof.
  intros Hl Hpre.
  destruct (preprocessable_inv f Hpre)
    as (acq & dates & sat & lat & lat' & lon & lon'
        & Hacq & Hdt & Hsat & Hlat & Hlat' & Hlon & Hlon' & Htm & HX).
  unfold clusters_of. rewrite (returned_process h l f Hl).
  rewrite (transform_pre f acq dates sat lat lat' lon lon') by done.
  unfold cluster_labels. rewrite HX.
  destruct (HDBSCAN_fit_labels 50 20 [lat'; lon']) as [labels|e]; [|reflexivity].
  destruct (Nat.eqb (length labels) (nrows f)); [|reflexivity].
  cbv [fst snd result_map]. cbn [mbind option_bind].
  by rewrite output_clusters.
Qed.




Lemma frame_wfb_spec (f : DataFrame) : frame_wfb f = true ↔ frame_wf f.
Proof.
  unfold frame_wfb, frame_wf. rewrite map_Forall_to_list, forallb_forall, Forall_forall.
  split.
  - intros Hb [c col] Hin. simpl. apply Nat.eqb_eq.
    apply (Hb (c, col)), list_elem_of_In, Hin.
  - intros Hp [c col] Hin. simpl. apply Nat.eqb_eq.
    apply (Hp (c, col)), list_elem_of_In, Hin.
Qed.

(** C3.  The column [clusters] is decided by the coordinate columns of the
    batch alone: two batches, in any two stores, that carry the same
    [latitude] and [longitude] columns leave their callers the same
    [clusters] column (or the same exception of the clustering), whatever
    their other columns and whatever else the stores hold. *)
Theorem clusters_from_coordinates_only (h1 h2 : heap) (l1 l2 : loc) (f1 f2 : DataFrame) :
  h1 !! l1 = Some f1 →
  h2 !! l2 = Some f2 →
  frame_wfb f1 = true →
  frame_wfb f2 = true →
  preprocessable f1 = true →
  preprocessable f2 = true →
  df_columns f1 !! "latitude" = df_columns f2 !! "latitude" →
  df_columns f1 !! "longitude" = df_columns f2 !! "longitude" →
  clusters_of (process_live_data_and_cluster l1 h1)
  = clusters_of (process_live_data_and_cluster l2 h2).
Proof.
  intros Hl1 Hl2 Hwf1 Hwf2 Hpre1 Hpre2 Hlat Hlon.
  rewrite (clusters_of_process h1 l1 f1 Hl1 Hpre1).
  rewrite (clusters_of_process h2 l2 f2 Hl2 Hpre2).
  assert (HX : coordinates f1 = coordinates f2).
  { unfold coordinates. by rewrite Hlat, Hlon. }
  assert (Hn : nrows f1 = nrows f2).
  { destruct (preprocessable_inv f1 Hpre1)
      as (_ & _ & _ & lat & _ & _ & _ & _ & _ & _ & Hlat1 & _).
    apply frame_wfb_spec in Hwf1, Hwf2.
    rewrite <- (Hwf1 "latitude" lat Hlat1).
    rewrite Hlat in Hlat1. by rewrite <- (Hwf2 "latitude" lat Hlat1). }
  unfold cluster_labels. by rewrite HX, Hn.
Qed.

(** C4.  Repeated runs agree.  A second call on the same table object,
    made after the first, leaves its caller the same frame (or raises the
    same exception) as the first; and so does a call on that table in any
    other store.  The labels are those of one clustering with the fixed
    parameters 50 and 20, a function of the fitted matrix. *)
Theorem repeated_runs_agree (h : heap) (l : loc) (f : DataFrame) :
  h !! l = Some f →
  returned (process_live_data_and_cluster l (process_live_data_and_cluster l h).2)
  = returned (process_live_data_and_cluster l h)
  ∧ clusters_of (process_live_data_and_cluster l (process_live_data_and_cluster l h).2)
    = clusters_of (process_live_data_and_cluster l h)
  ∧ ∀ h' l', h' !! l' = Some f →
      returned (process_live_data_and_cluster l' h')
      = returned (process_live_data_and_cluster l h).
Proof.
  intros Hl.
  assert (Hl' : (process_live_data_and_cluster l h).2 !! l = Some f).
  { rewrite (process_run h l f Hl). simpl.
    rewrite lookup_app_l by (eapply lookup_lt_Some, Hl). done. }
  assert (Hgen : ∀ h' l', h' !! l' = Some f →
            returned (process_live_data_and_cluster l' h')
            = returned (process_live_data_and_cluster l h)).
  { intros h' l' Hh'.
    by rewrite (returned_process h' l' f Hh'), (returned_process h l f Hl). }
  split; [by apply Hgen|]. split; [|done].
  unfold clusters_of. by rewrite (Hgen _ _ Hl').
Qed.

(** *** Columns of the returned frame *)

Lemma output_satellite f dates sat lat' lon' labels :
  df_columns (output f dates sat lat' lon' labels) !! "satellite"
  = Some (Series_replace satellite_names sat).
Proof. unfold output, preprocessed. by lookups. Qed.

Lemma output_latitude f dates sat lat' lon' labels :
  df_columns (output f dates sat lat' lon' labels) !! "latitude" = Some lat'.
Proof. unfold output, preprocessed. by lookups. Qed.

Lemma output_longitude f dates sat lat' lon' labels :
  df_columns (output f dates sat lat' lon' labels) !! "longitude" = Some lon'.
Proof. unfold output, preprocessed. by lookups. Qed.

Lemma output_month f dates sat lat' lon' labels :
  df_columns (output f dates sat lat' lon' labels) !! "month"
  = Some (IntCol (month <$> dates)).
Proof. unfold output, preprocessed. by lookups. Qed.

Lemma output_week f dates sat lat' lon' labels :
  df_columns (output f dates sat lat' lon' labels) !! "week"
  = Some (IntCol (get_week_of_year <$> dates)).
Proof. unfold output, preprocessed. by lookups. Qed.

Lemma output_acq_date f dates sat lat' lon' labels :
  df_columns (output f dates sat lat' lon' labels) !! "acq_date" = None.
Proof. unfold output, preprocessed. by lookups. Qed.

Lemma output_acq_time f dates sat lat' lon' labels :
  df_columns (output f dates sat lat' lon' labels) !! "acq_time" = None.
Proof. unfold output, preprocessed. by lookups. Qed.

Lemma output_passthrough f dates sat lat' lon' labels c :
  c ∈ passthrough →
  df_columns (output f dates sat lat' lon' labels) !! c = df_columns f !! c.
Proof.
  unfold passthrough. intros Hc.
  repeat (apply elem_of_cons in Hc as [->|Hc]; [unfold output, preprocessed; by lookups|]).
  by apply elem_of_nil in Hc.
Qed.

(** *** Cells and conversions *)

Lemma normalize_satellite_str (s : string) :
  normalize_satellite (VStr s) = VStr (replace_cell satellite_names s).
Proof.
  destruct s as [|a [|b s]].
  - reflexivity.
  - destruct a as [[] [] [] [] [] [] [] []]; reflexivity.
  - destruct a as [[] [] [] [] [] [] [] []]; reflexivity.
Qed.

Lemma col_values_replace (c : column) :
  col_values (Series_replace satellite_names c) = normalize_satellite <$> col_values c.
Proof.
  destruct c; simpl; rewrite <- !list_fmap_compose;
    apply list_fmap_ext; intros _ x _; simpl; try reflexivity.
  symmetry. apply normalize_satellite_str.
Qed.

Lemma result_mapM_lookup {A B} (g : A → result B) (xs : list A) (ys : list B) i x :
  result_mapM g xs = Ok ys → xs !! i = Some x →
  ∃ y, g x = Ok y ∧ ys !! i = Some y.
Proof.
  revert ys i. induction xs as [|a xs IH]; intros ys i; [done|].
  simpl. destruct (g a) as [b|] eqn:Hb; [|discriminate].
  destruct (result_mapM g xs) as [ys'|] eqn:Hys; [|discriminate].
  simpl. intros [= <-]. destruct i as [|i]; simpl.
  - intros [= <-]. eauto.
  - intros Hx. by apply IH.
Qed.

Lemma result_mapM_length {A B} (g : A → result B) (xs : list A) (ys : list B) :
  result_mapM g xs = Ok ys → length ys = length xs.
Proof.
  revert ys. induction xs as [|a xs IH]; intros ys; simpl.
  - by intros [= <-].
  - destruct (g a); [|discriminate].
    destruct (result_mapM g xs) as [ys'|]; [|discriminate].
    simpl. intros [= <-]. simpl. by rewrite (IH ys').
Qed.

Lemma col_values_VStr c i s :
  col_values c !! i = Some (VStr s) → ∃ xs, c = ObjectCol xs ∧ xs !! i = Some s.
Proof.
  destruct c; simpl; rewrite list_lookup_fmap;
    destruct (xs !! i) eqn:Hx; simpl; try discriminate.
  intros [= ->]. eauto.
Qed.

Lemma col_values_VFloat c i x :
  col_values c !! i = Some (VFloat x) → ∃ xs, c = FloatCol xs ∧ xs !! i = Some x.
Proof.
  destruct c; simpl; rewrite list_lookup_fmap;
    destruct (xs !! i) eqn:Hx; simpl; try discriminate.
  intros [= ->]. eauto.
Qed.

Lemma pd_to_datetime_length c dates :
  pd_to_datetime c = Ok (DatetimeCol dates) → length dates = col_length c.
Proof.
  unfold col_length. destruct c; simpl; try discriminate.
  - destruct (result_mapM to_timestamp xs) as [ds|] eqn:Hds; [|discriminate].
    simpl. intros [= <-]. rewrite length_fmap. by apply result_mapM_length in Hds.
  - intros [= <-]. by rewrite length_fmap.
Qed.

Lemma Series_round_length n c c' :
  Series_round n c = Ok c' → col_length c' = col_length c.
Proof.
  unfold col_length. destruct c; simpl; try discriminate; intros [= <-]; simpl;
    by rewrite ?length_fmap.
Qed.

Lemma Series_replace_length d c : col_length (Series_replace d c) = col_length c.
Proof. unfold col_length. destruct c; simpl; by rewrite ?length_fmap. Qed.

(** C5.  On every row the satellite code [T] becomes [Terra] and [A]
    becomes [Aqua]; every other value of the column is returned as it was,
    and the call succeeds all the same. *)
Theorem satellite_normalized (h : heap) (l : loc) (f : DataFrame) (labels : list Z) :
  h !! l = Some f →
  preprocessable f = true →
  cluster_labels f = Ok labels →
  length labels = nrows f →
  ∃ out,
    process_live_data_and_cluster l h = (Ok (length h), h ++ [out]) ∧
    ∀ i v, cell f "satellite" i = Some v →
      cell out "satellite" i = Some (normalize_satellite v).
Proof.
  intros Hl Hpre Hfit Hlen.
  destruct (process_returns h l f labels Hl Hpre Hfit Hlen)
    as (acq & dates & sat & lat & lat' & lon & lon' & _ & _ & Hsat & _ & _ & _ & _ & Hrun).
  eexists. split; [exact Hrun|].
  intros i v. unfold cell. rewrite output_satellite, Hsat. simpl.
  rewrite col_values_replace, list_lookup_fmap. by intros ->.
Qed.

(** C6.  A row [{latitude: 34.567, longitude: -118.123, acq_date:
    "2020-01-05", satellite: "T"}] of a batch comes out with satellite
    [Terra], month 1 and week 1 (column [week], the specification's
    [week_of_year]), with its coordinates rounded to 34.57 and -118.12,
    and the frame returned has no [acq_date] and no [acq_time] column. *)
Theorem schema_scenario (h : heap) (l : loc) (f : DataFrame) (labels : list Z) (i : nat) :
  h !! l = Some f →
  preprocessable f = true →
  cluster_labels f = Ok labels →
  length labels = nrows f →
  cell f "latitude" i = Some (VFloat 34.567) →
  cell f "longitude" i = Some (VFloat (-118.123)) →
  cell f "acq_date" i = Some (VStr "2020-01-05") →
  cell f "satellite" i = Some (VStr "T") →
  ∃ out,
    process_live_data_and_cluster l h = (Ok (length h), h ++ [out]) ∧
    cell out "satellite" i = Some (VStr "Terra") ∧
    cell out "month" i = Some (VInt 1) ∧
    cell out "week" i = Some (VInt 1) ∧
    df_columns out !! "acq_date" = None ∧
    df_columns out !! "acq_time" = None ∧
    cell out "latitude" i = Some (VFloat 34.57) ∧
    cell out "longitude" i = Some (VFloat (-118.12)).
Proof.
  intros Hl Hpre Hfit Hlen Hclat Hclon Hcacq Hcsat.
  destruct (process_returns h l f labels Hl Hpre Hfit Hlen)
    as (acq & dates & sat & lat & lat' & lon & lon'
        & Hacq & Hdt & Hsat & Hlat & Hlat' & Hlon & Hlon' & Hrun).
  unfold cell in Hclat, Hclon, Hcacq, Hcsat.
  rewrite Hlat in Hclat. rewrite Hlon in Hclon. rewrite Hacq in Hcacq.
  rewrite Hsat in Hcsat. simpl in Hclat, Hclon, Hcacq, Hcsat.
  apply col_values_VFloat in Hclat as (lats & -> & Hlati).
  apply col_values_VFloat in Hclon as (lons & -> & Hloni).
  apply col_values_VStr in Hcacq as (strs & -> & Hstri).
  simpl in Hlat', Hlon', Hdt.
  injection Hlat' as <-. injection Hlon' as <-.
  destruct (result_mapM to_timestamp strs) as [ds|] eqn:Hds; [|discriminate].
  simpl in Hdt. injection Hdt as ->.
  destruct (result_mapM_lookup _ _ _ _ _ Hds Hstri) as (d & Hd & Hdi).
  vm_compute in Hd. injection Hd as <-.
  eexists. split; [exact Hrun|]. unfold cell.
  rewrite output_satellite, output_month, output_week, output_acq_date,
    output_acq_time, output_latitude, output_longitude. simpl.
  rewrite col_values_replace, !list_lookup_fmap, Hcsat, Hdi, Hlati, Hloni.
  repeat split; reflexivity.
Qed.

(** C9.  A call writes to no object that was in the store: the table
    passed in, and every other frame, is afterwards what it was before,
    whether the call returns or raises.  When it returns, the frame is a
    new object, and each of the feature columns [daynight], [brightness],
    [track], [scan], [bright_t31], [frp], [confidence] is in it exactly as
    in the input (or absent from both). *)
Theorem no_side_effects (h : heap) (l : loc) (f : DataFrame) :
  h !! l = Some f →
  (∀ l0 f0, h !! l0 = Some f0 →
     (process_live_data_and_cluster l h).2 !! l0 = Some f0)
  ∧ (∀ labels,
       preprocessable f = true →
       cluster_labels f = Ok labels →
       length labels = nrows f →
       ∃ out,
         process_live_data_and_cluster l h = (Ok (length h), h ++ [out]) ∧
         h !! length h = None ∧
         ∀ c, c ∈ passthrough → df_columns out !! c = df_columns f !! c).
Proof.
  intros Hl. split.
  - intros l0 f0 Hl0. rewrite (process_run h l f Hl). simpl.
    rewrite lookup_app_l by (eapply lookup_lt_Some, Hl0). done.
  - intros labels Hpre Hfit Hlen.
    destruct (process_returns h l f labels Hl Hpre Hfit Hlen)
      as (acq & dates & sat & lat & lat' & lon & lon' & _ & _ & _ & _ & _ & _ & _ & Hrun).
    eexists. split; [exact Hrun|]. split; [by apply lookup_ge_None_2|].
    intros c Hc. by apply output_passthrough.
Qed.

(** C10.  The frame returned has the row labels of the input, in the same
    order, hence as many rows; and each of its columns has one cell per
    row.  Rows are neither added, dropped, merged nor reordered. *)
Theorem rows_preserved (h : heap) (l : loc) (f : DataFrame) (labels : list Z) :
  h !! l = Some f →
  frame_wfb f = true →
  preprocessable f = true →
  cluster_labels f = Ok labels →
  length labels = nrows f →
  ∃ out,
    process_live_data_and_cluster l h = (Ok (length h), h ++ [out]) ∧
    df_index out = df_index f ∧
    nrows out = nrows f ∧
    frame_wf out.
Proof.
  intros Hl Hwf Hpre Hfit Hlen. apply frame_wfb_spec in Hwf.
  destruct (process_returns h l f labels Hl Hpre Hfit Hlen)
    as (acq & dates & sat & lat & lat' & lon & lon'
        & Hacq & Hdt & Hsat & Hlat & Hlat' & Hlon & Hlon' & Hrun).
  eexists. split; [exact Hrun|]. split; [reflexivity|]. split; [reflexivity|].
  pose proof (Hwf _ _ Hacq) as Hnacq. pose proof (Hwf _ _ Hsat) as Hnsat.
  pose proof (Hwf _ _ Hlat) as Hnlat. pose proof (Hwf _ _ Hlon) as Hnlon.
  simpl in Hnacq, Hnsat, Hnlat, Hnlon.
  apply pd_to_datetime_length in Hdt.
  apply Series_round_length in Hlat', Hlon'.
  unfold frame_wf, output, preprocessed. cbn [df_columns].
  change (nrows {| df_index := df_index f; df_columns := _ |}) with (nrows f).
  repeat first [ apply map_Forall_insert_2 | apply map_Forall_delete ];
    try exact Hwf; rewrite ?Series_replace_length; try congruence;
    unfold col_length; simpl; rewrite ?length_fmap; try congruence.
Qed.

End Claims.




(** ** Rounding twice

    On the grid of two-decimal values between -180 and 180, which holds
    every rounded latitude and longitude, a second rounding changes nothing. *)

Lemma all_from_spec n start p k :
  all_from n start p = true → start ≤ k < start + Z.of_nat n → p k = true.
Proof.
  revert start. induction n as [|n IH]; intros start; simpl; [lia|].
  intros [Hp Hrest]%andb_prop Hk.
  destruct (decide (k = start)) as [->|Hne]; [done|].
  apply (IH (start + 1)); [done|lia].
Qed.

Lemma all_between_spec lo hi p k :
  all_between lo hi p = true → lo ≤ k ≤ hi → p k = true.
Proof. intros Hall Hk. apply (all_from_spec _ _ _ _ Hall). lia. Qed.

Lemma hundredths_fixed_check :
  all_between (-18000) 18000 (λ k, fixed_by_around (hundredths k)) = true.
Proof. vm_compute. reflexivity. Qed.

Lemma hundredths_fixed k :
  -18000 ≤ k ≤ 18000 → around 2 (hundredths k) = hundredths k.
Proof.
  intros Hk. apply Leibniz.eqb_spec.
  by apply (all_between_spec _ _ (λ k, fixed_by_around (hundredths k)) k
              hundredths_fixed_check).
Qed.

Lemma around_idempotent_on_hundredths x k :
  -18000 ≤ k ≤ 18000 →
  rint (x * 100) = float_of_Z k →
  around 2 (around 2 x) = around 2 x.
Proof.
  intros Hk Hx.
  assert (Hy : around 2 x = hundredths k).
  { unfold around, hundredths. change (power_of_ten 2) with 100%float. by rewrite Hx. }
  rewrite Hy. by apply hundredths_fixed.
Qed.

(** ** Rounding twice, for every binary64 number

    [around 2 x] is [rint (x * 100) / 100].  The integer [rint (x * 100)]
    is a fixed point of dividing by 100, multiplying by 100 and rounding to
    an integer, so that rounding [around 2 x] again goes through the same
    integer.  The proof follows the mantissas through the three
    operations. *)

(** *** The model and its specification

    Each binary64 operation of [around] is specified on [spec_float]; the
    rounding to two decimals is therefore [SFaround] of the argument. *)

Lemma Prim2SF_100 : Prim2SF 100%float = SF100. Proof. reflexivity. Qed.
Lemma Prim2SF_two52 : Prim2SF two52 = SF2p52. Proof. reflexivity. Qed.
Lemma Prim2SF_0 : Prim2SF 0%float = SFzero. Proof. reflexivity. Qed.
Lemma Prim2SF_1 : Prim2SF 1%float = SFone. Proof. reflexivity. Qed.

Lemma signbit_spec x : signbit x = SFsignbit (Prim2SF x).
Proof.
  unfold signbit, SFsignbit.
  by rewrite !FloatAxioms.ltb_spec, FloatAxioms.eqb_spec, div_spec, Prim2SF_0, Prim2SF_1.
Qed.

Lemma rint_spec x : Prim2SF (rint x) = SFrint (Prim2SF x).
Proof.
  unfold rint, SFrint.
  rewrite FloatAxioms.ltb_spec, abs_spec, Prim2SF_two52, signbit_spec.
  destruct (SFltb _ _); [|done].
  destruct (SFsignbit _).
  - by rewrite opp_spec, sub_spec, add_spec, abs_spec, Prim2SF_two52.
  - by rewrite sub_spec, add_spec, abs_spec, Prim2SF_two52.
Qed.

Lemma around_spec x : Prim2SF (around 2 x) = SFaround (Prim2SF x).
Proof.
  unfold around, SFaround.
  change (power_of_ten 2) with 100%float.
  by rewrite div_spec, rint_spec, mul_spec, Prim2SF_100.
Qed.

Lemma around_idempotent_of_SF :
  (∀ X, SpecFloat.valid_binary prec emax X = true → SFaround (SFaround X) = SFaround X) →
  ∀ x, around 2 (around 2 x) = around 2 x.
Proof.
  intros H x. apply Prim2SF_inj.
  rewrite !around_spec. apply H, Prim2SF_valid.
Qed.

(** *** Division rounded to the nearest integer, ties to even *)

Lemma rne_div_loc a b :
  0 < b →
  round_nearest_even (a / b) (loc_of_rem (a mod b) b) = rne_div a b.
Proof.
  intros Hb. unfold rne_div, loc_of_rem.
  destruct (Z.eqb_spec (a mod b) 0) as [->|Hr].
  - change (2 * 0) with 0. destruct (Z.compare_spec 0 b); try lia. done.
  - by destruct (2 * (a mod b) ?= b).
Qed.

Lemma rne_div_near a b :
  0 < b → (- b) ≤ 2 * (b * rne_div a b - a) ≤ b.
Proof.
  intros Hb. unfold rne_div.
  pose proof (Z.div_mod a b ltac:(lia)). pose proof (Z.mod_pos_bound a b Hb).
  destruct (Z.compare_spec (2 * (a mod b)) b); [destruct (Z.even _)|..]; nia.
Qed.

Lemma rne_div_tie_even a b :
  0 < b → 2 * (b * rne_div a b - a) = b ∨ 2 * (b * rne_div a b - a) = - b →
  Z.even (rne_div a b) = true.
Proof.
  intros Hb. unfold rne_div.
  pose proof (Z.div_mod a b ltac:(lia)). pose proof (Z.mod_pos_bound a b Hb).
  destruct (Z.compare_spec (2 * (a mod b)) b) as [He|Hl|Hg].
  - destruct (Z.even (a / b)) eqn:Hev; [done|]. intros _.
    rewrite Z.even_add, Hev. done.
  - intros [?|?]; nia.
  - intros [?|?]; nia.
Qed.

Lemma rne_div_unique a b z :
  0 < b →
  (- b) ≤ 2 * (b * z - a) ≤ b →
  (2 * (b * z - a) = b ∨ 2 * (b * z - a) = - b → Z.even z = true) →
  rne_div a b = z.
Proof.
  intros Hb Hz Hev. unfold rne_div.
  pose proof (Z.div_mod a b ltac:(lia)) as Hdm. pose proof (Z.mod_pos_bound a b Hb) as Hm.
  assert (Hcases : z = a / b ∨ z = a / b + 1) by nia.
  destruct (Z.compare_spec (2 * (a mod b)) b) as [He|Hl|Hg].
  - destruct Hcases as [->| ->].
    + rewrite Hev; [done|]. right. nia.
    + assert (Hz1 : Z.even (a / b + 1) = true) by (apply Hev; left; nia).
      rewrite Z.even_add in Hz1. destruct (Z.even (a / b)); [done|done].
  - destruct Hcases as [->| ->]; [done|nia].
  - destruct Hcases as [->| ->]; [nia|done].
Qed.

Lemma rne_div_exact b z : 0 < b → rne_div (b * z) b = z.
Proof.
  intros Hb. apply rne_div_unique; [done|lia|lia].
Qed.

Lemma rne_div_nonneg a b : 0 ≤ a → 0 < b → 0 ≤ rne_div a b.
Proof. intros Ha Hb. pose proof (rne_div_near a b Hb). nia. Qed.

Lemma rne_div_mono a a' b : 0 < b → a ≤ a' → rne_div a b ≤ rne_div a' b.
Proof.
  intros Hb Ha.
  pose proof (rne_div_near a b Hb) as H1. pose proof (rne_div_near a' b Hb) as H2.
  destruct (Z_lt_le_dec (rne_div a' b) (rne_div a b)) as [Hlt|]; [|done].
  exfalso.
  (* z' ≤ z - 1 ; b z' ≥ a' - b/2 ≥ a - b/2 ; b z ≤ a + b/2 ; so b ≤ b(z - z') ≤ b, equality *)
  assert (Hz : rne_div a b = rne_div a' b + 1) by nia.
  assert (Ht1 : 2 * (b * rne_div a b - a) = b) by nia.
  assert (Ht2 : 2 * (b * rne_div a' b - a') = - b) by nia.
  pose proof (rne_div_tie_even a b Hb (or_introl Ht1)) as E1.
  pose proof (rne_div_tie_even a' b Hb (or_intror Ht2)) as E2.
  rewrite Hz, Z.even_add, E2 in E1. done.
Qed.

(** *** Shifting a mantissa right rounds its quotient *)

Lemma shr_1_nonneg m r s :
  0 ≤ m →
  shr_1 {| shr_m := m; shr_r := r; shr_s := s |}
  = {| shr_m := m / 2; shr_r := Z.odd m; shr_s := r || s |}.
Proof.
  intros Hm. rewrite <- Z.div2_div.
  destruct m as [|p|p]; [done| |lia].
  destruct p; reflexivity.
Qed.

Lemma iter_pos_nat {A} (f : A → A) p x :
  SpecFloat.iter_pos f p x = Nat.iter (Pos.to_nat p) f x.
Proof.
  revert x. induction p as [p IH|p IH|]; intros x.
  - change (SpecFloat.iter_pos f p~1 x)
      with (SpecFloat.iter_pos f p (SpecFloat.iter_pos f p (f x))).
    rewrite !IH, Pos2Nat.inj_xI.
    replace (S (2 * Pos.to_nat p)) with (Pos.to_nat p + Pos.to_nat p + 1)%nat by lia.
    rewrite !Nat.iter_add. done.
  - change (SpecFloat.iter_pos f p~0 x)
      with (SpecFloat.iter_pos f p (SpecFloat.iter_pos f p x)).
    rewrite !IH, Pos2Nat.inj_xO.
    replace (2 * Pos.to_nat p)%nat with (Pos.to_nat p + Pos.to_nat p)%nat by lia.
    by rewrite Nat.iter_add.
  - done.
Qed.

Lemma loc_of_shr_record_of_loc m l :
  loc_of_shr_record (shr_record_of_loc m l) = l ∧ shr_m (shr_record_of_loc m l) = m.
Proof. destruct l as [|[]]; done. Qed.

(** One halving step keeps the quotient and the position of the remainder. *)
Lemma shr_1_step a B rec :
  0 ≤ a → 0 < B →
  shr_m rec = a / B →
  loc_of_shr_record rec = loc_of_rem (a mod B) B →
  shr_m (shr_1 rec) = a / (B * 2) ∧
  loc_of_shr_record (shr_1 rec) = loc_of_rem (a mod (B * 2)) (B * 2).
Proof.
  intros Ha HB Hm Hl. destruct rec as [q r s]. simpl in Hm, Hl. subst q.
  assert (Hq : 0 ≤ a / B) by (apply Z.div_pos; lia).
  rewrite shr_1_nonneg by done. simpl.
  split; [by rewrite Z.div_div by lia|].
  rewrite Z.rem_mul_r by lia.
  pose proof (Z.mod_pos_bound a B HB) as HR.
  assert (Hodd : (a / B) mod 2 = Z.b2z (Z.odd (a / B))).
  { by rewrite <- Z.bit0_mod, Z.bit0_odd. }
  rewrite Hodd.
  assert (Hrs : r || s = negb (a mod B =? 0)).
  { unfold loc_of_rem in Hl. destruct (a mod B =? 0); destruct r, s; simpl in *; congruence. }
  rewrite Hrs. unfold loc_of_rem.
  destruct (Z.odd (a / B)); simpl Z.b2z;
    destruct (Z.eqb_spec (a mod B) 0) as [HR0|HR0]; simpl negb.
  - rewrite HR0. simpl.
    destruct (Z.eqb_spec (0 + B * 1) 0); [lia|].
    destruct (Z.compare_spec (2 * (0 + B * 1)) (B * 2)); try lia. done.
  - destruct (Z.eqb_spec (a mod B + B * 1) 0); [lia|].
    destruct (Z.compare_spec (2 * (a mod B + B * 1)) (B * 2)); try lia. done.
  - rewrite HR0. rewrite Z.mul_0_r. done.
  - destruct (Z.eqb_spec (a mod B + B * 0) 0); [lia|].
    destruct (Z.compare_spec (2 * (a mod B + B * 0)) (B * 2)); try lia. done.
Qed.

Lemma shr_iter a b rec n :
  0 ≤ a → 0 < b →
  shr_m rec = a / b →
  loc_of_shr_record rec = loc_of_rem (a mod b) b →
  shr_m (Nat.iter n shr_1 rec) = a / (b * 2 ^ Z.of_nat n) ∧
  loc_of_shr_record (Nat.iter n shr_1 rec)
  = loc_of_rem (a mod (b * 2 ^ Z.of_nat n)) (b * 2 ^ Z.of_nat n).
Proof.
  intros Ha Hb Hm Hl. induction n as [|n [IHm IHl]].
  - simpl. by rewrite Z.mul_1_r.
  - rewrite Nat2Z.inj_succ, Z.pow_succ_r by lia. simpl.
    replace (b * (2 * 2 ^ Z.of_nat n)) with (b * 2 ^ Z.of_nat n * 2) by lia.
    apply shr_1_step; [done|nia|done|done].
Qed.

(** Shifting right by [n] places and rounding is rounding the quotient by
    [2^n] (no shift when [n] is not positive). *)
Lemma shr_round a b e n :
  0 ≤ a → 0 < b →
  let res := shr (shr_record_of_loc (a / b) (loc_of_rem (a mod b) b)) e n in
  round_nearest_even (shr_m res.1) (loc_of_shr_record res.1)
  = rne_div a (b * 2 ^ Z.max 0 n)
  ∧ res.2 = e + Z.max 0 n.
Proof.
  intros Ha Hb.
  destruct (loc_of_shr_record_of_loc (a / b) (loc_of_rem (a mod b) b)) as [Hl Hm].
  destruct n as [|p|p]; unfold shr; cbn [fst snd].
  - rewrite Hl, Hm. change (Z.max 0 0) with 0. rewrite Z.mul_1_r, Z.add_0_r.
    split; [by apply rne_div_loc|done].
  - rewrite iter_pos_nat.
    destruct (shr_iter a b _ (Pos.to_nat p) Ha Hb Hm Hl) as [Hm' Hl'].
    rewrite positive_nat_Z in Hm', Hl'.
    rewrite Hm', Hl'. rewrite Z.max_r by lia.
    split; [|done]. apply rne_div_loc.
    pose proof (Z.pow_pos_nonneg 2 (Z.pos p) ltac:(lia) ltac:(lia)). nia.
  - rewrite Hl, Hm. rewrite Z.max_l by lia. rewrite Z.mul_1_r, Z.add_0_r.
    split; [by apply rne_div_loc|done].
Qed.

Lemma digits2_pos_bounds p :
  2 ^ (Z.pos (digits2_pos p) - 1) ≤ Z.pos p < 2 ^ Z.pos (digits2_pos p).
Proof.
  induction p as [p IH|p IH|]; simpl digits2_pos.
  - rewrite Pos2Z.inj_succ. replace (Z.succ (Z.pos (digits2_pos p)) - 1) with (Z.succ (Z.pos (digits2_pos p) - 1)) by lia.
    rewrite !Z.pow_succ_r by lia. lia.
  - rewrite Pos2Z.inj_succ. replace (Z.succ (Z.pos (digits2_pos p)) - 1) with (Z.succ (Z.pos (digits2_pos p) - 1)) by lia.
    rewrite !Z.pow_succ_r by lia. lia.
  - simpl. lia.
Qed.

Lemma Zdigits2_unique a d :
  0 < d → 2 ^ (d - 1) ≤ a < 2 ^ d → Zdigits2 a = d.
Proof.
  intros Hd [Hlo Hhi].
  assert (Ha : 0 < a) by (pose proof (Z.pow_pos_nonneg 2 (d - 1) ltac:(lia) ltac:(lia)); lia).
  destruct a as [|p|p]; try lia. simpl.
  pose proof (digits2_pos_bounds p) as [Blo Bhi].
  destruct (Z.lt_trichotomy (Z.pos (digits2_pos p)) d) as [Hlt|[Heq|Hgt]]; [|done|].
  - exfalso. assert (2 ^ Z.pos (digits2_pos p) ≤ 2 ^ (d - 1)) by (apply Z.pow_le_mono_r; lia). lia.
  - exfalso. assert (2 ^ d ≤ 2 ^ (Z.pos (digits2_pos p) - 1)) by (apply Z.pow_le_mono_r; lia). lia.
Qed.

Lemma Zdigits2_bounds a :
  0 < a → 0 < Zdigits2 a ∧ 2 ^ (Zdigits2 a - 1) ≤ a < 2 ^ Zdigits2 a.
Proof.
  intros Ha. destruct a as [|p|p]; try lia. simpl.
  split; [lia|apply digits2_pos_bounds].
Qed.

(** *** Rounding a mantissa to 53 bits *)

Lemma fexp_eq e : fexp 53 1024 e = Z.max (e - 53) (-1074).
Proof. reflexivity. Qed.

Lemma shr_nonpos rec e n : n ≤ 0 → shr rec e n = (rec, e).
Proof. intros Hn. destruct n; [done|lia|done]. Qed.

Lemma bra_spec s a b ex :
  0 ≤ a → 0 < b →
  binary_round_aux 53 1024 s (a / b) ex (loc_of_rem (a mod b) b)
  = round_result s
      (rne_div a (b * 2 ^ Z.max 0 (fexp 53 1024 (Zdigits2 (a / b) + ex) - ex)))
      (ex + Z.max 0 (fexp 53 1024 (Zdigits2 (a / b) + ex) - ex)).
Proof.
  intros Ha Hb. unfold binary_round_aux, shr_fexp.
  set (n0 := fexp 53 1024 (Zdigits2 (a / b) + ex) - ex).
  pose proof (shr_round a b ex n0 Ha Hb) as Hshr. cbv zeta in Hshr.
  destruct (shr _ ex n0) as [rec e'] eqn:Hrec. cbn [fst snd] in Hshr.
  destruct Hshr as [Hm1 He1]. rewrite Hm1, He1.
  set (n := Z.max 0 n0) in *.
  set (B := b * 2 ^ n).
  assert (Hn : 0 ≤ n) by lia.
  assert (HB : 0 < B).
  { pose proof (Z.pow_pos_nonneg 2 n ltac:(lia) Hn). unfold B. nia. }
  set (m1 := rne_div a B).
  pose proof (rne_div_near a B HB) as Hnear. fold m1 in Hnear.
  assert (Hm1lo : 0 ≤ m1) by (apply rne_div_nonneg; lia).
  assert (He1lo : -1074 ≤ ex + n).
  { unfold n, n0. rewrite fexp_eq. lia. }
  (* the mantissa fits *)
  assert (Hfit : a < B * two53).
  { assert (Hq : 0 ≤ a / b) by (apply Z.div_pos; lia).
    pose proof (Z.div_mod a b ltac:(lia)) as Hdm.
    pose proof (Z.mod_pos_bound a b Hb) as Hmod.
    destruct (Z.eq_dec (a / b) 0) as [Hq0|Hq0].
    - assert (a < b) by nia.
      pose proof (Z.pow_pos_nonneg 2 n ltac:(lia) Hn). unfold B, two53. nia.
    - destruct (Zdigits2_bounds (a / b) ltac:(lia)) as [Hd [_ Hdhi]].
      set (d := Zdigits2 (a / b)) in *.
      assert (Hdn : d - 53 ≤ n).
      { unfold n, n0. fold d. rewrite fexp_eq. lia. }
      assert (Hpow : 2 ^ d ≤ 2 ^ n * two53).
      { change two53 with (2 ^ 53). rewrite <- Z.pow_add_r by lia.
        apply Z.pow_le_mono_r; lia. }
      unfold B. nia. }
  assert (Hm1hi : m1 ≤ two53) by nia.
  unfold round_result.
  destruct (Z.eqb_spec m1 0) as [H0|H0].
  - rewrite H0. simpl Zdigits2. rewrite shr_nonpos by (rewrite fexp_eq; lia). done.
  - destruct (Z.eqb_spec m1 two53) as [H53|H53].
    + rewrite H53. change (Zdigits2 two53) with 54.
      replace (fexp 53 1024 (54 + (ex + n)) - (ex + n)) with 1 by (rewrite fexp_eq; lia).
      simpl. done.
    + assert (Hd : Zdigits2 m1 ≤ 53).
      { destruct (Zdigits2_bounds m1 ltac:(lia)) as [Hd [Hdlo _]].
        destruct (Z_le_gt_dec (Zdigits2 m1) 53) as [|Hgt]; [done|exfalso].
        assert (2 ^ 53 ≤ 2 ^ (Zdigits2 m1 - 1)) by (apply Z.pow_le_mono_r; lia).
        unfold two53 in *. lia. }
      rewrite shr_nonpos by (rewrite fexp_eq; lia).
      simpl shr_m. destruct m1 as [|p|p]; try lia. done.
Qed.

Lemma bra_exact s a ex :
  0 ≤ a →
  binary_round_aux 53 1024 s a ex loc_Exact
  = round_result s
      (rne_div a (2 ^ Z.max 0 (fexp 53 1024 (Zdigits2 a + ex) - ex)))
      (ex + Z.max 0 (fexp 53 1024 (Zdigits2 a + ex) - ex)).
Proof.
  intros Ha. pose proof (bra_spec s a 1 ex Ha ltac:(lia)) as H.
  rewrite Z.div_1_r, Z.mod_1_r, Z.mul_1_l in H. exact H.
Qed.

Lemma rne_div_scale a b c : 0 < b → 0 < c → rne_div (a * c) (b * c) = rne_div a b.
Proof.
  intros Hb Hc. pose proof (rne_div_near a b Hb) as Hn.
  apply rne_div_unique; [nia|nia|].
  intros Ht. apply (rne_div_tie_even a b Hb). nia.
Qed.

Lemma rne_div_add_mul a b z :
  0 < b → Z.even z = true → rne_div (a + b * z) b = z + rne_div a b.
Proof.
  intros Hb Hz. pose proof (rne_div_near a b Hb) as Hn.
  apply rne_div_unique; [done|nia|].
  intros Ht. rewrite Z.even_add, Hz.
  rewrite (rne_div_tie_even a b Hb); [done|nia].
Qed.

(** *** Multiplication by 100 *)

(** A valid finite binary64 number: canonical mantissa and exponent. *)
Lemma bounded_inv (m : positive) (e : Z) :
  SpecFloat.bounded 53 1024 m e = true →
  -1074 ≤ e ≤ 971 ∧ 0 < Z.pos m < two53 ∧ (two52Z ≤ Z.pos m ∨ e = -1074).
Proof.
  unfold SpecFloat.bounded, canonical_mantissa. intros [Hc He]%andb_prop.
  apply Z.eqb_eq in Hc. apply Z.leb_le in He. rewrite fexp_eq in Hc.
  pose proof (digits2_pos_bounds m) as [Hlo Hhi].
  set (d := Z.pos (digits2_pos m)) in *.
  assert (Hd : 0 < d) by (unfold d; lia).
  assert (Hd53 : d ≤ 53) by lia.
  split; [lia|]. split.
  - split; [lia|]. assert (2 ^ d ≤ 2 ^ 53) by (apply Z.pow_le_mono_r; lia).
    unfold two53. lia.
  - destruct (Z.eq_dec e (-1074)) as [|Hne]; [by right|left].
    assert (d = 53) by lia. subst d. rewrite H in Hlo. unfold two52Z.
    change (2 ^ (53 - 1)) with 4503599627370496 in Hlo. lia.
Qed.

Lemma SFmul100_eq s m e :
  SF64mul (S754_finite s m e) SF100
  = binary_round_aux 53 1024 s (Z.pos m * M100) (e - 46) loc_Exact.
Proof.
  unfold SF64mul, SF100, SFmul. rewrite xorb_false_r.
  rewrite Pos2Z.inj_mul. reflexivity.
Qed.

(** Multiplying a normal number by 100. *)
Lemma SFmul100_normal s m e :
  two52Z ≤ Z.pos m < two53 → -1074 ≤ e →
  SF64mul (S754_finite s m e) SF100
  = if 25 * Z.pos m <? 2 ^ 57
    then round_result s (rne_div (25 * Z.pos m) 16) (e + 6)
    else round_result s (rne_div (25 * Z.pos m) 32) (e + 7).
Proof.
  intros Hm He. rewrite SFmul100_eq, bra_exact by (unfold M100; lia).
  unfold two52Z, two53, M100 in *.
  destruct (Z.ltb_spec (25 * Z.pos m) (2 ^ 57)) as [Hlt|Hge].
  - rewrite (Zdigits2_unique _ 105) by lia.
    replace (Z.max 0 (fexp 53 1024 (105 + (e - 46)) - (e - 46))) with 52
      by (rewrite fexp_eq; lia).
    replace (e - 46 + 52) with (e + 6) by lia.
    replace (Z.pos m * 7036874417766400) with (25 * Z.pos m * 2 ^ 48) by lia.
    change (2 ^ 52) with (16 * 2 ^ 48).
    by rewrite rne_div_scale by lia.
  - rewrite (Zdigits2_unique _ 106) by lia.
    replace (Z.max 0 (fexp 53 1024 (106 + (e - 46)) - (e - 46))) with 53
      by (rewrite fexp_eq; lia).
    replace (e - 46 + 53) with (e + 7) by lia.
    replace (Z.pos m * 7036874417766400) with (25 * Z.pos m * 2 ^ 48) by lia.
    change (2 ^ 53) with (32 * 2 ^ 48).
    by rewrite rne_div_scale by lia.
Qed.

(** *** Integers as floats *)

Lemma Pos_iter_xO m d : Z.pos (Pos.iter xO m d) = Z.pos m * 2 ^ Z.pos d.
Proof.
  induction d as [|d IH] using Pos.peano_ind.
  - simpl. lia.
  - rewrite Pos.iter_succ, Pos2Z.inj_xO, IH, Pos2Z.inj_succ, Z.pow_succ_r by lia. lia.
Qed.

Lemma shl_align_spec m e e' :
  shl_align m e e' = (Z.to_pos (Z.pos m * 2 ^ (e - Z.min e e')), Z.min e e').
Proof.
  unfold shl_align. destruct (e' - e) as [|p|p] eqn:Hd.
  - rewrite Z.min_l by lia. rewrite Z.sub_diag. simpl. f_equal. lia.
  - rewrite Z.min_l by lia. rewrite Z.sub_diag. simpl. f_equal. lia.
  - rewrite Z.min_r by lia. f_equal.
    replace (e - e') with (Z.pos p) by lia.
    rewrite <- Pos_iter_xO. by rewrite Pos2Z.id.
Qed.

Lemma rne_div_1 a : rne_div a 1 = a.
Proof. apply rne_div_unique; lia. Qed.

Lemma binary_normalize_int K :
  0 ≤ K < two53 →
  binary_normalize 53 1024 K 0 false = SFint false K.
Proof.
  intros HK. unfold SFint, binary_normalize.
  destruct K as [|p|p]; [done| |lia]. simpl (_ =? _).
  unfold binary_round. rewrite shl_align_spec.
  destruct (Zdigits2_bounds (Z.pos p) ltac:(lia)) as [Hd [Hlo Hhi]].
  change (Z.pos (digits2_pos p)) with (Zdigits2 (Z.pos p)).
  set (d := Zdigits2 (Z.pos p)) in *.
  assert (Hd53 : d ≤ 53).
  { destruct (Z_le_gt_dec d 53) as [|Hgt]; [done|exfalso].
    assert (2 ^ 53 ≤ 2 ^ (d - 1)) by (apply Z.pow_le_mono_r; lia).
    unfold two53 in *. lia. }
  rewrite Z.add_0_r, fexp_eq.
  replace (Z.min 0 (Z.max (d - 53) (-1074))) with (d - 53) by lia.
  replace (0 - (d - 53)) with (53 - d) by lia.
  set (K' := Z.pos p * 2 ^ (53 - d)).
  assert (HK' : 2 ^ 52 ≤ K' < 2 ^ 53).
  { unfold K'.
    assert (H52 : 2 ^ 52 = 2 ^ (d - 1) * 2 ^ (53 - d))
      by (rewrite <- Z.pow_add_r by lia; f_equal; lia).
    assert (H53 : 2 ^ 53 = 2 ^ d * 2 ^ (53 - d))
      by (rewrite <- Z.pow_add_r by lia; f_equal; lia).
    pose proof (Z.pow_pos_nonneg 2 (53 - d) ltac:(lia) ltac:(lia)).
    rewrite H52, H53. nia. }
  rewrite Z2Pos.id by lia.
  rewrite bra_exact by lia.
  rewrite (Zdigits2_unique K' 53) by lia.
  replace (Z.max 0 (fexp 53 1024 (53 + (d - 53)) - (d - 53))) with 0
    by (rewrite fexp_eq; lia).
  change (2 ^ 0) with 1. rewrite rne_div_1.
  unfold round_result, two53.
  destruct (Z.eqb_spec K' 0); [lia|].
  destruct (Z.eqb_spec K' 9007199254740992); [lia|].
  rewrite Z.add_0_r. destruct (Z.leb_spec (d - 53) 971); [done|lia].
Qed.

(** *** Rounding to an integer *)

Lemma SFadd_two52 M E :
  E < 0 → 0 < Z.pos M < two53 →
  SF64add (S754_finite false M E) SF2p52
  = round_result false (two52Z + rne_div (Z.pos M) (2 ^ (- E))) 0.
Proof.
  intros HE HM. unfold SF64add, SF2p52, SFadd.
  rewrite !shl_align_spec. cbn [fst cond_Zopp]. unfold prec, emax.
  rewrite (Z.min_l E 0) by lia. rewrite Z.min_id, Z.sub_diag, (Z.min_r 0 E) by lia.
  change (2 ^ 0) with 1. rewrite Z.mul_1_r, Pos2Z.id.
  pose proof (Z.pow_pos_nonneg 2 (- E) ltac:(lia) ltac:(lia)) as Hp.
  assert (Hp2 : 2 ≤ 2 ^ (- E)).
  { change 2 with (2 ^ 1) at 1. apply Z.pow_le_mono_r; lia. }
  replace (0 - E) with (- E) by lia.
  rewrite Z2Pos.id by lia.
  set (a := Z.pos M + 4503599627370496 * 2 ^ (- E)).
  assert (Ha : 0 < a) by (unfold a; lia).
  unfold binary_normalize. destruct a as [|p|p] eqn:Hap; try lia.
  unfold binary_round. rewrite shl_align_spec.
  change (Z.pos (digits2_pos p)) with (Zdigits2 (Z.pos p)).
  assert (Hd : Zdigits2 (Z.pos p) = 53 - E).
  { apply Zdigits2_unique; [lia|].
    replace (53 - E - 1) with (52 + - E) by lia.
    replace (53 - E) with (53 + - E) by lia.
    rewrite !Z.pow_add_r by lia. rewrite <- Hap. unfold a, two53 in *.
    change (2 ^ 52) with 4503599627370496. change (2 ^ 53) with 9007199254740992. nia. }
  rewrite Hd.
  replace (fexp 53 1024 (53 - E + E)) with 0 by (rewrite fexp_eq; lia).
  rewrite Z.min_l by lia. rewrite Z.sub_diag. change (2 ^ 0) with 1.
  rewrite Z.mul_1_r, Pos2Z.id.
  rewrite bra_exact by lia. rewrite Hd.
  replace (Z.max 0 (fexp 53 1024 (53 - E + E) - E)) with (- E) by (rewrite fexp_eq; lia).
  replace (E + - E) with 0 by lia.
  f_equal. rewrite <- Hap. unfold a.
  rewrite (Z.mul_comm 4503599627370496).
  rewrite rne_div_add_mul by done. unfold two52Z. lia.
Qed.

Lemma SFsub_two52 K :
  0 ≤ K ≤ two52Z →
  SF64sub (round_result false (two52Z + K) 0) SF2p52 = SFint false K.
Proof.
  intros HK. unfold round_result, two52Z, two53 in *.
  destruct (Z.eqb_spec (4503599627370496 + K) 0); [lia|].
  destruct (Z.eqb_spec (4503599627370496 + K) 9007199254740992) as [H53|H53].
  - assert (K = 4503599627370496) by lia. subst K. reflexivity.
  - destruct (4503599627370496 + K) as [|p|p] eqn:Hp; try lia.
    change (0 <=? 971) with true. cbv iota.
    unfold SF64sub, SF2p52, SFsub. rewrite !shl_align_spec.
    cbn [fst cond_Zopp]. unfold prec, emax.
    rewrite !Z.min_id, Z.sub_diag. change (2 ^ 0) with 1.
    rewrite !Z.mul_1_r. simpl Z.to_pos.
    replace (Z.pos p - 4503599627370496) with K by lia.
    apply binary_normalize_int. unfold two53. lia.
Qed.

Lemma SFopp_SFint s K : SFopp (SFint s K) = SFint (negb s) K.
Proof. unfold SFint. by destruct (K =? 0). Qed.

Lemma SFsignbit_finite s M E : SFsignbit (S754_finite s M E) = s.
Proof. by destruct s. Qed.

(** [rint] of a number below [2^52]. *)
Lemma SFrint_small s M E :
  E < 0 → 0 < Z.pos M < two53 →
  SFrint (S754_finite s M E) = SFint s (rne_div (Z.pos M) (2 ^ (- E))).
Proof.
  intros HE HM. unfold SFrint. rewrite SFsignbit_finite.
  assert (Hlt : SFltb (SFabs (S754_finite s M E)) SF2p52 = true).
  { unfold SFltb, SFabs, SF2p52, SFcompare.
    destruct (Z.compare_spec E 0); first [lia | done]. }
  rewrite Hlt. cbn [SFabs].
  rewrite SFadd_two52 by done.
  pose proof (Z.pow_pos_nonneg 2 (- E) ltac:(lia) ltac:(lia)) as Hp.
  assert (Hp2 : 2 ≤ 2 ^ (- E)).
  { change 2 with (2 ^ 1) at 1. apply Z.pow_le_mono_r; lia. }
  pose proof (rne_div_near (Z.pos M) (2 ^ (- E)) Hp) as Hn.
  pose proof (rne_div_nonneg (Z.pos M) (2 ^ (- E)) ltac:(lia) Hp) as H0.
  rewrite SFsub_two52 by (unfold two52Z, two53 in *; nia).
  destruct s; [by rewrite SFopp_SFint|done].
Qed.

(** [rint] of a normal number from [2^52] on. *)
Lemma SFrint_large s M E :
  0 ≤ E → two52Z ≤ Z.pos M →
  SFrint (S754_finite s M E) = S754_finite s M E.
Proof.
  intros HE HM. unfold SFrint.
  assert (Hlt : SFltb (SFabs (S754_finite s M E)) SF2p52 = false).
  { unfold SFltb, SFabs, SF2p52, SFcompare.
    destruct (Z.compare_spec E 0) as [HE0|HE0|HE0]; [|lia|done].
    rewrite Pos.compare_cont_spec. unfold Pos.switch_Eq.
    destruct (Pos.compare_spec M 4503599627370496) as [HM0|HM0|HM0]; try done.
    apply Pos2Z.pos_lt_pos in HM0. unfold two52Z in HM. exfalso. lia. }
  by rewrite Hlt.
Qed.

(** *** Division by 100 *)

Lemma new_location_M100 r : new_location M100 r = loc_of_rem r M100.
Proof. reflexivity. Qed.

Lemma SFdiv100_eq s Mk Ek :
  two52Z ≤ Z.pos Mk < two53 → -1067 ≤ Ek →
  SF64div (S754_finite s Mk Ek) SF100
  = binary_round_aux 53 1024 s ((Z.pos Mk * two53) / M100) (Ek - 7)
      (loc_of_rem ((Z.pos Mk * two53) mod M100) M100).
Proof.
  intros HM HE. unfold SF64div, SF100, SFdiv, SFdiv_core_binary.
  rewrite xorb_false_r.
  unfold two52Z, two53 in *.
  rewrite (Zdigits2_unique (Z.pos Mk) 53) by (change (2 ^ (53 - 1)) with 4503599627370496; change (2 ^ 53) with 9007199254740992; lia).
  change (Zdigits2 7036874417766400) with 53.
  unfold prec, emax. rewrite fexp_eq.
  replace (Z.min (Z.max (53 + Ek - (53 + -46) - 53) (-1074)) (Ek - -46)) with (Ek - 7) by lia.
  replace (Ek - -46 - (Ek - 7)) with 53 by lia.
  rewrite Z.shiftl_mul_pow2 by lia. change (2 ^ 53) with 9007199254740992.
  change 7036874417766400 with M100.
  unfold Z.div, Z.modulo.
  destruct (Z.div_eucl (Z.pos Mk * 9007199254740992) M100) as [q r].
  by rewrite new_location_M100.
Qed.

(** Dividing an integer-valued normal number by 100. *)
Lemma SFdiv100_normal s Mk Ek :
  two52Z ≤ Z.pos Mk < two53 → -1067 ≤ Ek →
  SF64div (S754_finite s Mk Ek) SF100
  = if Z.pos Mk <? cut
    then round_result s (rne_div (32 * Z.pos Mk) 25) (Ek - 7)
    else round_result s (rne_div (16 * Z.pos Mk) 25) (Ek - 6).
Proof.
  intros HM HE. rewrite SFdiv100_eq by done.
  rewrite bra_spec by (unfold two53, M100; lia).
  unfold two52Z, two53, M100, cut in *.
  set (q := Z.pos Mk * 9007199254740992 / 7036874417766400).
  assert (Hq : 7036874417766400 * q ≤ Z.pos Mk * 9007199254740992
               < 7036874417766400 * q + 7036874417766400).
  { pose proof (Z.div_mod (Z.pos Mk * 9007199254740992) 7036874417766400 ltac:(lia)) as Hdm.
    pose proof (Z.mod_pos_bound (Z.pos Mk * 9007199254740992) 7036874417766400 ltac:(lia)).
    fold q in Hdm. lia. }
  destruct (Z.ltb_spec (Z.pos Mk) 7036874417766400) as [Hlt|Hge].
  - rewrite (Zdigits2_unique q 53)
      by (change (2 ^ (53 - 1)) with 4503599627370496; change (2 ^ 53) with 9007199254740992; lia).
    replace (Z.max 0 (fexp 53 1024 (53 + (Ek - 7)) - (Ek - 7))) with 0
      by (rewrite fexp_eq; lia).
    change (2 ^ 0) with 1. rewrite Z.mul_1_r, Z.add_0_r. f_equal.
    replace (Z.pos Mk * 9007199254740992) with (32 * Z.pos Mk * 281474976710656) by lia.
    change 7036874417766400 with (25 * 281474976710656).
    by rewrite rne_div_scale by lia.
  - rewrite (Zdigits2_unique q 54)
      by (change (2 ^ (54 - 1)) with 9007199254740992; change (2 ^ 54) with 18014398509481984; lia).
    replace (Z.max 0 (fexp 53 1024 (54 + (Ek - 7)) - (Ek - 7))) with 1
      by (rewrite fexp_eq; lia).
    replace (Ek - 7 + 1) with (Ek - 6) by lia. f_equal.
    replace (Z.pos Mk * 9007199254740992) with (16 * Z.pos Mk * 562949953421312) by lia.
    change (7036874417766400 * 2 ^ 1) with (25 * 562949953421312).
    by rewrite rne_div_scale by lia.
Qed.

(** *** Scaling by 100/16, back and forth *)

Lemma rne_div_closest a b z :
  0 < b → Z.abs (b * rne_div a b - a) ≤ Z.abs (b * z - a).
Proof.
  intros Hb. pose proof (rne_div_near a b Hb) as Hn.
  destruct (Z.lt_trichotomy z (rne_div a b)) as [Hlt|[->|Hgt]]; [|lia|].
  - assert (b * z ≤ b * rne_div a b - b) by nia. lia.
  - assert (b * rne_div a b + b ≤ b * z) by nia. lia.
Qed.

(** Rounding [25 m / 16], dividing by 25/16 and multiplying back returns the
    rounded value: [m] itself is a candidate for the division. *)
Lemma roundtrip16 m :
  rne_div (25 * rne_div (16 * rne_div (25 * m) 16) 25) 16 = rne_div (25 * m) 16.
Proof.
  set (Mk := rne_div (25 * m) 16).
  set (M2 := rne_div (16 * Mk) 25).
  pose proof (rne_div_near (25 * m) 16 ltac:(lia)) as H1. fold Mk in H1.
  pose proof (rne_div_closest (16 * Mk) 25 m ltac:(lia)) as H2. fold M2 in H2.
  apply rne_div_unique; [lia|lia|].
  intros Ht. apply (rne_div_tie_even (25 * m) 16); lia.
Qed.

Lemma round_result_finite s m e :
  0 < m < two53 → e ≤ 971 →
  round_result s m e = S754_finite s (Z.to_pos m) e.
Proof.
  intros Hm He. unfold round_result.
  destruct (Z.eqb_spec m 0); [lia|].
  destruct (Z.eqb_spec m two53); [lia|].
  destruct (Z.leb_spec e 971); [done|lia].
Qed.

Lemma round_result_finite_pos s (M : positive) e :
  Z.pos M < two53 → e ≤ 971 →
  round_result s (Z.pos M) e = S754_finite s M e.
Proof. intros HM He. rewrite round_result_finite by lia. by rewrite Pos2Z.id. Qed.

(** An integer-valued normal number written with its integer. *)
Lemma SFint_normal s Mk Ek K :
  two52Z ≤ Z.pos Mk < two53 → -52 ≤ Ek ≤ 0 →
  Z.pos Mk = K * 2 ^ (- Ek) →
  SFint s K = S754_finite s Mk Ek.
Proof.
  intros HM HE HK. unfold SFint, two52Z, two53 in *.
  pose proof (Z.pow_pos_nonneg 2 (- Ek) ltac:(lia) ltac:(lia)) as Hp.
  assert (HK0 : 0 < K) by nia.
  destruct (Z.eqb_spec K 0); [lia|].
  assert (Hd : Zdigits2 K = 53 + Ek).
  { apply Zdigits2_unique; [lia|].
    assert (H52 : 2 ^ 52 = 2 ^ (53 + Ek - 1) * 2 ^ (- Ek))
      by (rewrite <- Z.pow_add_r by lia; f_equal; lia).
    assert (H53 : 2 ^ 53 = 2 ^ (53 + Ek) * 2 ^ (- Ek))
      by (rewrite <- Z.pow_add_r by lia; f_equal; lia).
    change (2 ^ 52) with 4503599627370496 in H52.
    change (2 ^ 53) with 9007199254740992 in H53. nia. }
  rewrite Hd. replace (53 - (53 + Ek)) with (- Ek) by lia.
  rewrite <- HK, Pos2Z.id. f_equal. lia.
Qed.

Lemma SFrint_int s Mk Ek :
  int_float (Z.pos Mk) Ek → SFrint (S754_finite s Mk Ek) = S754_finite s Mk Ek.
Proof.
  intros (HM & HE & Hdiv).
  destruct (Z_lt_le_dec Ek 0) as [Hneg|Hpos].
  - rewrite SFrint_small by (unfold two52Z in *; lia).
    pose proof (Z.pow_pos_nonneg 2 (- Ek) ltac:(lia) ltac:(lia)) as Hp.
    pose proof (Z.div_mod (Z.pos Mk) (2 ^ (- Ek)) ltac:(lia)) as Hdm.
    rewrite Hdiv in Hdm by done. rewrite Z.add_0_r in Hdm.
    rewrite Hdm at 1. rewrite rne_div_exact by done.
    apply SFint_normal; [done|lia|lia].
  - apply SFrint_large; lia.
Qed.

(** *** Integers that come back from the division by 100 *)

Lemma fixed_int s Mk Ek :
  int_float (Z.pos Mk) Ek → good (Z.pos Mk) Ek → fixed (S754_finite s Mk Ek).
Proof.
  intros (HM & HE & Hdiv) Hgood. unfold fixed.
  rewrite SFdiv100_normal by lia.
  unfold good in Hgood. unfold two52Z, two53, cut in *.
  destruct (Z.ltb_spec (Z.pos Mk) 7036874417766400) as [Hlt|Hge].
  - (* the quotient has the exponent [Ek - 7] *)
    set (M2 := rne_div (32 * Z.pos Mk) 25).
    pose proof (rne_div_near (32 * Z.pos Mk) 25 ltac:(lia)) as H2. fold M2 in H2.
    assert (HM2 : 5764607523034235 ≤ M2 < 9007199254740992) by lia.
    rewrite round_result_finite by (unfold two53; lia).
    rewrite SFmul100_normal by (rewrite ?Z2Pos.id by lia; unfold two52Z, two53; lia).
    rewrite Z2Pos.id by lia.
    destruct (Z.ltb_spec (25 * M2) (2 ^ 57)) as [Hc|Hc]; [lia|].
    replace (Ek - 7 + 7) with Ek by lia.
    rewrite (rne_div_unique (25 * M2) 32 (Z.pos Mk)) by lia.
    rewrite round_result_finite_pos by (unfold two53; lia).
    apply SFrint_int. unfold int_float, two52Z, two53. lia.
  - set (M2 := rne_div (16 * Z.pos Mk) 25).
    pose proof (rne_div_near (16 * Z.pos Mk) 25 ltac:(lia)) as H2. fold M2 in H2.
    assert (HM2 : 4503599627370496 ≤ M2 < 5764607523034235) by lia.
    rewrite round_result_finite by (unfold two53; lia).
    rewrite SFmul100_normal by (rewrite ?Z2Pos.id by lia; unfold two52Z, two53; lia).
    rewrite Z2Pos.id by lia.
    destruct (Z.ltb_spec (25 * M2) (2 ^ 57)) as [Hc|Hc]; [|lia].
    replace (Ek - 6 + 6) with Ek by lia.
    set (M3 := rne_div (25 * M2) 16).
    pose proof (rne_div_near (25 * M2) 16 ltac:(lia)) as H3. fold M3 in H3.
    fold M2 in Hgood. fold M3 in Hgood.
    clearbody M3. clearbody M2.
    assert (HM3 : Z.pos Mk - 1 ≤ M3 ≤ Z.pos Mk + 1) by lia.
    destruct Hgood as [Hg|[Hg|[[Hg1 Hg2]|Hg]]]; [lia| | |].
    + (* the integer is a multiple of 4 ulps *)
      pose proof (Z.pow_pos_nonneg 2 (- Ek) ltac:(lia) ltac:(lia)) as Hp.
      assert (Hp4 : 4 ≤ 2 ^ (- Ek)).
      { change 4 with (2 ^ 2). apply Z.pow_le_mono_r; lia. }
      pose proof (Z.div_mod (Z.pos Mk) (2 ^ (- Ek)) ltac:(lia)) as Hdm.
      rewrite Hdiv, Z.add_0_r in Hdm by lia.
      set (K := Z.pos Mk / 2 ^ (- Ek)) in *.
      assert (HM3' : 0 < M3 < 9007199254740992) by nia.
      rewrite round_result_finite by (unfold two53; lia).
      rewrite SFrint_small by (rewrite ?Z2Pos.id by lia; unfold two53; lia).
      rewrite Z2Pos.id by lia.
      rewrite (rne_div_unique M3 (2 ^ (- Ek)) K) by lia.
      apply SFint_normal; [unfold two52Z, two53; lia|lia|lia].
    + (* an even integer at half-ulp spacing *)
      subst Ek. change (2 ^ (- -1)) with 2 in *.
      pose proof (Z.div_mod (Z.pos Mk) 2 ltac:(lia)) as Hdm.
      rewrite Hdiv, Z.add_0_r in Hdm by lia.
      set (K := Z.pos Mk / 2) in *.
      assert (HM3' : 0 < M3 < 9007199254740992) by lia.
      rewrite round_result_finite by (unfold two53; lia).
      rewrite SFrint_small by (rewrite ?Z2Pos.id by lia; unfold two53; lia).
      rewrite Z2Pos.id by lia. change (2 ^ (- -1)) with 2.
      rewrite (rne_div_unique M3 2 K) by (try lia; done).
      apply SFint_normal; [unfold two52Z, two53; lia|lia|].
      change (2 ^ (- -1)) with 2. lia.
    + rewrite Hg.
      rewrite round_result_finite_pos by (unfold two53; lia).
      apply SFrint_int. unfold int_float, two52Z, two53. lia.
Qed.

Lemma fixed_special X :
  match X with S754_finite _ _ _ => False | _ => True end → fixed X.
Proof. destruct X as [[]|[]| |]; try done; intros _; reflexivity. Qed.

(** *** What [rint] returns comes back *)

(** The rounded mantissa has at most 53 bits, or is [2^53]. *)
Lemma round_fits a ex :
  0 ≤ a →
  0 ≤ rne_div a (2 ^ Z.max 0 (fexp 53 1024 (Zdigits2 a + ex) - ex)) ≤ two53.
Proof.
  intros Ha.
  set (n := Z.max 0 (fexp 53 1024 (Zdigits2 a + ex) - ex)).
  assert (Hn : 0 ≤ n) by lia.
  pose proof (Z.pow_pos_nonneg 2 n ltac:(lia) Hn) as HB.
  pose proof (rne_div_near a (2 ^ n) HB) as Hnear.
  split; [apply rne_div_nonneg; lia|].
  assert (Hfit : a < 2 ^ n * two53).
  { destruct (Z.eq_dec a 0) as [->|Ha0]; [unfold two53; lia|].
    destruct (Zdigits2_bounds a ltac:(lia)) as [Hd [_ Hdhi]].
    set (d := Zdigits2 a) in *.
    assert (Hdn : d - 53 ≤ n) by (unfold n; fold d; rewrite fexp_eq; lia).
    assert (Hpow : 2 ^ d ≤ 2 ^ n * two53).
    { change two53 with (2 ^ 53). rewrite <- Z.pow_add_r by lia.
      apply Z.pow_le_mono_r; lia. }
    lia. }
  nia.
Qed.

Lemma SFrint_tiny s m1 e1 :
  0 ≤ m1 ≤ two53 → -1074 ≤ e1 ≤ -55 →
  SFrint (round_result s m1 e1) = S754_zero s.
Proof.
  intros Hm He. unfold round_result, two53 in *.
  assert (Hp : 2 ^ 55 ≤ 2 ^ (- e1)) by (apply Z.pow_le_mono_r; lia).
  assert (Hp' : 2 ^ 54 ≤ 2 ^ (- (e1 + 1))) by (apply Z.pow_le_mono_r; lia).
  change (2 ^ 55) with 36028797018963968 in Hp.
  change (2 ^ 54) with 18014398509481984 in Hp'.
  destruct (Z.eqb_spec m1 0) as [H0|H0]; [by destruct s|].
  destruct (Z.eqb_spec m1 9007199254740992) as [H53|H53].
  - destruct (Z.leb_spec (e1 + 1) 971); [|lia].
    rewrite SFrint_small by (unfold two53; lia).
    rewrite (rne_div_unique _ _ 0) by lia. done.
  - destruct (Z.leb_spec e1 971); [|lia].
    rewrite SFrint_small by (rewrite ?Z2Pos.id by lia; unfold two53; lia).
    rewrite Z2Pos.id by lia.
    rewrite (rne_div_unique _ _ 0) by lia. done.
Qed.

(** A small enough number rounds to zero. *)
Lemma Kf_tiny s m e :
  0 < Z.pos m < two53 → -1074 ≤ e ≤ -62 →
  SFrint (SF64mul (S754_finite s m e) SF100) = S754_zero s.
Proof.
  intros Hm He. rewrite SFmul100_eq, bra_exact by (unfold M100; lia).
  set (a := Z.pos m * M100).
  assert (Ha : 0 < a < 2 ^ 106).
  { unfold a, M100, two53 in *. change (2 ^ 106) with (9007199254740992 * 9007199254740992). nia. }
  pose proof (round_fits a (e - 46) ltac:(lia)) as Hfit.
  apply SFrint_tiny; [done|].
  destruct (Zdigits2_bounds a ltac:(lia)) as [Hd [Hdlo _]].
  assert (Hd106 : Zdigits2 a ≤ 106).
  { destruct (Z_le_gt_dec (Zdigits2 a) 106) as [|Hgt]; [done|exfalso].
    assert (2 ^ 106 ≤ 2 ^ (Zdigits2 a - 1)) by (apply Z.pow_le_mono_r; lia). lia. }
  rewrite fexp_eq. lia.
Qed.

Lemma fixed_rint_large s m1 e1 :
  two52Z ≤ Z.pos m1 < two53 → 0 ≤ e1 ≤ 971 → roundtrip (Z.pos m1) →
  fixed (SFrint (S754_finite s m1 e1)).
Proof.
  intros Hm He Hr. rewrite SFrint_large by lia.
  apply fixed_int; [unfold int_float; lia|].
  unfold good. destruct Hr; tauto.
Qed.

Lemma fixed_rint_small s m1 e1 :
  two52Z ≤ Z.pos m1 < two53 → -1074 ≤ e1 < 0 → roundtrip (Z.pos m1) →
  fixed (SFrint (S754_finite s m1 e1)).
Proof.
  intros Hm He Hr. rewrite SFrint_small by lia.
  pose proof (Z.pow_pos_nonneg 2 (- e1) ltac:(lia) ltac:(lia)) as Hp.
  assert (Hp2 : 2 ≤ 2 ^ (- e1)).
  { change 2 with (2 ^ 1) at 1. apply Z.pow_le_mono_r; lia. }
  pose proof (rne_div_near (Z.pos m1) (2 ^ (- e1)) Hp) as Hn.
  pose proof (rne_div_nonneg (Z.pos m1) (2 ^ (- e1)) ltac:(lia) Hp) as H0.
  pose proof (rne_div_tie_even (Z.pos m1) (2 ^ (- e1)) Hp) as Htie.
  set (K := rne_div (Z.pos m1) (2 ^ (- e1))) in *. clearbody K.
  unfold two52Z, two53 in *.
  assert (HK : K ≤ 4503599627370496) by nia.
  unfold SFint. destruct (Z.eqb_spec K 0) as [HK0|HK0]; [by apply fixed_special|].
  destruct (Zdigits2_bounds K ltac:(lia)) as [Hd [Hdlo Hdhi]].
  set (d := Zdigits2 K) in *. clearbody d.
  assert (Hd53 : d ≤ 53).
  { destruct (Z_le_gt_dec d 53) as [|Hgt]; [done|exfalso].
    assert (2 ^ 53 ≤ 2 ^ (d - 1)) by (apply Z.pow_le_mono_r; lia).
    change (2 ^ 53) with 9007199254740992 in *. lia. }
  pose proof (Z.pow_pos_nonneg 2 (53 - d) ltac:(lia) ltac:(lia)) as Hq.
  set (Mk := K * 2 ^ (53 - d)).
  assert (HMk : 4503599627370496 ≤ Mk < 9007199254740992).
  { unfold Mk.
    assert (H52 : 4503599627370496 = 2 ^ (d - 1) * 2 ^ (53 - d))
      by (rewrite <- Z.pow_add_r by lia; replace (d - 1 + (53 - d)) with 52 by lia; done).
    assert (H53 : 9007199254740992 = 2 ^ d * 2 ^ (53 - d))
      by (rewrite <- Z.pow_add_r by lia; replace (d + (53 - d)) with 53 by lia; done).
    nia. }
  apply fixed_int.
  - unfold int_float, two52Z, two53. rewrite Z2Pos.id by lia.
    split; [done|]. split; [lia|]. intros _.
    replace (- (d - 53)) with (53 - d) by lia. unfold Mk. apply Z.mod_mul. lia.
  - unfold good, cut. rewrite Z2Pos.id by lia.
    destruct (Z.eq_dec d 53) as [Hd1|Hd1].
    { left. subst d. change (2 ^ (53 - 1)) with 4503599627370496 in Hdlo.
      assert (K = 4503599627370496) by lia. subst K. unfold Mk. simpl. lia. }
    destruct (Z.eq_dec d 52) as [Hd2|Hd2]; [|right; left; lia].
    subst d.
    change (2 ^ (52 - 1)) with 2251799813685248 in Hdlo.
    change (2 ^ 52) with 4503599627370496 in Hdhi.
    assert (HMk2 : Mk = 2 * K) by (unfold Mk; change (2 ^ (53 - 52)) with 2; lia).
    destruct (Z.even K) eqn:Hev.
    { right. right. left. split; [lia|]. rewrite HMk2.
      replace (2 * K) with (K * 2) by lia. by rewrite Z.div_mul by lia. }
    (* an odd integer at half-ulp spacing is the product itself *)
    assert (He1 : e1 = -1).
    { destruct (Z.eq_dec e1 (-1)) as [|Hne]; [done|exfalso].
      assert (4 ≤ 2 ^ (- e1)) by (change 4 with (2 ^ 2); apply Z.pow_le_mono_r; lia).
      assert (K = 2251799813685248) by nia. subst K. vm_compute in Hev. discriminate. }
    subst e1. change (2 ^ (- -1)) with 2 in *.
    assert (Hm1 : Z.pos m1 = 2 * K).
    { destruct (Z.eq_dec (Z.pos m1) (2 * K)) as [|Hne]; [done|exfalso].
      assert (false = true) by (apply Htie; lia). discriminate. }
    rewrite HMk2, <- Hm1. unfold roundtrip, cut in Hr.
    destruct Hr as [Hr|Hr]; [by left|by right; right; right].
Qed.

(** *** Idempotence *)

Lemma Kf_fixed s m e :
  SpecFloat.bounded 53 1024 m e = true →
  fixed (SFrint (SF64mul (S754_finite s m e) SF100)).
Proof.
  intros (He & Hm & Hnorm)%bounded_inv.
  destruct (Z_le_gt_dec e (-62)) as [Hsmall|Hbig].
  { rewrite Kf_tiny by lia. by apply fixed_special. }
  destruct Hnorm as [Hnorm|Hsub]; [|lia].
  rewrite SFmul100_normal by lia.
  unfold two52Z, two53 in *.
  destruct (Z.ltb_spec (25 * Z.pos m) (2 ^ 57)) as [Hlt|Hge].
  - change (2 ^ 57) with 144115188075855872 in Hlt.
    pose proof (rne_div_near (25 * Z.pos m) 16 ltac:(lia)) as Hn.
    pose proof (roundtrip16 (Z.pos m)) as Hrt.
    set (m1 := rne_div (25 * Z.pos m) 16) in *. clearbody m1.
    assert (Hm1 : 7036874417766400 ≤ m1 < 9007199254740992) by lia.
    destruct (Z_le_gt_dec (e + 6) 971) as [Hfin|Hinf].
    + rewrite round_result_finite by (unfold two53; lia).
      assert (Hr : roundtrip (Z.pos (Z.to_pos m1))).
      { rewrite Z2Pos.id by lia. by right. }
      destruct (Z_lt_le_dec (e + 6) 0).
      * apply fixed_rint_small; [rewrite Z2Pos.id by lia; unfold two52Z, two53; lia|lia|done].
      * apply fixed_rint_large; [rewrite Z2Pos.id by lia; unfold two52Z, two53; lia|lia|done].
    + unfold round_result, two53.
      destruct (Z.eqb_spec m1 0); [lia|].
      destruct (Z.eqb_spec m1 9007199254740992); [lia|].
      destruct (Z.leb_spec (e + 6) 971); [lia|].
      by destruct s.
  - change (2 ^ 57) with 144115188075855872 in Hge.
    pose proof (rne_div_near (25 * Z.pos m) 32 ltac:(lia)) as Hn.
    set (m1 := rne_div (25 * Z.pos m) 32) in *. clearbody m1.
    assert (Hm1 : 4503599627370496 ≤ m1 < 7036874417766400) by lia.
    destruct (Z_le_gt_dec (e + 7) 971) as [Hfin|Hinf].
    + rewrite round_result_finite by (unfold two53; lia).
      assert (Hr : roundtrip (Z.pos (Z.to_pos m1))).
      { rewrite Z2Pos.id by lia. left. unfold cut. lia. }
      destruct (Z_lt_le_dec (e + 7) 0).
      * apply fixed_rint_small; [rewrite Z2Pos.id by lia; unfold two52Z, two53; lia|lia|done].
      * apply fixed_rint_large; [rewrite Z2Pos.id by lia; unfold two52Z, two53; lia|lia|done].
    + unfold round_result, two53.
      destruct (Z.eqb_spec m1 0); [lia|].
      destruct (Z.eqb_spec m1 9007199254740992); [lia|].
      destruct (Z.leb_spec (e + 7) 971); [lia|].
      by destruct s.
Qed.

Theorem SFaround_idempotent X :
  SpecFloat.valid_binary prec emax X = true → SFaround (SFaround X) = SFaround X.
Proof.
  intros Hv. unfold SFaround.
  assert (Hfix : fixed (SFrint (SF64mul X SF100))).
  { destruct X as [s|s| |s m e].
    - by destruct s.
    - by destruct s.
    - done.
    - by apply Kf_fixed. }
  unfold fixed in Hfix. by rewrite Hfix.
Qed.

Theorem around_idempotent (x : float) : around 2 (around 2 x) = around 2 x.
Proof. apply around_idempotent_of_SF, SFaround_idempotent. Qed.

(** Rounding a column again returns the column. *)
Lemma Series_round_twice c c' :
  Series_round 2 c = Ok c' → Series_round 2 c' = Ok c'.
Proof.
  destruct c as [xs|xs|xs|xs|xs]; simpl; intros [= <-]; [|done].
  simpl. do 2 f_equal. rewrite <- list_fmap_compose.
  apply list_fmap_ext. intros i x _. simpl. apply around_idempotent.
Qed.

(** C8. The coordinate rounding is idempotent: for every binary64 value,
    NaN, infinities and signed zeros included, rounding the rounded value
    to two decimals returns the rounded value bit for bit; hence every
    column returned by the rounding step of the transform is returned as
    it is by a second application of the step. *)
Theorem rounding_idempotent :
  (∀ x : float, around 2 (around 2 x) = around 2 x) ∧
  (∀ c c' : column, Series_round 2 c = Ok c' → Series_round 2 c' = Ok c').
Proof. split; [apply around_idempotent|apply Series_round_twice]. Qed.


(** ** Examples *)

Example around_latitude : around 2 34.567 = 34.57%float.
Proof. reflexivity. Qed.

Example around_longitude : around 2 (-118.123) = (-118.12)%float.
Proof. reflexivity. Qed.

Example around_twice_latitude : around 2 (around 2 34.567) = around 2 34.567.
Proof. reflexivity. Qed.

Example around_half_even : around 2 0.125 = 0.12%float ∧ around 2 0.375 = 0.38%float.
Proof. split; reflexivity. Qed.

Example around_nan : around 2 nan = nan.
Proof. reflexivity. Qed.

Example week_of_2020_01_05 :
  result_map (λ d, (month d, get_week_of_year d, dayofweek d)) (to_timestamp "2020-01-05")
  = Ok (1, 1, 6).
Proof. reflexivity. Qed.

Example week_of_year_ends :
  get_week_of_year <$> [Date 2019 12 30; Date 2021 1 3; Date 2020 12 31; Date 2016 1 1]
  = [1; 53; 53; 53].
Proof. reflexivity. Qed.

(** The reference clusterer on five groups of fifty and ten isolated rows. *)
Example five_groups_colocated :
  clusters_of (process_live_data_and_cluster (hdbscan := Colocated.clusterer)
                 0%nat [Samples.five_groups])
  = Ok (Some (BoolCol (replicate 250 true ++ replicate 10 false))).
Proof. vm_compute. reflexivity. Qed.

(** ** The claims on sample batches *)

(** Fifty co-located rows get the cluster 0, the two others are noise. *)
Lemma clusters_is_not_noise_witness :
  ∃ out,
    process_live_data_and_cluster (hdbscan := Colocated.clusterer)
      0%nat [Samples.dense_batch] = (Ok 1%nat, [Samples.dense_batch] ++ [out]) ∧
    nrows out = 52%nat ∧
    df_columns out !! "clusters"
      = Some (BoolCol (cluster_membership <$> (replicate 50 0 ++ [-1; -1]))) ∧
    ∀ i, (i < 52)%nat →
      ∃ cluster_id, (replicate 50 0 ++ [-1; -1]) !! i = Some cluster_id ∧
        cell out "clusters" i = Some (VBool (bool_decide (cluster_id ≠ -1))).
Proof.
  apply (clusters_is_not_noise (hdbscan := Colocated.clusterer)
           [Samples.dense_batch] 0%nat Samples.dense_batch (replicate 50 0 ++ [-1; -1]));
    vm_compute; reflexivity.
Defined.



(** Two batches with the same coordinates, the second in a store that
    also holds a dense batch. *)
Lemma clusters_from_coordinates_only_witness :
  clusters_of (process_live_data_and_cluster (hdbscan := Colocated.clusterer)
                 0%nat [Samples.small_batch])
  = clusters_of (process_live_data_and_cluster (hdbscan := Colocated.clusterer)
                   1%nat [Samples.dense_batch; Samples.other_small_batch]).
Proof.
  apply (clusters_from_coordinates_only (hdbscan := Colocated.clusterer)
           [Samples.small_batch] [Samples.dense_batch; Samples.other_small_batch]
           0%nat 1%nat Samples.small_batch Samples.other_small_batch);
    vm_compute; reflexivity.
Defined.

(** Two calls in a row on the dense batch. *)
Lemma repeated_runs_agree_witness :
  returned (process_live_data_and_cluster (hdbscan := Colocated.clusterer) 0%nat
              (process_live_data_and_cluster (hdbscan := Colocated.clusterer) 0%nat
                 [Samples.dense_batch]).2)
  = returned (process_live_data_and_cluster (hdbscan := Colocated.clusterer) 0%nat
                [Samples.dense_batch])
  ∧ clusters_of (process_live_data_and_cluster (hdbscan := Colocated.clusterer) 0%nat
              (process_live_data_and_cluster (hdbscan := Colocated.clusterer) 0%nat
                 [Samples.dense_batch]).2)
    = clusters_of (process_live_data_and_cluster (hdbscan := Colocated.clusterer) 0%nat
                [Samples.dense_batch])
  ∧ ∀ h' l', h' !! l' = Some Samples.dense_batch →
      returned (process_live_data_and_cluster (hdbscan := Colocated.clusterer) l' h')
      = returned (process_live_data_and_cluster (hdbscan := Colocated.clusterer) 0%nat
                    [Samples.dense_batch]).
Proof.
  apply (repeated_runs_agree (hdbscan := Colocated.clusterer)
           [Samples.dense_batch] 0%nat Samples.dense_batch).
  reflexivity.
Defined.

(** Satellites [T], [A] and [N]. *)
Lemma satellite_normalized_witness :
  ∃ out,
    process_live_data_and_cluster (hdbscan := Colocated.clusterer)
      0%nat [Samples.small_batch] = (Ok 1%nat, [Samples.small_batch] ++ [out]) ∧
    ∀ i v, cell Samples.small_batch "satellite" i = Some v →
      cell out "satellite" i = Some (normalize_satellite v).
Proof.
  apply (satellite_normalized (hdbscan := Colocated.clusterer)
           [Samples.small_batch] 0%nat Samples.small_batch [-1; -1; -1]);
    vm_compute; reflexivity.
Defined.

(** The row of the scenario as a batch of its own. *)
Lemma schema_scenario_witness :
  ∃ out,
    process_live_data_and_cluster (hdbscan := Colocated.clusterer)
      0%nat [Samples.single_row] = (Ok 1%nat, [Samples.single_row] ++ [out]) ∧
    cell out "satellite" 0 = Some (VStr "Terra") ∧
    cell out "month" 0 = Some (VInt 1) ∧
    cell out "week" 0 = Some (VInt 1) ∧
    df_columns out !! "acq_date" = None ∧
    df_columns out !! "acq_time" = None ∧
    cell out "latitude" 0 = Some (VFloat 34.57) ∧
    cell out "longitude" 0 = Some (VFloat (-118.12)).
Proof.
  apply (schema_scenario (hdbscan := Colocated.clusterer)
           [Samples.single_row] 0%nat Samples.single_row [-1] 0%nat);
    vm_compute; reflexivity.
Defined.

(** The batch with every model feature. *)
Lemma no_side_effects_witness :
  (∀ l0 f0, [Samples.small_batch] !! l0 = Some f0 →
     (process_live_data_and_cluster (hdbscan := Colocated.clusterer)
        0%nat [Samples.small_batch]).2 !! l0 = Some f0)
  ∧ (∀ labels,
       preprocessable Samples.small_batch = true →
       cluster_labels (hdbscan := Colocated.clusterer) Samples.small_batch = Ok labels →
       length labels = nrows Samples.small_batch →
       ∃ out,
         process_live_data_and_cluster (hdbscan := Colocated.clusterer)
           0%nat [Samples.small_batch] = (Ok 1%nat, [Samples.small_batch] ++ [out]) ∧
         [Samples.small_batch] !! 1%nat = None ∧
         ∀ c, c ∈ passthrough →
           df_columns out !! c = df_columns Samples.small_batch !! c).
Proof.
  apply (no_side_effects (hdbscan := Colocated.clusterer)
           [Samples.small_batch] 0%nat Samples.small_batch).
  reflexivity.
Defined.

(** The dense batch keeps its 52 row labels. *)
Lemma rows_preserved_witness :
  ∃ out,
    process_live_data_and_cluster (hdbscan := Colocated.clusterer)
      0%nat [Samples.dense_batch] = (Ok 1%nat, [Samples.dense_batch] ++ [out]) ∧
    df_index out = df_index Samples.dense_batch ∧
    nrows out = 52%nat ∧
    frame_wf out.
Proof.
  apply (rows_preserved (hdbscan := Colocated.clusterer)
           [Samples.dense_batch] 0%nat Samples.dense_batch (replicate 50 0 ++ [-1; -1]));
    vm_compute; reflexivity.
Defined.

(** A latitude and a tie, rounded once and twice. *)
Lemma rounding_idempotent_witness :
  Series_round 2 (FloatCol [34.567; 0.125]%float) = Ok (FloatCol [34.57; 0.12]%float) ∧
  Series_round 2 (FloatCol [34.57; 0.12]%float) = Ok (FloatCol [34.57; 0.12]%float) ∧
  around 2 (around 2 34.567) = around 2 34.567.
Proof.
  split; [reflexivity|]. split.
  - apply (proj2 rounding_idempotent (FloatCol [34.567; 0.125]%float)). reflexivity.
  - apply (proj1 rounding_idempotent).
Defined.

(** * Further properties of the function *)

Section Outcomes.
Context {hdbscan : DensityClusterer}.

(** A call that returned went through every statement. *)
Lemma returned_inv (h : heap) (l : loc) (f out : DataFrame) :
  h !! l = Some f →
  returned (process_live_data_and_cluster l h) = Ok (Some out) →
  ∃ acq dates sat lat lat' lon lon' labels,
    df_columns f !! "acq_date" = Some acq ∧
    pd_to_datetime acq = Ok (DatetimeCol dates) ∧
    df_columns f !! "satellite" = Some sat ∧
    df_columns f !! "latitude" = Some lat ∧
    Series_round 2 lat = Ok lat' ∧
    df_columns f !! "longitude" = Some lon ∧
    Series_round 2 lon = Ok lon' ∧
    is_Some (df_columns f !! "acq_time") ∧
    HDBSCAN_fit_labels 50 20 [lat'; lon'] = Ok labels ∧
    length labels = nrows f ∧
    out = output f dates sat lat' lon' labels.
Proof.
  intros Hl. rewrite (returned_process h l f Hl).
  destruct (transform f) as [[[]|e] f'] eqn:Ht; simpl; [|discriminate].
  intros [= <-]. by apply transform_inv.
Qed.

Lemma output_untouched f dates sat lat' lon' labels c :
  c ∉ touched →
  df_columns (output f dates sat lat' lon' labels) !! c = df_columns f !! c.
Proof.
  unfold touched. intros Hc.
  repeat (apply not_elem_of_cons in Hc as [? Hc]).
  unfold output, preprocessed. by lookups.
Qed.

Ltac column_case :=
  intuition (first [ discriminate
                   | match goal with H : is_Some None |- _ => by destruct (is_Some_None H) end
                   | eauto ]).

(** X1.  The columns of the frame returned are those of the input without
    [acq_date] and [acq_time], and with [month], [week] and [clusters]. *)
Theorem output_columns (h : heap) (l : loc) (f out : DataFrame) :
  h !! l = Some f →
  returned (process_live_data_and_cluster l h) = Ok (Some out) →
  dom (df_columns out) =@{gset string}
    {["month"; "week"; "clusters"]} ∪ (dom (df_columns f) ∖ {["acq_date"; "acq_time"]}).
Proof.
  intros Hl Hret.
  destruct (returned_inv h l f out Hl Hret)
    as (acq & dates & sat & lat & lat' & lon & lon' & labels
        & Hacq & _ & Hsat & Hlat & _ & Hlon & _ & _ & _ & _ & ->).
  apply set_eq. intros c.
  rewrite !elem_of_union, elem_of_difference, !elem_of_union, !elem_of_singleton,
    !elem_of_dom.
  unfold output, preprocessed.
  destruct (decide (c = "clusters")) as [->|]; [by lookups; column_case|].
  destruct (decide (c = "acq_date")) as [->|]; [by lookups; column_case|].
  destruct (decide (c = "acq_time")) as [->|]; [by lookups; column_case|].
  destruct (decide (c = "week")) as [->|]; [by lookups; column_case|].
  destruct (decide (c = "month")) as [->|]; [by lookups; column_case|].
  destruct (decide (c = "longitude")) as [->|]; [by lookups; rewrite Hlon; column_case|].
  destruct (decide (c = "latitude")) as [->|]; [by lookups; rewrite Hlat; column_case|].
  destruct (decide (c = "satellite")) as [->|]; [by lookups; rewrite Hsat; column_case|].
  by lookups; column_case.
Qed.

(** X2.  Every column the function does not name is in the frame returned
    as it is in the input, cell by cell, whatever its name and type. *)
Theorem other_columns_kept (h : heap) (l : loc) (f out : DataFrame) (c : string) :
  h !! l = Some f →
  returned (process_live_data_and_cluster l h) = Ok (Some out) →
  c ∉ touched →
  df_columns out !! c = df_columns f !! c ∧ ∀ i, cell out c i = cell f c i.
Proof.
  intros Hl Hret Hc.
  destruct (returned_inv h l f out Hl Hret)
    as (acq & dates & sat & lat & lat' & lon & lon' & labels
        & _ & _ & _ & _ & _ & _ & _ & _ & _ & _ & ->).
  assert (Heq := output_untouched f dates sat lat' lon' labels c Hc).
  split; [done|]. intros i. unfold cell. by rewrite Heq.
Qed.

End Outcomes.

(** ** Dates, months and weeks *)

(** A parsed date is a calendar day that a [Timestamp] holds. *)
Lemma to_timestamp_Ok (s : string) (d : date) :
  to_timestamp s = Ok d →
  valid_date d = true ∧ date_leb Timestamp_min d = true ∧ date_leb d Timestamp_max = true.
Proof.
  unfold to_timestamp. destruct (parse_iso_date s) as [d0|]; [|discriminate].
  destruct (valid_date d0) eqn:Hv; simpl; [|discriminate].
  destruct (date_leb Timestamp_min d0 && date_leb d0 Timestamp_max) eqn:Hb; [|discriminate].
  intros [= <-]. apply andb_prop in Hb as [? ?]. done.
Qed.

Lemma to_timestamp_parse (s : string) (d : date) :
  to_timestamp s = Ok d → parse_iso_date s = Some d.
Proof.
  unfold to_timestamp. destruct (parse_iso_date s) as [d0|]; [|discriminate].
  destruct (valid_date d0); simpl; [|discriminate].
  destruct (date_leb Timestamp_min d0 && date_leb d0 Timestamp_max); [|discriminate].
  by intros [= <-].
Qed.

Lemma valid_date_month (d : date) : valid_date d = true → 1 ≤ month d ≤ 12.
Proof. unfold valid_date. rewrite !andb_true_iff, !Z.leb_le. lia. Qed.

Lemma dayofweek_range (d : date) : 0 ≤ dayofweek d < 7.
Proof. unfold dayofweek. apply Z.mod_pos_bound. lia. Qed.

Lemma day_of_year_range (d : date) :
  valid_date d = true → 1 ≤ get_day_of_year d ≤ 366.
Proof.
  destruct d as [y m dd]. unfold valid_date, get_day_of_year. cbn [year month day].
  rewrite !andb_true_iff, !Z.leb_le. intros [[[Hm1 Hm2] Hd1] Hd2].
  assert (Hm : m = 1 ∨ m = 2 ∨ m = 3 ∨ m = 4 ∨ m = 5 ∨ m = 6 ∨ m = 7 ∨ m = 8
               ∨ m = 9 ∨ m = 10 ∨ m = 11 ∨ m = 12) by lia.
  unfold month_offset, days_per_month in *.
  destruct Hm as [->|[->|[->|[->|[->|[->|[->|[->|[->|[->|[->| ->]]]]]]]]]]];
    destruct (is_leapyear y); lia.
Qed.

Lemma week_of_year_range (d : date) :
  valid_date d = true → 1 ≤ get_week_of_year d ≤ 53.
Proof.
  intros Hv. pose proof (day_of_year_range d Hv) as Hdoy.
  pose proof (dayofweek_range d) as Hdow.
  unfold get_week_of_year.
  set (doy := get_day_of_year d) in *. set (dow := dayofweek d) in *.
  clearbody doy dow. cbv zeta.
  destruct (Z.ltb_spec (doy - 1 - dow + 3) 0) as [Hneg|Hpos].
  - destruct (_ || _); lia.
  - assert (0 ≤ (doy - 1 - dow + 3) / 7 < 53).
    { split; [apply Z.div_pos; lia|]. apply Z.div_lt_upper_bound; lia. }
    destruct (_ && _); lia.
Qed.

Lemma col_values_VTimestamp c i d :
  col_values c !! i = Some (VTimestamp d) → ∃ xs, c = DatetimeCol xs ∧ xs !! i = Some d.
Proof.
  destruct c; simpl; rewrite list_lookup_fmap;
    destruct (xs !! i) eqn:Hx; simpl; try discriminate.
  intros [= ->]. eauto.
Qed.

Lemma col_values_VInt c i z :
  col_values c !! i = Some (VInt z) → ∃ xs, c = IntCol xs ∧ xs !! i = Some z.
Proof.
  destruct c; simpl; rewrite list_lookup_fmap;
    destruct (xs !! i) eqn:Hx; simpl; try discriminate.
  intros [= ->]. eauto.
Qed.

Section Rows.
Context {hdbscan : DensityClusterer}.

(** X3.  On a table whose dates are strings written [YYYY-MM-DD] that
    name calendar days a [Timestamp] holds, whenever the call returns,
    [month] and [week] are row by row the calendar month and the week of
    the year of the day written in that row, a month between 1 and 12 and
    a week between 1 and 53.  On a table whose dates are timestamps
    already, they are the month and the week of the row's timestamp. *)
Theorem month_and_week_of_rows (h : heap) (l : loc) (f out : DataFrame) :
  h !! l = Some f →
  returned (process_live_data_and_cluster l h) = Ok (Some out) →
  (∀ strs,
     df_columns f !! "acq_date" = Some (ObjectCol strs) →
     Forall (λ s, iso_calendar_day s = true) strs →
     ∀ i s, strs !! i = Some s →
       ∃ d, parse_iso_date s = Some d ∧
         cell out "month" i = Some (VInt (month d)) ∧
         cell out "week" i = Some (VInt (get_week_of_year d)) ∧
         1 ≤ month d ≤ 12 ∧ 1 ≤ get_week_of_year d ≤ 53)
  ∧ (∀ i d, cell f "acq_date" i = Some (VTimestamp d) →
       cell out "month" i = Some (VInt (month d)) ∧
       cell out "week" i = Some (VInt (get_week_of_year d))).
Proof.
  intros Hl Hret.
  destruct (returned_inv h l f out Hl Hret)
    as (acq & dates & sat & lat & lat' & lon & lon' & labels
        & Hacq & Hdt & _ & _ & _ & _ & _ & _ & _ & _ & ->).
  unfold cell. rewrite output_month, output_week, Hacq. simpl. split.
  - intros strs [= ->] Hiso i s Hs. simpl in Hdt.
    destruct (result_mapM to_timestamp strs) as [ds|] eqn:Hds; [|discriminate].
    simpl in Hdt. injection Hdt as ->.
    destruct (result_mapM_lookup _ _ _ _ _ Hds Hs) as (d & Hd & Hdi).
    exists d. rewrite !list_lookup_fmap, Hdi. simpl.
    destruct (to_timestamp_Ok s d Hd) as (Hv & _ & _).
    split; [by apply to_timestamp_parse|].
    repeat split; try done.
    + by apply valid_date_month.
    + by apply valid_date_month.
    + by apply week_of_year_range.
    + by apply week_of_year_range.
  - intros i d (ds & -> & Hd)%col_values_VTimestamp. simpl in Hdt.
    injection Hdt as <-. rewrite !list_lookup_fmap, Hd. done.
Qed.

(** X4.  Row by row, a float [latitude] or [longitude] comes out as its
    binary64 rounding to two decimals, a value that a further rounding
    leaves as it is; an integer coordinate comes out unchanged. *)
Theorem coordinates_of_rows (h : heap) (l : loc) (f out : DataFrame) (c : string) :
  h !! l = Some f →
  returned (process_live_data_and_cluster l h) = Ok (Some out) →
  c ∈ ["latitude"; "longitude"] →
  (∀ i x, cell f c i = Some (VFloat x) →
     cell out c i = Some (VFloat (around 2 x)) ∧ around 2 (around 2 x) = around 2 x)
  ∧ (∀ i z, cell f c i = Some (VInt z) → cell out c i = Some (VInt z)).
Proof.
  intros Hl Hret Hc.
  destruct (returned_inv h l f out Hl Hret)
    as (acq & dates & sat & lat & lat' & lon & lon' & labels
        & _ & _ & _ & Hlat & Hlat' & Hlon & Hlon' & _ & _ & _ & ->).
  assert (Hcol : ∃ col col', df_columns f !! c = Some col ∧ Series_round 2 col = Ok col'
            ∧ df_columns (output f dates sat lat' lon' labels) !! c = Some col').
  { apply elem_of_cons in Hc as [->|Hc].
    - exists lat, lat'. by rewrite output_latitude.
    - apply list_elem_of_singleton in Hc as ->. exists lon, lon'. by rewrite output_longitude. }
  destruct Hcol as (col & col' & Hcol & Hround & Hout).
  unfold cell. rewrite Hcol, Hout. simpl. split.
  - intros i x (xs & -> & Hx)%col_values_VFloat. simpl in Hround. injection Hround as <-.
    simpl. rewrite <- list_fmap_compose, list_lookup_fmap, Hx. simpl.
    split; [done|]. apply around_idempotent.
  - intros i z (xs & -> & Hz)%col_values_VInt. simpl in Hround. injection Hround as <-.
    simpl. by rewrite list_lookup_fmap, Hz.
Qed.

(** X5.  The clustering sees the coordinates rounded: two batches of as
    many rows whose coordinates agree once rounded to two decimals get the
    same [clusters] column, however they differ below the rounding. *)
Theorem clusters_from_rounded_coordinates (h1 h2 : heap) (l1 l2 : loc)
    (f1 f2 : DataFrame) :
  h1 !! l1 = Some f1 →
  h2 !! l2 = Some f2 →
  preprocessable f1 = true →
  preprocessable f2 = true →
  nrows f1 = nrows f2 →
  coordinates f1 = coordinates f2 →
  clusters_of (process_live_data_and_cluster l1 h1)
  = clusters_of (process_live_data_and_cluster l2 h2).
Proof.
  intros Hl1 Hl2 Hpre1 Hpre2 Hn HX.
  rewrite (clusters_of_process h1 l1 f1 Hl1 Hpre1).
  rewrite (clusters_of_process h2 l2 f2 Hl2 Hpre2).
  unfold cluster_labels. by rewrite HX, Hn.
Qed.

End Rows.

(** ** When the function raises *)

Lemma result_mapM_first_error {A B} (g : A → result B) (xs : list A) i x e :
  xs !! i = Some x →
  g x = Raise e →
  (∀ j y, (j < i)%nat → xs !! j = Some y → is_ok (g y) = true) →
  result_mapM g xs = Raise e.
Proof.
  revert i. induction xs as [|a xs IH]; intros i; [done|].
  destruct i as [|i]; simpl.
  - intros [= ->] -> _. done.
  - intros Hx He Hbefore.
    destruct (g a) as [b|e'] eqn:Ha.
    + rewrite (IH i Hx He); [done|].
      intros j y Hj Hy. apply (Hbefore (S j) y); [lia|done].
    + specialize (Hbefore 0%nat a ltac:(lia) eq_refl). by rewrite Ha in Hbefore.
Qed.

Section Failures.
Context {hdbscan : DensityClusterer}.

(** X6.  A call on a table that lacks any of [acq_date], [acq_time],
    [satellite], [latitude], [longitude] raises: the function returns no
    frame built from a part of the columns. *)
Theorem missing_column_raises (h : heap) (l : loc) (f : DataFrame) (c : string) :
  h !! l = Some f →
  c ∈ required →
  df_columns f !! c = None →
  ∃ e, (process_live_data_and_cluster l h).1 = Raise e.
Proof.
  intros Hl Hc Hnone. rewrite (process_run h l f Hl). cbn [fst].
  destruct (transform f) as [[[]|e] f'] eqn:Ht; [exfalso|by eexists].
  destruct (transform_inv f f' Ht)
    as (acq & dates & sat & lat & lat' & lon & lon' & labels
        & Hacq & _ & Hsat & Hlat & _ & Hlon & _ & [tm Htm] & _).
  unfold required in Hc.
  repeat (apply elem_of_cons in Hc as [->|Hc]; [congruence|]).
  by apply elem_of_nil in Hc.
Qed.

(** X7.  Without an [acq_date] column the call raises [KeyError] on that
    name, whatever the other columns are; the working copy is left as it
    was copied. *)
Theorem missing_acq_date (h : heap) (l : loc) (f : DataFrame) :
  h !! l = Some f →
  df_columns f !! "acq_date" = None →
  process_live_data_and_cluster l h = (Raise (KeyError "acq_date"), h ++ [f]).
Proof.
  intros Hl Hacq. rewrite (process_run h l f Hl).
  unfold transform. by rewrite bind_getitem, Hacq.
Qed.

(** X8.  The dates are converted before anything else is looked at.
    When the date of a row is written [YYYY-MM-DD] with a day beyond the
    end of its month, or is a calendar day outside the bounds of a
    [Timestamp], and the dates of the rows before it convert, the call
    raises for that row, [OutOfBoundsDatetime] in the second case and
    [ValueError] in the first, whatever the other columns are; the working
    copy is as it was copied. *)
Theorem first_bad_date_raises (h : heap) (l : loc) (f : DataFrame)
    (dates : list string) (i : nat) (s : string) (d : date) :
  h !! l = Some f →
  df_columns f !! "acq_date" = Some (ObjectCol dates) →
  dates !! i = Some s →
  parse_iso_date s = Some d →
  day_out_of_month d || out_of_bounds d = true →
  (∀ j s', (j < i)%nat → dates !! j = Some s' → is_ok (to_timestamp s') = true) →
  ∃ e, process_live_data_and_cluster l h = (Raise e, h ++ [f])
    ∧ if out_of_bounds d then e = OutOfBoundsDatetime else ∃ msg, e = ValueError msg.
Proof.
  intros Hl Hacq Hs Hparse Hbad Hbefore.
  assert (He : ∃ e, to_timestamp s = Raise e
            ∧ if out_of_bounds d then e = OutOfBoundsDatetime else ∃ msg, e = ValueError msg).
  { unfold to_timestamp. rewrite Hparse. unfold out_of_bounds in *.
    destruct (valid_date d) eqn:Hv; cbn [negb andb] in *.
    - destruct (date_leb Timestamp_min d && date_leb d Timestamp_max) eqn:Hb;
        cbn [negb] in *; [|by eauto].
      rewrite orb_false_r in Hbad. unfold day_out_of_month, valid_date in *.
      rewrite !andb_true_iff, !Z.leb_le in Hv. rewrite !andb_true_iff, Z.ltb_lt in Hbad. lia.
    - by eauto. }
  destruct He as (e & He & Hkind). exists e. split; [|done].
  rewrite (process_run h l f Hl).
  unfold transform. rewrite bind_getitem, Hacq, bind_lift. cbn [pd_to_datetime].
  by rewrite (result_mapM_first_error _ _ i s e Hs He Hbefore).
Qed.

(** X9.  [acq_time] is never read, yet it must be there: on a batch that
    lacks it and is in order otherwise, the call raises the [KeyError] of
    [df.drop], [['acq_time'] not found in axis], before any clustering. *)
Theorem missing_acq_time (h : heap) (l : loc) (f : DataFrame) (acq sat lat lon : column) :
  h !! l = Some f →
  df_columns f !! "acq_date" = Some acq →
  is_ok (pd_to_datetime acq) = true →
  df_columns f !! "satellite" = Some sat →
  df_columns f !! "latitude" = Some lat →
  is_ok (Series_round 2 lat) = true →
  df_columns f !! "longitude" = Some lon →
  is_ok (Series_round 2 lon) = true →
  df_columns f !! "acq_time" = None →
  (process_live_data_and_cluster l h).1
  = Raise (KeyError "['acq_time'] not found in axis").
Proof.
  intros Hl Hacq [acq' Hdt]%is_ok_Ok Hsat Hlat [lat' Hlat']%is_ok_Ok
    Hlon [lon' Hlon']%is_ok_Ok Htm.
  destruct (pd_to_datetime_Ok _ _ Hdt) as [dates ->].
  rewrite (process_run h l f Hl). unfold transform.
  rewrite bind_getitem, Hacq, bind_lift, Hdt.
  rewrite bind_setitem, bind_getitem. lookups. rewrite Hsat.
  rewrite bind_setitem, bind_getitem. lookups. rewrite Hlat, bind_lift, Hlat'.
  rewrite bind_setitem, bind_getitem. lookups. rewrite Hlon, bind_lift, Hlon'.
  rewrite bind_setitem, bind_getitem. lookups.
  rewrite bind_lift. cbn [dt_month].
  rewrite bind_setitem, bind_getitem. lookups.
  rewrite bind_lift. cbn [dt_weekofyear].
  rewrite bind_setitem, bind_drop. cbn [List.filter]. lookups.
  rewrite bool_decide_eq_false_2 by done.
  rewrite Htm, bool_decide_eq_true_2 by done. done.
Qed.

(** X10.  An exception of the clustering is the exception of the call. *)
Theorem clustering_exception_raised (h : heap) (l : loc) (f : DataFrame) (e : exn) :
  h !! l = Some f →
  preprocessable f = true →
  cluster_labels f = Raise e →
  (process_live_data_and_cluster l h).1 = Raise e.
Proof.
  intros Hl Hpre Hfit.
  destruct (preprocessable_inv f Hpre)
    as (acq & dates & sat & lat & lat' & lon & lon'
        & Hacq & Hdt & Hsat & Hlat & Hlat' & Hlon & Hlon' & Htm & HX).
  unfold cluster_labels in Hfit. rewrite HX in Hfit.
  rewrite (process_run h l f Hl).
  rewrite (transform_pre f acq dates sat lat lat' lon lon') by done.
  by rewrite Hfit.
Qed.

(** X11.  The frame returned cannot be processed again: it has no
    [acq_date] column any more, and a call on it raises [KeyError]. *)
Theorem output_not_processed_again (h : heap) (l : loc) (f out : DataFrame)
    (h' : heap) (l' : loc) :
  h !! l = Some f →
  returned (process_live_data_and_cluster l h) = Ok (Some out) →
  h' !! l' = Some out →
  process_live_data_and_cluster l' h' = (Raise (KeyError "acq_date"), h' ++ [out]).
Proof.
  intros Hl Hret Hl'.
  destruct (returned_inv h l f out Hl Hret)
    as (acq & dates & sat & lat & lat' & lon & lon' & labels
        & _ & _ & _ & _ & _ & _ & _ & _ & _ & _ & ->).
  rewrite (process_run h' l' _ Hl'). unfold transform.
  by rewrite bind_getitem, output_acq_date.
Qed.

(** X12.  Dates given as strings and the same dates given as timestamps
    lead to the same outcome: the same frame, or the same exception. *)
Theorem strings_or_timestamps (h1 h2 : heap) (l1 l2 : loc) (f1 f2 : DataFrame)
    (strs : list string) (dates : list date) :
  h1 !! l1 = Some f1 →
  h2 !! l2 = Some f2 →
  df_columns f1 !! "acq_date" = Some (ObjectCol strs) →
  result_mapM to_timestamp strs = Ok dates →
  df_index f2 = df_index f1 →
  df_columns f2 = <["acq_date" := DatetimeCol dates]> (df_columns f1) →
  returned (process_live_data_and_cluster l2 h2)
  = returned (process_live_data_and_cluster l1 h1).
Proof.
  intros Hl1 Hl2 Hacq Hparse Hidx Hcols.
  rewrite (returned_process h1 l1 f1 Hl1), (returned_process h2 l2 f2 Hl2).
  assert (Ht : transform f2 = transform f1).
  { unfold transform.
    rewrite !bind_getitem, Hacq, Hcols, lookup_insert_eq, !bind_lift.
    cbn [pd_to_datetime]. rewrite Hparse. cbn [result_map].
    rewrite !bind_setitem. do 2 f_equal; [done|].
    cbn [df_columns]. by rewrite Hcols, insert_insert_eq. }
  by rewrite Ht.
Qed.

End Failures.

(** ** How many rows are clustered *)

Lemma count_true_membership (labels : list Z) :
  count_true (cluster_membership <$> labels) = length (filter (λ c, c ≠ noise) labels).
Proof.
  unfold count_true. induction labels as [|c labels IH]; [done|].
  rewrite fmap_cons, !filter_cons.
  destruct (decide (cluster_membership c = true)) as [H1|H1];
    destruct (decide (c ≠ noise)) as [H2|H2]; simpl; rewrite ?IH; try done.
  - unfold cluster_membership in H1. by apply bool_decide_eq_true in H1.
  - exfalso. apply H1. unfold cluster_membership. by apply bool_decide_eq_true.
Qed.

Lemma one_label_among_clustered (labels : list Z) (c : Z) :
  c ≠ noise →
  (length (filter (λ c', c' = c) labels) ≤ length (filter (λ c', c' ≠ noise) labels))%nat.
Proof.
  intros Hc. induction labels as [|a labels IH]; [done|].
  rewrite !filter_cons.
  destruct (decide (a = c)) as [->|Hne].
  - destruct (decide (c ≠ noise)); [|done]. simpl. lia.
  - destruct (decide (a ≠ noise)); simpl; lia.
Qed.

Section Counts.
Context {hdbscan : DensityClusterer}.

(** X13.  With a clustering that keeps its minimum cluster size of 50,
    the number of rows marked [True] in [clusters] is zero or at least 50:
    never between 1 and 49. *)
Theorem clustered_rows_none_or_fifty (h : heap) (l : loc) (f : DataFrame)
    (labels : list Z) :
  h !! l = Some f →
  preprocessable f = true →
  cluster_labels f = Ok labels →
  length labels = nrows f →
  min_cluster_size_respected 50 labels = true →
  ∃ bs, clusters_of (process_live_data_and_cluster l h) = Ok (Some (BoolCol bs))
    ∧ length bs = nrows f
    ∧ (count_true bs = 0 ∨ 50 ≤ count_true bs)%nat.
Proof.
  intros Hl Hpre Hfit Hlen Hresp.
  exists (cluster_membership <$> labels).
  rewrite (clusters_of_process h l f Hl Hpre), Hfit, Hlen, Nat.eqb_refl.
  split; [done|]. split; [by rewrite length_fmap|].
  rewrite count_true_membership.
  destruct (filter (λ c, c ≠ noise) labels) as [|c rest] eqn:Hfilter; [by left|right].
  assert (Hc : c ∈ filter (λ c, c ≠ noise) labels) by (rewrite Hfilter; left).
  apply list_elem_of_filter in Hc as [Hc Hin].
  unfold min_cluster_size_respected in Hresp. rewrite forallb_forall in Hresp.
  specialize (Hresp c (proj1 (list_elem_of_In _ _) Hin)).
  apply orb_prop in Hresp as [Hn|Hm].
  - apply Z.eqb_eq in Hn. done.
  - apply Nat.leb_le in Hm. rewrite <- Hfilter.
    pose proof (one_label_among_clustered labels c Hc). lia.
Qed.

(** X14.  The pipeline finds the columns it selects by name in the frame
    returned exactly when the input carries [daynight], [brightness],
    [track], [scan], [bright_t31] and [frp]: the function supplies
    [satellite], [month], [week] and [clusters] and checks none of the
    others. *)
Theorem pipeline_columns_found (h : heap) (l : loc) (f out : DataFrame) :
  h !! l = Some f →
  returned (process_live_data_and_cluster l h) = Ok (Some out) →
  is_ok (frame_getitems ohe_features out).1 && is_ok (frame_getitems scale_features out).1
    = true
  ↔ ∀ c, c ∈ model_features → is_Some (df_columns f !! c).
Proof.
  intros Hl Hret.
  destruct (returned_inv h l f out Hl Hret)
    as (acq & dates & sat & lat & lat' & lon & lon' & labels
        & _ & _ & _ & _ & _ & _ & _ & _ & _ & _ & ->).
  unfold frame_getitems, ohe_features, scale_features, model_features. cbn [fst result_mapM].
  rewrite output_satellite, output_month, output_week, output_clusters.
  rewrite !(output_untouched f dates sat lat' lon' labels)
    by (unfold touched; intros Hc; repeat (apply elem_of_cons in Hc as [?|Hc]; [done|]);
        by apply elem_of_nil in Hc).
  split.
  - intros Hok c Hc.
    destruct (df_columns f !! "daynight") eqn:H1; [|by cbn in Hok].
    destruct (df_columns f !! "brightness") eqn:H2; [|by cbn in Hok].
    destruct (df_columns f !! "track") eqn:H3; [|by cbn in Hok].
    destruct (df_columns f !! "scan") eqn:H4; [|by cbn in Hok].
    destruct (df_columns f !! "bright_t31") eqn:H5; [|by cbn in Hok].
    destruct (df_columns f !! "frp") eqn:H6; [|by cbn in Hok].
    repeat (apply elem_of_cons in Hc as [->|Hc];
            [rewrite ?H1, ?H2, ?H3, ?H4, ?H5, ?H6; by eauto|]).
    by apply elem_of_nil in Hc.
  - intros Hall.
    destruct (Hall "daynight") as [? ->]; [set_solver|].
    destruct (Hall "brightness") as [? ->]; [set_solver|].
    destruct (Hall "track") as [? ->]; [set_solver|].
    destruct (Hall "scan") as [? ->]; [set_solver|].
    destruct (Hall "bright_t31") as [? ->]; [set_solver|].
    destruct (Hall "frp") as [? ->]; [set_solver|].
    done.
Qed.

End Counts.

(** ** The week of the year *)

(** Every calendar day of the years a [Timestamp] can hold. *)
Lemma iso_weeks_checked : all_between 1677 2262 iso_weeks_of_year = true.
Proof. vm_cast_no_check (eq_refl true). Qed.

(** X15.  [week] is the ISO 8601 week number.  Over the years a timestamp
    can hold, from one calendar day to the next the day of the week
    advances by one (1 January 1970 being a Thursday); the week number is
    constant from Monday to Sunday; on a Monday it goes up by one, or
    starts again at 1 when the Monday falls between 29 December and
    4 January; and 4 January is always in week 1. *)
Theorem week_is_iso_week (d : date) :
  valid_date d = true →
  1677 ≤ year d ≤ 2262 →
  dayofweek (Date 1970 1 1) = 3
  ∧ get_week_of_year (Date (year d) 1 4) = 1
  ∧ dayofweek (tomorrow d) = (dayofweek d + 1) mod 7
  ∧ (dayofweek (tomorrow d) ≠ 0 →
       get_week_of_year (tomorrow d) = get_week_of_year d)
  ∧ (dayofweek (tomorrow d) = 0 →
       get_week_of_year (tomorrow d)
       = if iso_year_start (tomorrow d) then 1 else get_week_of_year d + 1).
Proof.
  intros Hv Hy. split; [reflexivity|]. split.
  { pose proof (dayofweek_range (Date (year d) 1 4)) as Hdow.
    unfold get_week_of_year, get_day_of_year. cbn [year month day month_offset].
    set (dow := dayofweek _) in *. clearbody dow.
    replace (0 + 4 - 1 - dow + 3) with (6 - dow) by lia.
    destruct (Z.ltb_spec (6 - dow) 0); [lia|].
    rewrite Z.div_small by lia. reflexivity. }
  destruct d as [y m dd]. cbn [year] in Hy.
  assert (Hm : 1 ≤ m ≤ 12) by (apply (valid_date_month _ Hv)).
  assert (Hd : 1 ≤ dd ≤ 31).
  { unfold valid_date in Hv. cbn [year month day] in Hv.
    rewrite !andb_true_iff, !Z.leb_le in Hv. destruct Hv as [[[_ _] Hd1] Hd2].
    split; [done|]. etrans; [exact Hd2|].
    unfold days_per_month.
    assert (m = 1 ∨ m = 2 ∨ m = 3 ∨ m = 4 ∨ m = 5 ∨ m = 6 ∨ m = 7 ∨ m = 8
            ∨ m = 9 ∨ m = 10 ∨ m = 11 ∨ m = 12) as Hcase by lia.
    destruct Hcase as [->|[->|[->|[->|[->|[->|[->|[->|[->|[->|[->| ->]]]]]]]]]]];
      try destruct (is_leapyear y); lia. }
  pose proof (all_between_spec 1677 2262 iso_weeks_of_year y iso_weeks_checked Hy) as Hall1.
  unfold iso_weeks_of_year in Hall1.
  pose proof (all_between_spec 1 12 (iso_weeks_of_month y) m Hall1 Hm) as Hall2.
  unfold iso_weeks_of_month in Hall2.
  pose proof (all_between_spec 1 31 _ dd Hall2 Hd) as Hall3. cbv beta in Hall3.
  rewrite Hv in Hall3. cbn [implb] in Hall3.
  unfold iso_week_step in Hall3. cbv zeta in Hall3.
  apply andb_prop in Hall3 as [Hdow Hweek]. apply Z.eqb_eq in Hdow.
  split; [exact Hdow|].
  destruct (Z.eqb_spec (dayofweek (tomorrow (Date y m dd))) 0) as [H0|H0].
  - split; [intros Hne; destruct (Hne H0)|]. intros _.
    destruct (iso_year_start _); apply Z.eqb_eq in Hweek; exact Hweek.
  - split; [|intros H1; destruct (H0 H1)]. intros _.
    apply Z.eqb_eq in Hweek. exact Hweek.
Qed.

(** ** Coordinates with two decimals *)

(** X16.  Coordinates that have two decimals already come back as they
    are: a column of binary64 values [k / 100], for integers [k] from
    -18000 to 18000, is returned unchanged by the rounding. *)
Theorem two_decimal_coordinates_kept (ks : list Z) :
  Forall (λ k, -18000 ≤ k ≤ 18000) ks →
  Series_round 2 (FloatCol (hundredths <$> ks)) = Ok (FloatCol (hundredths <$> ks)).
Proof.
  intros Hks. simpl. do 2 f_equal. rewrite <- list_fmap_compose.
  apply Forall_fmap_ext_1. eapply Forall_impl; [exact Hks|].
  intros k Hk. simpl. by apply hundredths_fixed.
Qed.

(** * The normalised confusion matrix *)

Lemma shape_divide_rows (cm : list (list Z)) :
  shape (divide_rows (astype_float cm) (sum_axis1 cm)) = shape cm.
Proof.
  unfold shape, divide_rows, astype_float, sum_axis1.
  destruct cm as [|row cm]; [done|]. cbn. by rewrite length_zip_with, !length_fmap, Nat.min_id.
Qed.

Lemma divide_rows_lookup (cm : list (list Z)) (i : nat) (row : list Z) :
  cm !! i = Some row →
  divide_rows (astype_float cm) (sum_axis1 cm) !! i
  = Some ((λ c, (float_of_int64 c / float_of_int64 (row_sum row))%float) <$> row).
Proof.
  intros Hrow. unfold divide_rows, astype_float, sum_axis1.
  rewrite lookup_zip_with, !list_lookup_fmap, Hrow. simpl.
  by rewrite <- list_fmap_compose.
Qed.

Lemma sum_zeros (row : list Z) : Forall (λ c, c = 0) row → foldr Z.add 0 row = 0.
Proof. induction 1 as [|c row -> _ IH]; simpl; [done|]. by rewrite IH. Qed.

Lemma sum_one_cell (j k : nat) (a : Z) :
  foldr Z.add 0 (replicate j 0 ++ a :: replicate k 0) = a.
Proof.
  rewrite foldr_app. simpl.
  rewrite (sum_zeros (replicate k 0)) by (apply Forall_replicate; done).
  rewrite Z.add_0_r. induction j as [|j IH]; simpl; [done|]. by rewrite IH.
Qed.

Lemma zeros_by_zero (row : list Z) :
  Forall (λ c, c = 0) row →
  (λ c, (float_of_int64 c / float_of_int64 (int64_wrap 0))%float) <$> row
  = replicate (length row) nan.
Proof.
  induction 1 as [|c row -> _ IH]; [done|].
  rewrite fmap_cons, IH. reflexivity.
Qed.

Lemma int64_wrap_small (a : Z) : 0 ≤ a < two53 → int64_wrap a = a.
Proof.
  unfold two53, int64_wrap. intros Ha. rewrite Z.mod_small; lia.
Qed.

(** The binary64 number of a positive integer below [2^53], with its
    mantissa and exponent. *)
Lemma Prim2SF_float_of_int64_exact (a : Z) :
  0 < a < two53 →
  ∃ m e, Prim2SF (float_of_int64 a) = S754_finite false m e
         ∧ two52Z ≤ Z.pos m < two53 ∧ -52 ≤ e ≤ 0 ∧ Z.pos m = a * 2 ^ (- e).
Proof.
  intros Ha. unfold float_of_int64, float_of_Z.
  destruct (Z.eqb_spec a (-9223372036854775808)) as [->|_]; [unfold two53 in Ha; lia|].
  destruct (Z.ltb_spec a 0); [lia|].
  rewrite of_uint63_spec, Uint63.of_Z_spec.
  rewrite Z.mod_small
    by (unfold two53 in Ha; change wB with 9223372036854775808; lia).
  unfold prec, emax. rewrite binary_normalize_int by lia.
  unfold SFint. destruct (Z.eqb_spec a 0); [lia|].
  destruct (Zdigits2_bounds a ltac:(lia)) as [Hd [Hlo Hhi]].
  set (d := Zdigits2 a) in *.
  assert (Hd53 : d ≤ 53).
  { destruct (Z_le_gt_dec d 53) as [|Hgt]; [done|exfalso].
    assert (2 ^ 53 ≤ 2 ^ (d - 1)) by (apply Z.pow_le_mono_r; lia).
    unfold two53 in *. lia. }
  assert (HK : 2 ^ 52 ≤ a * 2 ^ (53 - d) < 2 ^ 53).
  { assert (H52 : 2 ^ 52 = 2 ^ (d - 1) * 2 ^ (53 - d))
      by (rewrite <- Z.pow_add_r by lia; f_equal; lia).
    assert (H53 : 2 ^ 53 = 2 ^ d * 2 ^ (53 - d))
      by (rewrite <- Z.pow_add_r by lia; f_equal; lia).
    pose proof (Z.pow_pos_nonneg 2 (53 - d) ltac:(lia) ltac:(lia)).
    rewrite H52, H53. nia. }
  eexists _, _. split; [reflexivity|].
  unfold two52Z, two53.
  change (2 ^ 52) with 4503599627370496 in HK.
  change (2 ^ 53) with 9007199254740992 in HK.
  rewrite Z2Pos.id by lia. repeat split; try lia.
  f_equal. f_equal. lia.
Qed.

(** A normal number divided by itself is 1. *)
Lemma SF64div_self (m : positive) (e : Z) :
  two52Z ≤ Z.pos m < two53 →
  SF64div (S754_finite false m e) (S754_finite false m e) = SFone.
Proof.
  intros Hm. unfold SF64div, SFdiv, SFdiv_core_binary. cbn [xorb].
  unfold two52Z, two53 in Hm.
  rewrite (Zdigits2_unique (Z.pos m) 53)
    by (change (2 ^ (53 - 1)) with 4503599627370496;
        change (2 ^ 53) with 9007199254740992; lia).
  unfold prec, emax. rewrite fexp_eq.
  replace (Z.min (Z.max (53 + e - (53 + e) - 53) (-1074)) (e - e)) with (-53) by lia.
  replace (e - e - -53) with 53 by lia.
  rewrite Z.shiftl_mul_pow2 by lia. change (2 ^ 53) with 9007199254740992.
  assert (Hq : Z.div_eucl (Z.pos m * 9007199254740992) (Z.pos m) = (9007199254740992, 0)).
  { pose proof (Z.div_mul 9007199254740992 (Z.pos m) ltac:(lia)) as Hdiv.
    pose proof (Z.mod_mul 9007199254740992 (Z.pos m) ltac:(lia)) as Hmod.
    rewrite (Z.mul_comm 9007199254740992) in Hdiv, Hmod.
    unfold Z.div in Hdiv. unfold Z.modulo in Hmod.
    destruct (Z.div_eucl _ _) as [q r]. simpl in Hdiv, Hmod. by subst. }
  rewrite Hq.
  assert (Hloc : new_location (Z.pos m) 0 = loc_Exact).
  { unfold new_location, new_location_even, new_location_odd.
    by destruct (Z.even (Z.pos m)). }
  rewrite Hloc. reflexivity.
Qed.

Lemma div_self (a : Z) :
  0 < a < two53 → (float_of_int64 a / float_of_int64 a)%float = 1%float.
Proof.
  intros Ha. destruct (Prim2SF_float_of_int64_exact a Ha) as (m & e & Hx & Hm & _).
  apply Prim2SF_inj. rewrite div_spec, Hx, SF64div_self by done. reflexivity.
Qed.

Lemma zero_div (a : Z) :
  0 < a < two53 → (float_of_int64 0 / float_of_int64 a)%float = 0%float.
Proof.
  intros Ha. destruct (Prim2SF_float_of_int64_exact a Ha) as (m & e & Hx & _).
  apply Prim2SF_inj. rewrite div_spec, Hx. reflexivity.
Qed.

(** ** A count divided by the sum of its row *)

Lemma new_location_spec (n r : Z) :
  0 < n → new_location n r = loc_of_rem r n.
Proof.
  intros Hn. unfold new_location, new_location_even, new_location_odd, loc_of_rem.
  destruct (Z.even n) eqn:He; destruct (Z.eqb_spec r 0); try done.
  f_equal.
  assert (Hodd : Z.odd n = true) by (rewrite <- Z.negb_even, He; done).
  apply Z.odd_spec in Hodd as [k ->].
  destruct (Z.compare_spec (2 * r + 1) (2 * k + 1));
    destruct (Z.compare_spec (2 * r) (2 * k + 1)); try done; lia.
Qed.

(** The quotient of two normal numbers, rounded once. *)
Lemma SFdiv_normal (m1 m2 : positive) (e1 e2 : Z) :
  two52Z ≤ Z.pos m1 < two53 →
  two52Z ≤ Z.pos m2 < two53 →
  -900 ≤ e1 - e2 ≤ 900 →
  SF64div (S754_finite false m1 e1) (S754_finite false m2 e2)
  = if Z.pos m1 <? Z.pos m2
    then round_result false (rne_div (Z.pos m1 * two53) (Z.pos m2)) (e1 - e2 - 53)
    else round_result false (rne_div (Z.pos m1 * two53) (2 * Z.pos m2)) (e1 - e2 - 52).
Proof.
  intros H1 H2 He. unfold SF64div, SFdiv, SFdiv_core_binary. cbn [xorb].
  unfold two52Z, two53 in *.
  rewrite !(Zdigits2_unique (Z.pos _) 53)
    by (change (2 ^ (53 - 1)) with 4503599627370496;
        change (2 ^ 53) with 9007199254740992; lia).
  unfold prec, emax. rewrite fexp_eq.
  replace (Z.min (Z.max (53 + e1 - (53 + e2) - 53) (-1074)) (e1 - e2))
    with (e1 - e2 - 53) by lia.
  replace (e1 - e2 - (e1 - e2 - 53)) with 53 by lia.
  rewrite Z.shiftl_mul_pow2 by lia. change (2 ^ 53) with 9007199254740992.
  set (a := Z.pos m1 * 9007199254740992).
  assert (Hdiv : Z.div_eucl a (Z.pos m2) = (a / Z.pos m2, a mod Z.pos m2)).
  { unfold Z.div, Z.modulo. by destruct (Z.div_eucl a (Z.pos m2)). }
  rewrite Hdiv, new_location_spec by lia.
  rewrite bra_spec by (unfold a; lia).
  set (q := a / Z.pos m2).
  assert (Hq : Z.pos m2 * q ≤ a < Z.pos m2 * q + Z.pos m2).
  { pose proof (Z.div_mod a (Z.pos m2) ltac:(lia)) as Hdm.
    pose proof (Z.mod_pos_bound a (Z.pos m2) ltac:(lia)).
    fold q in Hdm. lia. }
  unfold a in Hq.
  destruct (Z.ltb_spec (Z.pos m1) (Z.pos m2)) as [Hlt|Hge].
  - rewrite (Zdigits2_unique q 53)
      by (change (2 ^ (53 - 1)) with 4503599627370496;
          change (2 ^ 53) with 9007199254740992; nia).
    replace (Z.max 0 (fexp 53 1024 (53 + (e1 - e2 - 53)) - (e1 - e2 - 53))) with 0
      by (rewrite fexp_eq; lia).
    change (2 ^ 0) with 1. by rewrite Z.mul_1_r, Z.add_0_r.
  - rewrite (Zdigits2_unique q 54)
      by (change (2 ^ (54 - 1)) with 9007199254740992;
          change (2 ^ 54) with 18014398509481984; nia).
    replace (Z.max 0 (fexp 53 1024 (54 + (e1 - e2 - 53)) - (e1 - e2 - 53))) with 1
      by (rewrite fexp_eq; lia).
    change (2 ^ 1) with 2. rewrite (Z.mul_comm (Z.pos m2) 2).
    by replace (e1 - e2 - 53 + 1) with (e1 - e2 - 52) by lia.
Qed.

Lemma SFleb_one_carry (e : Z) :
  e ≤ -52 → SFleb (S754_finite false 4503599627370496 e) SFone = true.
Proof.
  intros He. unfold SFleb, SFcompare, SFone.
  destruct (Z.compare_spec e (-52)); [done|done|lia].
Qed.

Lemma SFleb_one_below (m : positive) (e : Z) :
  e < -52 → SFleb (S754_finite false m e) SFone = true.
Proof.
  intros He. unfold SFleb, SFcompare, SFone.
  destruct (Z.compare_spec e (-52)); [lia|done|lia].
Qed.

(** The quotient of a count by a sum that holds it is a proportion. *)
Lemma proportion (c s : Z) :
  0 ≤ c ≤ s → 0 < s < two53 →
  (0 <=? float_of_int64 c / float_of_int64 s)%float = true
  ∧ (float_of_int64 c / float_of_int64 s <=? 1)%float = true.
Proof.
  intros Hc Hs.
  destruct (decide (c = 0)) as [->|Hc0].
  { rewrite zero_div by done. split; reflexivity. }
  destruct (Prim2SF_float_of_int64_exact c ltac:(lia)) as (m1 & e1 & Hx & Hm1 & He1 & Hv1).
  destruct (Prim2SF_float_of_int64_exact s Hs) as (m2 & e2 & Hy & Hm2 & He2 & Hv2).
  rewrite !leb_spec, div_spec, Hx, Hy.
  rewrite SFdiv_normal by (try done; lia).
  change (Prim2SF 0) with SFzero. change (Prim2SF 1) with SFone.
  (* the smaller number has the smaller exponent *)
  pose proof (Z.pow_pos_nonneg 2 (- e1) ltac:(lia) ltac:(lia)) as Hp1.
  pose proof (Z.pow_pos_nonneg 2 (- e2) ltac:(lia) ltac:(lia)) as Hp2.
  assert (Hee : e1 ≤ e2).
  { destruct (Z_le_gt_dec e1 e2) as [|Hgt]; [done|exfalso].
    assert (Hpp : 2 ^ (- e2) = 2 ^ (- e1) * 2 ^ (e1 - e2))
      by (rewrite <- Z.pow_add_r by lia; f_equal; lia).
    assert (2 ^ 1 ≤ 2 ^ (e1 - e2)) by (apply Z.pow_le_mono_r; lia).
    change (2 ^ 1) with 2 in *. unfold two52Z, two53 in *. nia. }
  unfold two52Z, two53 in *.
  destruct (Z.ltb_spec (Z.pos m1) (Z.pos m2)) as [Hlt|Hge].
  - pose proof (rne_div_mono (Z.pos m2 * 4503599627370496) (Z.pos m1 * 9007199254740992)
                  (Z.pos m2) ltac:(lia) ltac:(lia)) as Hlo.
    pose proof (rne_div_mono (Z.pos m1 * 9007199254740992) (Z.pos m2 * 9007199254740992)
                  (Z.pos m2) ltac:(lia) ltac:(nia)) as Hhi.
    rewrite !rne_div_exact in Hlo, Hhi by lia.
    set (Q := rne_div (Z.pos m1 * 9007199254740992) (Z.pos m2)) in *. clearbody Q.
    unfold round_result, two53.
    destruct (Z.eqb_spec Q 0); [lia|].
    destruct (Z.eqb_spec Q 9007199254740992).
    + destruct (Z.leb_spec (e1 - e2 - 53 + 1) 971); [|lia].
      split; [reflexivity|]. apply SFleb_one_carry. lia.
    + destruct (Z.leb_spec (e1 - e2 - 53) 971); [|lia].
      split; [reflexivity|]. apply SFleb_one_below. lia.
  - pose proof (rne_div_mono (2 * Z.pos m2 * 4503599627370496) (Z.pos m1 * 9007199254740992)
                  (2 * Z.pos m2) ltac:(lia) ltac:(lia)) as Hlo.
    pose proof (rne_div_mono (Z.pos m1 * 9007199254740992)
                  (2 * Z.pos m2 * 9007199254740991)
                  (2 * Z.pos m2) ltac:(lia) ltac:(nia)) as Hhi.
    rewrite !rne_div_exact in Hlo, Hhi by lia.
    destruct (decide (e1 = e2)) as [->|Hne].
    + assert (Z.pos m1 = Z.pos m2) as Heq by (rewrite Hv1, Hv2 in *; nia).
      rewrite Heq.
      replace (Z.pos m2 * 9007199254740992) with (2 * Z.pos m2 * 4503599627370496) by lia.
      rewrite rne_div_exact by lia.
      replace (e2 - e2 - 52) with (-52) by lia. split; reflexivity.
    + set (Q := rne_div (Z.pos m1 * 9007199254740992) (2 * Z.pos m2)) in *. clearbody Q.
      unfold round_result, two53.
      destruct (Z.eqb_spec Q 0); [lia|].
      destruct (Z.eqb_spec Q 9007199254740992); [lia|].
      destruct (Z.leb_spec (e1 - e2 - 52) 971); [|lia].
      split; [reflexivity|]. apply SFleb_one_below. lia.
Qed.

Lemma cell_le_sum (row : list Z) (c : Z) :
  Forall (λ c, 0 ≤ c) row → c ∈ row → 0 ≤ c ≤ foldr Z.add 0 row.
Proof.
  induction 1 as [|a row Ha Hrow IH]; [by intros ?%elem_of_nil|].
  assert (0 ≤ foldr Z.add 0 row).
  { clear IH. induction Hrow as [|b row Hb _ IH]; simpl; lia. }
  intros [->|Hc]%elem_of_cons; simpl; [lia|].
  specialize (IH Hc). lia.
Qed.

Section ConfusionPlotFacts.
Context {sklearn : ConfusionMatrix}.

Lemma normalized_Ok y_test y_pred title cm hm :
  confusion_matrix y_test y_pred = Ok cm →
  normalized_confusion_matrix y_test y_pred title = Ok hm →
  hm_data hm = divide_rows (astype_float cm) (sum_axis1 cm).
Proof.
  intros Hcm. unfold normalized_confusion_matrix. rewrite Hcm. cbv zeta.
  case_bool_decide; [|discriminate]. by intros [= <-].
Qed.

(** X17.  The figure is drawn for exactly two classes.  When the
    confusion matrix is 2 by 2 the function shows the matrix normalised by
    rows: each cell of the figure is the count of the cell divided in
    binary64 by the [int64] sum of its row; both axes are labelled 0 and
    1, the cells are annotated, and the figure carries the title given and
    the axis names [Predicted Fires] and [True Fires].  For any other
    number of classes, a single one included, it raises [ValueError]. *)
Theorem two_classes_or_ValueError (y_test y_pred : list Z) (title : string)
    (cm : list (list Z)) :
  confusion_matrix y_test y_pred = Ok cm →
  (shape cm = (2, 2)%nat →
     ∃ hm, normalized_confusion_matrix y_test y_pred title = Ok hm
       ∧ shape (hm_data hm) = (2, 2)%nat
       ∧ (∀ i row, cm !! i = Some row →
            hm_data hm !! i
            = Some ((λ c, (float_of_int64 c / float_of_int64 (row_sum row))%float)
                      <$> row))
       ∧ hm_index hm = [0; 1] ∧ hm_columns hm = [0; 1]
       ∧ hm_annot hm = true
       ∧ hm_title hm = title
       ∧ hm_xlabel hm = "Predicted Fires" ∧ hm_ylabel hm = "True Fires")
  ∧ (shape cm ≠ (2, 2)%nat →
       ∃ msg, normalized_confusion_matrix y_test y_pred title = Raise (ValueError msg)).
Proof.
  intros Hcm. unfold normalized_confusion_matrix. rewrite Hcm. cbv zeta.
  rewrite shape_divide_rows. change (length (range 2)) with 2%nat.
  split; intros Hshape.
  - rewrite bool_decide_eq_true_2 by done. eexists. split; [reflexivity|].
    cbn [hm_data hm_index hm_columns hm_title hm_annot hm_xlabel hm_ylabel].
    rewrite shape_divide_rows. split; [done|]. split; [|done].
    intros i row Hrow. by apply divide_rows_lookup.
  - rewrite bool_decide_eq_false_2 by done. eauto.
Qed.

(** X18.  A class without any true sample has a row of zeros, and its
    normalised row is NaN in every cell: the division of zero by zero is
    neither an error nor a zero. *)
Theorem empty_class_row_is_nan (y_test y_pred : list Z) (title : string)
    (cm : list (list Z)) (hm : Heatmap) (i : nat) (row : list Z) :
  confusion_matrix y_test y_pred = Ok cm →
  normalized_confusion_matrix y_test y_pred title = Ok hm →
  cm !! i = Some row →
  Forall (λ c, c = 0) row →
  hm_data hm !! i = Some (replicate (length row) nan).
Proof.
  intros Hcm Hhm Hrow Hzero.
  rewrite (normalized_Ok _ _ _ _ _ Hcm Hhm), (divide_rows_lookup cm i row Hrow).
  unfold row_sum. rewrite (sum_zeros row Hzero). f_equal.
  by apply zeros_by_zero.
Qed.

(** X19.  A row whose samples all fall in one cell is normalised to
    exactly 1 in that cell and 0 in the others, for any count below
    [2^53]: a perfect classifier is drawn as the identity matrix. *)
Theorem one_cell_row_is_unit (y_test y_pred : list Z) (title : string)
    (cm : list (list Z)) (hm : Heatmap) (i j k : nat) (a : Z) :
  confusion_matrix y_test y_pred = Ok cm →
  normalized_confusion_matrix y_test y_pred title = Ok hm →
  cm !! i = Some (replicate j 0 ++ a :: replicate k 0) →
  0 < a < 9007199254740992 →
  hm_data hm !! i = Some (replicate j 0%float ++ 1%float :: replicate k 0%float).
Proof.
  intros Hcm Hhm Hrow Ha.
  rewrite (normalized_Ok _ _ _ _ _ Hcm Hhm), (divide_rows_lookup cm i _ Hrow).
  unfold row_sum. rewrite sum_one_cell, int64_wrap_small by (unfold two53; lia). f_equal.
  rewrite fmap_app, fmap_cons, !fmap_replicate.
  by rewrite div_self, zero_div by (unfold two53; lia).
Qed.

(** X20.  In a row of counts whose sum is positive (and below [2^53]),
    every normalised cell is a proportion: a binary64 number between 0 and
    1, never NaN and never above 1 by a rounding. *)
Theorem cells_are_proportions (y_test y_pred : list Z) (title : string)
    (cm : list (list Z)) (hm : Heatmap) (i : nat) (row : list Z) :
  confusion_matrix y_test y_pred = Ok cm →
  normalized_confusion_matrix y_test y_pred title = Ok hm →
  cm !! i = Some row →
  Forall (λ c, 0 ≤ c) row →
  0 < foldr Z.add 0 row < 9007199254740992 →
  ∃ cells, hm_data hm !! i = Some cells
    ∧ length cells = length row
    ∧ Forall (λ x, (0 <=? x)%float = true ∧ (x <=? 1)%float = true) cells.
Proof.
  intros Hcm Hhm Hrow Hpos Hsum.
  rewrite (normalized_Ok _ _ _ _ _ Hcm Hhm), (divide_rows_lookup cm i row Hrow).
  eexists. split; [reflexivity|]. split; [by rewrite length_fmap|].
  unfold row_sum. rewrite int64_wrap_small by (unfold two53; lia).
  apply Forall_fmap, Forall_forall. intros c Hc. simpl.
  apply proportion; [by apply cell_le_sum|done].
Qed.

End ConfusionPlotFacts.

(** ** The further properties on sample batches *)

(** The columns of the small batch, processed. *)
Lemma output_columns_witness :
  dom (df_columns MoreSamples.small_batch_out) =@{gset string}
    {["month"; "week"; "clusters"]}
    ∪ (dom (df_columns Samples.small_batch) ∖ {["acq_date"; "acq_time"]}).
Proof.
  apply (output_columns (hdbscan := Colocated.clusterer)
           [Samples.small_batch] 0%nat Samples.small_batch MoreSamples.small_batch_out);
    vm_compute; reflexivity.
Defined.

(** The column [confidence] of the small batch. *)
Lemma other_columns_kept_witness :
  df_columns MoreSamples.small_batch_out !! "confidence"
  = df_columns Samples.small_batch !! "confidence"
  ∧ ∀ i, cell MoreSamples.small_batch_out "confidence" i
         = cell Samples.small_batch "confidence" i.
Proof.
  apply (other_columns_kept (hdbscan := Colocated.clusterer)
           [Samples.small_batch] 0%nat Samples.small_batch MoreSamples.small_batch_out);
    [reflexivity | vm_compute; reflexivity |].
  apply (bool_decide_eq_true_1 _). vm_compute. reflexivity.
Defined.

(** The dates of the small batch: 5 January 2020 twice and 30 December
    2019, a Monday of week 1. *)
Lemma month_and_week_of_rows_witness :
  (∀ strs,
     df_columns Samples.small_batch !! "acq_date" = Some (ObjectCol strs) →
     Forall (λ s, iso_calendar_day s = true) strs →
     ∀ i s, strs !! i = Some s →
       ∃ d, parse_iso_date s = Some d ∧
         cell MoreSamples.small_batch_out "month" i = Some (VInt (month d)) ∧
         cell MoreSamples.small_batch_out "week" i = Some (VInt (get_week_of_year d)) ∧
         1 ≤ month d ≤ 12 ∧ 1 ≤ get_week_of_year d ≤ 53)
  ∧ (∀ i d, cell Samples.small_batch "acq_date" i = Some (VTimestamp d) →
       cell MoreSamples.small_batch_out "month" i = Some (VInt (month d)) ∧
       cell MoreSamples.small_batch_out "week" i = Some (VInt (get_week_of_year d))).
Proof.
  apply (month_and_week_of_rows (hdbscan := Colocated.clusterer)
           [Samples.small_batch] 0%nat Samples.small_batch MoreSamples.small_batch_out);
    vm_compute; reflexivity.
Defined.

(** The latitudes of the small batch. *)
Lemma coordinates_of_rows_witness :
  (∀ i x, cell Samples.small_batch "latitude" i = Some (VFloat x) →
     cell MoreSamples.small_batch_out "latitude" i = Some (VFloat (around 2 x))
     ∧ around 2 (around 2 x) = around 2 x)
  ∧ (∀ i z, cell Samples.small_batch "latitude" i = Some (VInt z) →
       cell MoreSamples.small_batch_out "latitude" i = Some (VInt z)).
Proof.
  apply (coordinates_of_rows (hdbscan := Colocated.clusterer)
           [Samples.small_batch] 0%nat Samples.small_batch MoreSamples.small_batch_out);
    [reflexivity | vm_compute; reflexivity | by left].
Defined.

(** The small batch and a batch whose coordinates differ from it in the
    third and fourth decimals. *)
Lemma clusters_from_rounded_coordinates_witness :
  clusters_of (process_live_data_and_cluster (hdbscan := Colocated.clusterer)
                 0%nat [Samples.small_batch])
  = clusters_of (process_live_data_and_cluster (hdbscan := Colocated.clusterer)
                   1%nat [Samples.dense_batch; MoreSamples.small_batch_moved]).
Proof.
  apply (clusters_from_rounded_coordinates (hdbscan := Colocated.clusterer)
           [Samples.small_batch] [Samples.dense_batch; MoreSamples.small_batch_moved]
           0%nat 1%nat Samples.small_batch MoreSamples.small_batch_moved);
    vm_compute; reflexivity.
Defined.

(** A feed without [acq_time]. *)
Lemma missing_column_raises_witness :
  ∃ e, (process_live_data_and_cluster (hdbscan := Colocated.clusterer)
          0%nat [MoreSamples.no_acq_time]).1 = Raise e.
Proof.
  apply (missing_column_raises (hdbscan := Colocated.clusterer)
           [MoreSamples.no_acq_time] 0%nat MoreSamples.no_acq_time "acq_time");
    [reflexivity | | vm_compute; reflexivity].
  apply (bool_decide_eq_true_1 _). vm_compute. reflexivity.
Defined.

(** A feed without dates. *)
Lemma missing_acq_date_witness :
  process_live_data_and_cluster (hdbscan := Colocated.clusterer)
    0%nat [MoreSamples.no_acq_date]
  = (Raise (KeyError "acq_date"), [MoreSamples.no_acq_date] ++ [MoreSamples.no_acq_date]).
Proof.
  apply (missing_acq_date (hdbscan := Colocated.clusterer)
           [MoreSamples.no_acq_date] 0%nat MoreSamples.no_acq_date);
    vm_compute; reflexivity.
Defined.

(** 29 February 2019 in the second row, a date out of bounds in the third. *)
Lemma first_bad_date_raises_witness :
  ∃ e, process_live_data_and_cluster (hdbscan := Colocated.clusterer)
         0%nat [MoreSamples.bad_dates]
       = (Raise e, [MoreSamples.bad_dates] ++ [MoreSamples.bad_dates])
    ∧ if out_of_bounds (Date 2019 2 29) then e = OutOfBoundsDatetime
      else ∃ msg, e = ValueError msg.
Proof.
  apply (first_bad_date_raises (hdbscan := Colocated.clusterer)
           [MoreSamples.bad_dates] 0%nat MoreSamples.bad_dates
           ["2020-01-05"; "2019-02-29"; "1500-01-01"] 1%nat "2019-02-29" (Date 2019 2 29));
    [reflexivity | vm_compute; reflexivity | reflexivity | reflexivity | reflexivity |].
  intros j s' Hj. destruct j as [|j]; [|lia]. intros [= <-]. reflexivity.
Defined.

(** A feed without [acq_time]. *)
Lemma missing_acq_time_witness :
  (process_live_data_and_cluster (hdbscan := Colocated.clusterer)
     0%nat [MoreSamples.no_acq_time]).1
  = Raise (KeyError "['acq_time'] not found in axis").
Proof.
  apply (missing_acq_time (hdbscan := Colocated.clusterer)
           [MoreSamples.no_acq_time] 0%nat MoreSamples.no_acq_time
           (ObjectCol ["2020-01-05"; "2019-12-30"]) (ObjectCol ["T"; "A"])
           (FloatCol [34.567; 40.1]%float) (FloatCol [-118.123; -100.25]%float));
    vm_compute; reflexivity.
Defined.

(** A clustering that refuses the matrix. *)
Lemma clustering_exception_raised_witness :
  (process_live_data_and_cluster (hdbscan := MoreSamples.refusing)
     0%nat [Samples.small_batch]).1
  = Raise (ValueError "Input contains NaN, infinity or a value too large").
Proof.
  apply (clustering_exception_raised (hdbscan := MoreSamples.refusing)
           [Samples.small_batch] 0%nat Samples.small_batch);
    vm_compute; reflexivity.
Defined.

(** The small batch, processed, and passed in again. *)
Lemma output_not_processed_again_witness :
  process_live_data_and_cluster (hdbscan := Colocated.clusterer)
    1%nat [Samples.small_batch; MoreSamples.small_batch_out]
  = (Raise (KeyError "acq_date"),
     [Samples.small_batch; MoreSamples.small_batch_out] ++ [MoreSamples.small_batch_out]).
Proof.
  apply (output_not_processed_again (hdbscan := Colocated.clusterer)
           [Samples.small_batch] 0%nat Samples.small_batch MoreSamples.small_batch_out);
    [reflexivity | vm_compute; reflexivity | reflexivity].
Defined.

(** The small batch with its dates as strings and as timestamps. *)
Lemma strings_or_timestamps_witness :
  returned (process_live_data_and_cluster (hdbscan := Colocated.clusterer)
              0%nat [MoreSamples.small_batch_parsed])
  = returned (process_live_data_and_cluster (hdbscan := Colocated.clusterer)
                0%nat [Samples.small_batch]).
Proof.
  apply (strings_or_timestamps (hdbscan := Colocated.clusterer)
           [Samples.small_batch] [MoreSamples.small_batch_parsed] 0%nat 0%nat
           Samples.small_batch MoreSamples.small_batch_parsed
           ["2020-01-05"; "2020-01-05"; "2019-12-30"]
           [Date 2020 1 5; Date 2020 1 5; Date 2019 12 30]);
    first [reflexivity | vm_compute; reflexivity].
Defined.

(** Fifty rows of the dense batch are clustered. *)
Lemma clustered_rows_none_or_fifty_witness :
  ∃ bs, clusters_of (process_live_data_and_cluster (hdbscan := Colocated.clusterer)
                       0%nat [Samples.dense_batch]) = Ok (Some (BoolCol bs))
    ∧ length bs = nrows Samples.dense_batch
    ∧ (count_true bs = 0 ∨ 50 ≤ count_true bs)%nat.
Proof.
  apply (clustered_rows_none_or_fifty (hdbscan := Colocated.clusterer)
           [Samples.dense_batch] 0%nat Samples.dense_batch (replicate 50 0 ++ [-1; -1]));
    vm_compute; reflexivity.
Defined.

(** The small batch has every model feature. *)
Lemma pipeline_columns_found_witness :
  is_ok (frame_getitems ohe_features MoreSamples.small_batch_out).1
  && is_ok (frame_getitems scale_features MoreSamples.small_batch_out).1 = true
  ↔ ∀ c, c ∈ model_features → is_Some (df_columns Samples.small_batch !! c).
Proof.
  apply (pipeline_columns_found (hdbscan := Colocated.clusterer)
           [Samples.small_batch] 0%nat Samples.small_batch MoreSamples.small_batch_out);
    [reflexivity | vm_compute; reflexivity].
Defined.

(** Sunday 29 December 2019, and the Monday that begins week 1 of 2020. *)
Lemma week_is_iso_week_witness :
  dayofweek (Date 1970 1 1) = 3
  ∧ get_week_of_year (Date 2019 1 4) = 1
  ∧ dayofweek (tomorrow (Date 2019 12 29)) = (dayofweek (Date 2019 12 29) + 1) mod 7
  ∧ (dayofweek (tomorrow (Date 2019 12 29)) ≠ 0 →
       get_week_of_year (tomorrow (Date 2019 12 29)) = get_week_of_year (Date 2019 12 29))
  ∧ (dayofweek (tomorrow (Date 2019 12 29)) = 0 →
       get_week_of_year (tomorrow (Date 2019 12 29))
       = if iso_year_start (tomorrow (Date 2019 12 29)) then 1
         else get_week_of_year (Date 2019 12 29) + 1).
Proof.
  apply (week_is_iso_week (Date 2019 12 29)); [reflexivity | simpl; lia].
Defined.

(** The coordinates 34.57 and -118.12. *)
Lemma two_decimal_coordinates_kept_witness :
  Series_round 2 (FloatCol (hundredths <$> [3457; -11812]))
  = Ok (FloatCol (hundredths <$> [3457; -11812])).
Proof.
  apply (two_decimal_coordinates_kept [3457; -11812]).
  repeat constructor; lia.
Defined.

(** Two classes, and a single class. *)
Lemma two_classes_or_ValueError_witness :
  ((shape [[1; 1]; [0; 3]] = (2, 2)%nat →
      ∃ hm, normalized_confusion_matrix (sklearn := Counting.sklearn)
              [0; 0; 1; 1; 1] [0; 1; 1; 1; 1] "DTC" = Ok hm
        ∧ shape (hm_data hm) = (2, 2)%nat
        ∧ (∀ i row, [[1; 1]; [0; 3]] !! i = Some row →
             hm_data hm !! i
             = Some ((λ c, (float_of_int64 c / float_of_int64 (row_sum row))%float)
                       <$> row))
        ∧ hm_index hm = [0; 1] ∧ hm_columns hm = [0; 1]
        ∧ hm_annot hm = true
        ∧ hm_title hm = "DTC"
        ∧ hm_xlabel hm = "Predicted Fires" ∧ hm_ylabel hm = "True Fires")
   ∧ (shape [[1; 1]; [0; 3]] ≠ (2, 2)%nat →
        ∃ msg, normalized_confusion_matrix (sklearn := Counting.sklearn)
                 [0; 0; 1; 1; 1] [0; 1; 1; 1; 1] "DTC" = Raise (ValueError msg)))
  ∧ ((shape [[3]] = (2, 2)%nat →
        ∃ hm, normalized_confusion_matrix (sklearn := Counting.sklearn)
                [1; 1; 1] [1; 1; 1] "DTC" = Ok hm
          ∧ shape (hm_data hm) = (2, 2)%nat
          ∧ (∀ i row, [[3]] !! i = Some row →
               hm_data hm !! i
               = Some ((λ c, (float_of_int64 c / float_of_int64 (row_sum row))%float)
                         <$> row))
          ∧ hm_index hm = [0; 1] ∧ hm_columns hm = [0; 1]
          ∧ hm_annot hm = true
          ∧ hm_title hm = "DTC"
          ∧ hm_xlabel hm = "Predicted Fires" ∧ hm_ylabel hm = "True Fires")
     ∧ (shape [[3]] ≠ (2, 2)%nat →
          ∃ msg, normalized_confusion_matrix (sklearn := Counting.sklearn)
                   [1; 1; 1] [1; 1; 1] "DTC" = Raise (ValueError msg))).
Proof.
  split.
  - apply (two_classes_or_ValueError (sklearn := Counting.sklearn)
             [0; 0; 1; 1; 1] [0; 1; 1; 1; 1] "DTC" [[1; 1]; [0; 3]]).
    vm_compute. reflexivity.
  - apply (two_classes_or_ValueError (sklearn := Counting.sklearn)
             [1; 1; 1] [1; 1; 1] "DTC" [[3]]).
    vm_compute. reflexivity.
Defined.

(** No sample of class 1, one sample predicted as class 1. *)
Lemma empty_class_row_is_nan_witness :
  hm_data {| hm_data := [[0.5; 0.5]; [nan; nan]]%float;
             hm_index := [0; 1]; hm_columns := [0; 1];
             hm_font_scale := 1.4; hm_annot := true; hm_annot_size := 16;
             hm_xlabel := "Predicted Fires"; hm_ylabel := "True Fires";
             hm_title := "DTC" |} !! 1%nat
  = Some (replicate (length [0; 0]) nan).
Proof.
  apply (empty_class_row_is_nan (sklearn := Counting.sklearn)
           [0; 0] [0; 1] "DTC" [[1; 1]; [0; 0]]);
    [vm_compute; reflexivity | vm_compute; reflexivity | reflexivity |].
  repeat constructor.
Defined.

(** Every sample predicted as its class. *)
Lemma one_cell_row_is_unit_witness :
  hm_data {| hm_data := [[1; 0]; [0; 1]]%float;
             hm_index := [0; 1]; hm_columns := [0; 1];
             hm_font_scale := 1.4; hm_annot := true; hm_annot_size := 16;
             hm_xlabel := "Predicted Fires"; hm_ylabel := "True Fires";
             hm_title := "DTC" |} !! 1%nat
  = Some (replicate 1 0%float ++ 1%float :: replicate 0 0%float).
Proof.
  apply (one_cell_row_is_unit (sklearn := Counting.sklearn)
           [0; 0; 1; 1; 1] [0; 0; 1; 1; 1] "DTC" [[2; 0]; [0; 3]] _ 1%nat 1%nat 0%nat 3);
    [vm_compute; reflexivity | vm_compute; reflexivity | reflexivity | lia].
Defined.

(** One sample of three predicted as the other class. *)
Lemma cells_are_proportions_witness :
  ∃ cells,
    hm_data {| hm_data := [[0.5; 0.5]; [0; 1]]%float;
               hm_index := [0; 1]; hm_columns := [0; 1];
               hm_font_scale := 1.4; hm_annot := true; hm_annot_size := 16;
               hm_xlabel := "Predicted Fires"; hm_ylabel := "True Fires";
               hm_title := "DTC" |} !! 0%nat = Some cells
    ∧ length cells = length [1; 1]
    ∧ Forall (λ x, (0 <=? x)%float = true ∧ (x <=? 1)%float = true) cells.
Proof.
  apply (cells_are_proportions (sklearn := Counting.sklearn)
           [0; 0; 1] [0; 1; 1] "DTC" [[1; 1]; [0; 1]]);
    [vm_compute; reflexivity | vm_compute; reflexivity | reflexivity
    | repeat constructor; lia | simpl; lia].
Defined.
